(** * Transform interpretation and SQL / dbt emission (dbml)

    A shallow embedding of
    - [packages/dbml-core/src/export/TransformExporter.js],
    - [packages/dbml-core/src/export/DbtExporter.js],
    - the transform interpreter ([TransformInterpreter.interpret] and the
      methods it calls),
    followed by the properties of the specification that concern them and by
    further properties read off the code.

    Modelling conventions.
    - JavaScript strings are [string]s of ASCII characters; [toUpperCase]
      and [toLowerCase] act on the letters a-z / A-Z only.
    - A JavaScript number is a [number]: NaN, an infinity, or the double of
      an integer value, which is all [parseInt] returns. [parseInt] rounds to
      the nearest double and the template literal [`${n}`] prints the
      shortest digits that identify it, as the language prescribes; the two
      agree with plain decimal notation below 2^53.
    - An optional property ([x?: T], possibly [undefined] or [null]) is an
      [option]; the truthiness tests of the source are written out.
    - [throw] is the [Throw] constructor of [completion].
    - Source positions ([token]) carry no behaviour and are left out. *)

From Stdlib Require Import String Ascii List ZArith Lia Bool.
From Stdlib Require Import DecimalString.
From Stdlib Require DecimalPos.
Import ListNotations.
Open Scope string_scope.

(** ** JavaScript primitives used by the sources *)

Module Js.

Definition LF : string := String "010"%char "".

(** The double-quote character, as a one-character string. *)
Definition DQ : string := String "034"%char "".

(** Outcome of a call: a returned value or a thrown [Error]. *)
Inductive completion (A : Type) : Type :=
| Normal (value : A)
| Throw (message : string).
Arguments Normal {A} value.
Arguments Throw {A} message.

(** [Boolean(s)] for a string. *)
Definition truthy (s : string) : bool := negb (s =? "").

(** [Boolean(x)] for an optional string. *)
Definition truthyOpt (o : option string) : bool :=
  match o with
  | Some s => truthy s
  | None => false
  end.

(** [!a || a.length === 0] for an optional array. *)
Definition absentOrEmpty {A : Type} (a : option (list A)) : bool :=
  match a with
  | None => true
  | Some [] => true
  | Some (_ :: _) => false
  end.

(** [a || []]. *)
Definition orEmpty {A : Type} (a : option (list A)) : list A :=
  match a with
  | Some l => l
  | None => []
  end.

(** [Array.prototype.join]. *)
Fixpoint join (sep : string) (xs : list string) : string :=
  match xs with
  | [] => ""
  | [x] => x
  | x :: rest => x ++ sep ++ join sep rest
  end.

(** [Array.prototype.filter(Boolean)] on an array of strings and nulls. *)
Fixpoint filterBoolean (xs : list (option string)) : list string :=
  match xs with
  | [] => []
  | Some s :: rest => if truthy s then s :: filterBoolean rest else filterBoolean rest
  | None :: rest => filterBoolean rest
  end.

Definition upperChar (c : ascii) : ascii :=
  let n := nat_of_ascii c in
  if (97 <=? n)%nat && (n <=? 122)%nat then ascii_of_nat (n - 32) else c.

Definition lowerChar (c : ascii) : ascii :=
  let n := nat_of_ascii c in
  if (65 <=? n)%nat && (n <=? 90)%nat then ascii_of_nat (n + 32) else c.

Fixpoint mapChars (f : ascii -> ascii) (s : string) : string :=
  match s with
  | EmptyString => EmptyString
  | String c r => String (f c) (mapChars f r)
  end.

Definition toUpperCase : string -> string := mapChars upperChar.
Definition toLowerCase : string -> string := mapChars lowerChar.

(** [String.prototype.startsWith]. *)
Fixpoint startsWith (s sub : string) {struct sub} : bool :=
  match sub, s with
  | EmptyString, _ => true
  | String _ _, EmptyString => false
  | String a sub', String b s' => Ascii.eqb a b && startsWith s' sub'
  end.

(** [String.prototype.includes]. *)
Fixpoint includes (s sub : string) : bool :=
  startsWith s sub ||
  match s with
  | EmptyString => false
  | String _ r => includes r sub
  end.

(** [String.prototype.split] on a one-character separator. *)
Fixpoint split (sep : ascii) (s : string) : list string :=
  match s with
  | EmptyString => [""]
  | String c r =>
      if Ascii.eqb c sep then "" :: split sep r
      else match split sep r with
           | h :: t => String c h :: t
           | [] => [String c ""]
           end
  end.

(** [s.includes(c)] for a single character [c]. *)
Fixpoint hasChar (c : ascii) (s : string) : bool :=
  match s with
  | EmptyString => false
  | String a r => Ascii.eqb a c || hasChar c r
  end.

(** [Array.prototype.includes] on an array of strings. *)
Definition arrayIncludes (xs : list string) (x : string) : bool :=
  existsb (String.eqb x) xs.

(** *** Numbers

    A JavaScript number as far as the sources hold one: [parseInt] returns
    NaN, an infinity or a double whose value is an integer, and
    [transform.limit] holds what [parseInt] returned. [Finite z] is the
    double of value [z], for the integers [z] that are doubles
    ([roundToDouble] returns no other); negative zero, which is falsy like
    zero and so is never printed, is [Finite 0]. *)
Inductive number : Type :=
| NaN
| Finite (value : Z)
| Infinity (negative : bool).

(** [!x] for a number: zero and NaN are falsy. *)
Definition falsy (x : number) : bool :=
  match x with
  | NaN => true
  | Finite z => (z =? 0)%Z
  | Infinity _ => false
  end.

(** [isNaN(x)]. *)
Definition isNaN (x : number) : bool :=
  match x with
  | NaN => true
  | _ => false
  end.

(** The double nearest to the integer [z], ties to the even significand: an
    integer below 2^53 in absolute value is a double; a longer one keeps its
    53 leading bits, and overflows to an infinity from 2^1024 on. *)
Definition roundToDouble (z : Z) : number :=
  let m := Z.abs z in
  if (m <? 2 ^ 53)%Z then Finite z
  else
    let shift := (Z.log2 m - 52)%Z in
    let q := Z.shiftr m shift in
    let r := (m - Z.shiftl q shift)%Z in
    let half := Z.shiftl 1 (shift - 1) in
    let q := if (half <? r)%Z || ((r =? half)%Z && Z.odd q) then (q + 1)%Z else q in
    let rounded := Z.shiftl q shift in
    if (2 ^ 1024 <=? rounded)%Z then Infinity (z <? 0)%Z
    else Finite (Z.sgn z * rounded)%Z.

(** The decimal digits of an integer, with a minus sign when negative. *)
Definition decimalDigits (z : Z) : string := NilZero.string_of_int (Z.to_int z).

(** Whether the integer [v] is read as the double [m]. *)
Definition denotes (m v : Z) : bool :=
  match roundToDouble v with
  | Finite z => (z =? m)%Z
  | _ => false
  end.

(** Among the two integers with [k] significant digits around [m] (an
    integer of [n] digits), the one nearest to [m] that is read as [m], if
    there is one. *)
Definition candidate (m n k : Z) : option Z :=
  let unit := (10 ^ (n - k))%Z in
  let low := (m / unit * unit)%Z in
  let high := (low + unit)%Z in
  match denotes m low, denotes m high with
  | true, true =>
      Some (if (m - low <? high - m)%Z then low
            else if (high - m <? m - low)%Z then high
            else if Z.even (low / unit) then low else high)
  | true, false => Some low
  | false, true => Some high
  | false, false => None
  end.

(** The integer with the fewest significant digits that is read as [m]:
    [k] digits are tried before [k + 1]. Seventeen digits identify any
    double. *)
Fixpoint shortest (fuel : nat) (m n k : Z) : Z :=
  match fuel with
  | O => m
  | S fuel =>
      match candidate m n k with
      | Some v => v
      | None => shortest fuel m n (k + 1)
      end
  end.

Fixpoint reverseOnto (s acc : string) : string :=
  match s with
  | EmptyString => acc
  | String c r => reverseOnto r (String c acc)
  end.

Fixpoint dropZeros (s : string) : string :=
  match s with
  | String "0"%char r => dropZeros r
  | _ => s
  end.

(** The digits without their trailing zeros. *)
Definition significant (digits : string) : string :=
  reverseOnto (dropZeros (reverseOnto digits "")) "".

(** [`${x}`] for a number (Number::toString, radix 10): the shortest digits
    that identify the double, followed by zeros up to 21 digits and written
    with an exponent beyond. Below 2^53 these are the digits of the integer
    itself. *)
Definition numberToString (x : number) : string :=
  match x with
  | NaN => "NaN"
  | Infinity negative => if negative then "-Infinity" else "Infinity"
  | Finite z =>
      let m := Z.abs z in
      if (m <? 2 ^ 53)%Z then decimalDigits z
      else
        let sign := if (z <? 0)%Z then "-" else "" in
        let digits :=
          decimalDigits (shortest 17 m (Z.of_nat (String.length (decimalDigits m))) 1) in
        let n := String.length digits in
        if (n <=? 21)%nat then sign ++ digits
        else
          match significant digits with
          | String d rest =>
              sign ++ String d (if truthy rest then "." ++ rest else "")
                ++ "e+" ++ decimalDigits (Z.of_nat n - 1)
          | EmptyString => sign ++ digits
          end
  end.

(** *** [parseInt(s, 10)] *)

Definition isWhiteSpace (c : ascii) : bool :=
  let n := nat_of_ascii c in
  ((9 <=? n)%nat && (n <=? 13)%nat) || (n =? 32)%nat.

Fixpoint trimStart (s : string) : string :=
  match s with
  | String c r => if isWhiteSpace c then trimStart r else s
  | EmptyString => EmptyString
  end.

Definition digitValue (c : ascii) : option Z :=
  let n := nat_of_ascii c in
  if (48 <=? n)%nat && (n <=? 57)%nat then Some (Z.of_nat (n - 48)) else None.

(** Value of the longest prefix of decimal digits, [None] when that
    prefix is empty. [acc] is the value read so far. *)
Fixpoint readDigits (acc : option Z) (s : string) : option Z :=
  match s with
  | String c r =>
      match digitValue c with
      | Some d =>
          readDigits (Some (10 * match acc with Some a => a | None => 0 end + d)%Z) r
      | None => acc
      end
  | EmptyString => acc
  end.

(** The sign and the integer of the longest numeral the string starts
    with, after leading white space; [None] when no digit is found. *)
Definition readInteger (s : string) : option Z :=
  match trimStart s with
  | String "-"%char r => option_map Z.opp (readDigits None r)
  | String "+"%char r => readDigits None r
  | r => readDigits None r
  end.

(** [parseInt(s, 10)]: NaN without a digit, else the double nearest to the
    integer read. *)
Definition parseInt (s : string) : number :=
  match readInteger s with
  | None => NaN
  | Some mathInt => roundToDouble mathInt
  end.

(** [xs.map(f)] for a callback that may throw: the first throw ends the map
    and is what the caller sees. *)
Fixpoint mapThrowing {A B : Type} (f : A -> completion B) (xs : list A)
    : completion (list B) :=
  match xs with
  | [] => Normal []
  | x :: rest =>
      match f x with
      | Throw message => Throw message
      | Normal y =>
          match mapThrowing f rest with
          | Throw message => Throw message
          | Normal ys => Normal (y :: ys)
          end
      end
  end.

End Js.

Import Js.

(** ** The Transform representation *)

Inductive Direction : Type := ASC | DESC.

Definition directionText (d : Direction) : string :=
  match d with
  | ASC => "ASC"
  | DESC => "DESC"
  end.

Module TransformOrderBy.
Record t : Type := Build { table : string; column : string; direction : Direction }.
End TransformOrderBy.

Module TransformSource.
Record t : Type := Build {
  name : string;
  schemaName : option string;
  alias : option string
}.
End TransformSource.

Module Aggregation.
Record t : Type := Build {
  function : string;
  partitionBy : option (list string);
  orderBy : option (list TransformOrderBy.t)
}.
End Aggregation.

Module Window.
Record t : Type := Build {
  function : string;
  partitionBy : option (list string);
  orderBy : option (list TransformOrderBy.t);
  frame : option string
}.
End Window.

Module TransformColumn.
Record t : Type := Build {
  sourceTable : string;
  sourceColumn : string;
  alias : option string;
  expression : option string;
  aggregation : option Aggregation.t;
  window : option Window.t
}.
End TransformColumn.

Module TransformJoin.
Record t : Type := Build {
  leftTable : string;
  leftColumn : string;
  operator : string;
  rightTable : string;
  rightColumn : string
}.
End TransformJoin.

Module TransformFilter.
Record t : Type := Build { expression : string }.
End TransformFilter.

Module DerivedColumn.
Record t : Type := Build { name : string; expression : string }.
End DerivedColumn.

Module NestedTransform.
Record t : Type := Build { transformName : string; sources : list TransformSource.t }.
End NestedTransform.

Module Transform.
Record t : Type := Build {
  name : string;
  schemaName : option string;
  alias : option string;
  sources : option (list TransformSource.t);
  columns : option (list TransformColumn.t);
  joins : option (list TransformJoin.t);
  filters : option (list TransformFilter.t);
  groupBy : option (list string);
  orderBy : option (list TransformOrderBy.t);
  limit : option number;
  derivedColumns : option (list DerivedColumn.t);
  nestedTransform : option NestedTransform.t
}.
End Transform.

(** ** TransformExporter.js *)

Module TransformExporter.

(** [` AS "${alias}"`] when the alias is truthy, [''] otherwise. *)
Definition aliasSuffix (alias : option string) : string :=
  match alias with
  | Some a => if truthy a then " AS " ++ DQ ++ a ++ DQ else ""
  | None => ""
  end.

(** [sourceTable ? `"t"."c"` : `"c"`]. *)
Definition columnRef (sourceTable sourceColumn : string) : string :=
  if truthy sourceTable
  then DQ ++ sourceTable ++ DQ ++ "." ++ DQ ++ sourceColumn ++ DQ
  else DQ ++ sourceColumn ++ DQ.

Definition orderTerm (o : TransformOrderBy.t) : string :=
  DQ ++ TransformOrderBy.table o ++ DQ ++ "." ++ DQ ++ TransformOrderBy.column o ++ DQ ++ " "
    ++ directionText (TransformOrderBy.direction o).

Definition quoted (p : string) : string := DQ ++ p ++ DQ.

Definition buildAggregationColumn (col : TransformColumn.t) (agg : Aggregation.t)
    (dialect : string) : string :=
  let func := toUpperCase (Aggregation.function agg) in
  let expr := columnRef (TransformColumn.sourceTable col) (TransformColumn.sourceColumn col) in
  let aggregateExpr := func ++ "(" ++ expr ++ ")" in
  let aggregateExpr :=
    if negb (absentOrEmpty (Aggregation.partitionBy agg)) then
      let partitionCols := join ", " (map quoted (orEmpty (Aggregation.partitionBy agg))) in
      let overClause := "PARTITION BY " ++ partitionCols in
      let overClause :=
        if negb (absentOrEmpty (Aggregation.orderBy agg)) then
          let orderCols := join ", " (map orderTerm (orEmpty (Aggregation.orderBy agg))) in
          overClause ++ " ORDER BY " ++ orderCols
        else overClause in
      func ++ "(" ++ expr ++ ") OVER (" ++ overClause ++ ")"
    else aggregateExpr in
  let alias := aliasSuffix (TransformColumn.alias col) in
  "  " ++ aggregateExpr ++ alias.

Definition takesArgument : list string :=
  ["LAG"; "LEAD"; "NTH_VALUE"; "FIRST_VALUE"; "LAST_VALUE"].

Definition noArgument : list string :=
  ["ROW_NUMBER"; "RANK"; "DENSE_RANK"; "PERCENT_RANK"; "CUME_DIST"].

Definition buildWindowColumn (col : TransformColumn.t) (win : Window.t)
    (dialect : string) : string :=
  let func := toUpperCase (Window.function win) in
  let args :=
    if arrayIncludes takesArgument func then
      columnRef (TransformColumn.sourceTable col) (TransformColumn.sourceColumn col)
    else if arrayIncludes noArgument func then
      ""
    else
      columnRef (TransformColumn.sourceTable col) (TransformColumn.sourceColumn col) in
  let overClause := "" in
  let overClause :=
    if negb (absentOrEmpty (Window.partitionBy win)) then
      "PARTITION BY " ++ join ", " (map quoted (orEmpty (Window.partitionBy win)))
    else overClause in
  let overClause :=
    if negb (absentOrEmpty (Window.orderBy win)) then
      let orderCols := join ", " (map orderTerm (orEmpty (Window.orderBy win))) in
      overClause ++ (if truthy overClause then " " else "") ++ ("ORDER BY " ++ orderCols)
    else overClause in
  let overClause :=
    match Window.frame win with
    | Some f =>
        if truthy f then overClause ++ (if truthy overClause then " " else "") ++ f
        else overClause
    | None => overClause
    end in
  let windowExpr := if truthy args then func ++ "(" ++ args ++ ")" else func ++ "()" in
  let fullExpr :=
    if truthy overClause then windowExpr ++ " OVER (" ++ overClause ++ ")"
    else windowExpr ++ " OVER ()" in
  let alias := aliasSuffix (TransformColumn.alias col) in
  "  " ++ fullExpr ++ alias.

(** The callback of [transform.columns.map] in [buildSelectClause]. *)
Definition columnExpression (dialect : string) (col : TransformColumn.t) : string :=
  match TransformColumn.aggregation col with
  | Some agg => buildAggregationColumn col agg dialect
  | None =>
      match TransformColumn.window col with
      | Some win => buildWindowColumn col win dialect
      | None =>
          if truthyOpt (TransformColumn.expression col)
             && negb (truthy (TransformColumn.sourceColumn col))
          then
            let alias := aliasSuffix (TransformColumn.alias col) in
            "  " ++ match TransformColumn.expression col with Some e => e | None => "" end
              ++ alias
          else
            let ref := columnRef (TransformColumn.sourceTable col)
                                 (TransformColumn.sourceColumn col) in
            let alias := aliasSuffix (TransformColumn.alias col) in
            "  " ++ ref ++ alias
      end
  end.

Definition buildSelectClause (transform : Transform.t) (dialect : string) : string :=
  if absentOrEmpty (Transform.columns transform) then "  *"
  else join ("," ++ LF) (map (columnExpression dialect) (orEmpty (Transform.columns transform))).

(** [`"schema"."name"`] or [`"name"`] for a source. *)
Definition tableName (source : TransformSource.t) : string :=
  match TransformSource.schemaName source with
  | Some sch =>
      if truthy sch then DQ ++ sch ++ DQ ++ "." ++ DQ ++ TransformSource.name source ++ DQ
      else DQ ++ TransformSource.name source ++ DQ
  | None => DQ ++ TransformSource.name source ++ DQ
  end.

Definition buildFromClause (transform : Transform.t) (dialect : string) : completion string :=
  match Transform.sources transform with
  | None | Some [] =>
      Throw ("Transform " ++ Transform.name transform ++ " has no sources")
  | Some (firstSource :: _) =>
      Normal (tableName firstSource ++ aliasSuffix (TransformSource.alias firstSource))
  end.

(** The predicate of [(transform.joins || []).filter] for one source. *)
Definition joinMentions (source : TransformSource.t) (j : TransformJoin.t) : bool :=
  (TransformJoin.rightTable j =? TransformSource.name source)
  || (TransformJoin.leftTable j =? TransformSource.name source).

Definition onClause (j : TransformJoin.t) : string :=
  let leftRef := DQ ++ TransformJoin.leftTable j ++ DQ ++ "." ++ DQ ++ TransformJoin.leftColumn j ++ DQ in
  let rightRef := DQ ++ TransformJoin.rightTable j ++ DQ ++ "." ++ DQ ++ TransformJoin.rightColumn j ++ DQ in
  leftRef ++ " " ++ TransformJoin.operator j ++ " " ++ rightRef.

(** The body of [remainingSources.forEach]: pushes one line onto [joins]. *)
Definition pushJoin (transform : Transform.t) (joins : list string)
    (source : TransformSource.t) : list string :=
  let joinConditions := filter (joinMentions source) (orEmpty (Transform.joins transform)) in
  let tableName := tableName source in
  let alias := aliasSuffix (TransformSource.alias source) in
  match joinConditions with
  | _ :: _ =>
      let onClauses := join " AND " (map onClause joinConditions) in
      joins ++ ["  INNER JOIN " ++ tableName ++ alias ++ " ON " ++ onClauses]
  | [] =>
      joins ++ ["  CROSS JOIN " ++ tableName ++ alias]
  end.

Definition buildJoinClauses (transform : Transform.t) (dialect : string) : list string :=
  match Transform.sources transform with
  | None | Some [] | Some [_] => []
  | Some (_ :: remainingSources) => fold_left (pushJoin transform) remainingSources []
  end.

Definition buildWhereClause (transform : Transform.t) (dialect : string) : option string :=
  if absentOrEmpty (Transform.filters transform) then None
  else
    let conditions :=
      join " AND " (map TransformFilter.expression (orEmpty (Transform.filters transform))) in
    Some ("WHERE " ++ conditions).

Definition groupByColumn (col : string) : string :=
  if includes col "." then
    let parts := split "."%char col in
    DQ ++ nth 0 parts "undefined" ++ DQ ++ "." ++ DQ ++ nth 1 parts "undefined" ++ DQ
  else DQ ++ col ++ DQ.

Definition buildGroupByClause (transform : Transform.t) (dialect : string) : option string :=
  if absentOrEmpty (Transform.groupBy transform) then None
  else
    let columns := join ", " (map groupByColumn (orEmpty (Transform.groupBy transform))) in
    Some ("GROUP BY " ++ columns).

Definition buildOrderByClause (transform : Transform.t) (dialect : string) : option string :=
  if absentOrEmpty (Transform.orderBy transform) then None
  else
    let columns := join ", " (map orderTerm (orEmpty (Transform.orderBy transform))) in
    Some ("ORDER BY " ++ columns).

(** [!transform.limit] holds for an absent limit and for a falsy number. *)
Definition buildLimitClause (transform : Transform.t) (dialect : string) : option string :=
  match Transform.limit transform with
  | None => None
  | Some n => if falsy n then None else Some ("LIMIT " ++ numberToString n)
  end.

Definition exportTransform (transform : Transform.t) (dialect : string) : completion string :=
  let viewName := Transform.name transform in
  let selectClause := buildSelectClause transform dialect in
  match buildFromClause transform dialect with
  | Throw message => Throw message
  | Normal fromClause =>
      let joinClauses := buildJoinClauses transform dialect in
      let whereClause := buildWhereClause transform dialect in
      let groupByClause := buildGroupByClause transform dialect in
      let orderByClause := buildOrderByClause transform dialect in
      let limitClause := buildLimitClause transform dialect in
      let parts := filterBoolean (
        [ Some ("-- Transform: " ++ viewName);
          Some ("CREATE OR REPLACE VIEW " ++ DQ ++ viewName ++ DQ ++ " AS");
          Some "SELECT";
          Some selectClause;
          Some ("FROM " ++ fromClause) ]
        ++ map Some joinClauses
        ++ [ whereClause; groupByClause; orderByClause; limitClause ]) in
      Normal (join LF parts ++ ";" ++ LF)
  end.

Definition exportTransforms (transforms : option (list Transform.t)) (dialect : string)
    : completion string :=
  if absentOrEmpty transforms then Normal ""
  else
    match mapThrowing (fun t => exportTransform t dialect) (orEmpty transforms) with
    | Throw message => Throw message
    | Normal statements => Normal (join LF statements)
    end.

End TransformExporter.

(** ** DbtExporter.js

    [generateDbtModel] and the clause builders it calls. [_.snakeCase] belongs
    to lodash, not to this repository: it is a parameter of the section. *)

(** The objects [generateSchemaYml] builds for one column and one model. *)
Module ColumnDoc.
Record t : Type := Build { name : string; description : string }.
End ColumnDoc.

Module ModelDoc.
Record t : Type := Build {
  name : string;
  description : string;
  columns : list ColumnDoc.t
}.
End ModelDoc.

(** The object [DbtExporter.exportTransforms] returns; [files] is missing
    from the summary of an empty export. *)
Module ExportSummary.
Record t : Type := Build {
  modelsGenerated : nat;
  outputDir : option string;
  files : option (list string)
}.
End ExportSummary.

(** A call into Node's [fs] that changes the disk. *)
Inductive FsCall : Type :=
| MkdirSync (path : string)
| WriteFileSync (path content : string).

Module DbtExporter.
Section WithLodash.

Variable snakeCase : string -> string.

(** [` AS ${alias}`] when the alias is truthy, [''] otherwise. *)
Definition aliasSuffix (alias : option string) : string :=
  match alias with
  | Some a => if truthy a then " AS " ++ a else ""
  | None => ""
  end.

(** [sourceTable ? `${t}.${c}` : c]. *)
Definition columnRef (sourceTable sourceColumn : string) : string :=
  if truthy sourceTable then sourceTable ++ "." ++ sourceColumn else sourceColumn.

Definition orderTerm (o : TransformOrderBy.t) : string :=
  TransformOrderBy.table o ++ "." ++ TransformOrderBy.column o ++ " "
  ++ directionText (TransformOrderBy.direction o).

Definition buildAggregationColumn (col : TransformColumn.t) (agg : Aggregation.t) : string :=
  let func := toUpperCase (Aggregation.function agg) in
  let expr := columnRef (TransformColumn.sourceTable col) (TransformColumn.sourceColumn col) in
  let aggregateExpr := func ++ "(" ++ expr ++ ")" in
  let aggregateExpr :=
    if negb (absentOrEmpty (Aggregation.partitionBy agg)) then
      let partitionCols := join ", " (orEmpty (Aggregation.partitionBy agg)) in
      let overClause := "PARTITION BY " ++ partitionCols in
      let overClause :=
        if negb (absentOrEmpty (Aggregation.orderBy agg)) then
          let orderCols := join ", " (map orderTerm (orEmpty (Aggregation.orderBy agg))) in
          overClause ++ " ORDER BY " ++ orderCols
        else overClause in
      func ++ "(" ++ expr ++ ") OVER (" ++ overClause ++ ")"
    else aggregateExpr in
  let alias := aliasSuffix (TransformColumn.alias col) in
  "  " ++ aggregateExpr ++ alias.

Definition buildWindowColumn (col : TransformColumn.t) (win : Window.t) : string :=
  let func := toUpperCase (Window.function win) in
  let args :=
    if arrayIncludes TransformExporter.takesArgument func then
      columnRef (TransformColumn.sourceTable col) (TransformColumn.sourceColumn col)
    else if negb (arrayIncludes TransformExporter.noArgument func) then
      columnRef (TransformColumn.sourceTable col) (TransformColumn.sourceColumn col)
    else "" in
  let overClause := "" in
  let overClause :=
    if negb (absentOrEmpty (Window.partitionBy win)) then
      "PARTITION BY " ++ join ", " (orEmpty (Window.partitionBy win))
    else overClause in
  let overClause :=
    if negb (absentOrEmpty (Window.orderBy win)) then
      let orderCols := join ", " (map orderTerm (orEmpty (Window.orderBy win))) in
      overClause ++ (if truthy overClause then " " else "") ++ ("ORDER BY " ++ orderCols)
    else overClause in
  let overClause :=
    match Window.frame win with
    | Some f =>
        if truthy f then overClause ++ (if truthy overClause then " " else "") ++ f
        else overClause
    | None => overClause
    end in
  let windowExpr := if truthy args then func ++ "(" ++ args ++ ")" else func ++ "()" in
  let fullExpr :=
    if truthy overClause then windowExpr ++ " OVER (" ++ overClause ++ ")"
    else windowExpr ++ " OVER ()" in
  let alias := aliasSuffix (TransformColumn.alias col) in
  "  " ++ fullExpr ++ alias.

(** The callback of [transform.columns.map] in [buildSelectClause]. *)
Definition columnExpression (col : TransformColumn.t) : string :=
  match TransformColumn.aggregation col with
  | Some agg => buildAggregationColumn col agg
  | None =>
      match TransformColumn.window col with
      | Some win => buildWindowColumn col win
      | None =>
          if truthyOpt (TransformColumn.expression col)
             && negb (truthy (TransformColumn.sourceColumn col))
          then
            let alias := aliasSuffix (TransformColumn.alias col) in
            "  " ++ match TransformColumn.expression col with Some e => e | None => "" end
              ++ alias
          else
            let ref := columnRef (TransformColumn.sourceTable col)
                                 (TransformColumn.sourceColumn col) in
            let alias := aliasSuffix (TransformColumn.alias col) in
            "  " ++ ref ++ alias
      end
  end.

Definition buildSelectClause (transform : Transform.t) : string :=
  if absentOrEmpty (Transform.columns transform) then "  *"
  else join ("," ++ LF) (map columnExpression (orEmpty (Transform.columns transform))).

(** [source.alias || source.name]. *)
Definition aliasOrName (source : TransformSource.t) : string :=
  match TransformSource.alias source with
  | Some a => if truthy a then a else TransformSource.name source
  | None => TransformSource.name source
  end.

(** [`{{ ref('${refName}') }}`]. *)
Definition ref (source : TransformSource.t) : string :=
  "{{ ref('" ++ snakeCase (TransformSource.name source) ++ "') }}".

Definition buildFromClause (transform : Transform.t) : completion string :=
  match Transform.sources transform with
  | None | Some [] =>
      Throw ("Transform " ++ Transform.name transform ++ " has no sources")
  | Some (firstSource :: _) =>
      Normal (ref firstSource ++ " AS " ++ aliasOrName firstSource)
  end.

Definition onClause (j : TransformJoin.t) : string :=
  TransformJoin.leftTable j ++ "." ++ TransformJoin.leftColumn j ++ " "
  ++ TransformJoin.operator j ++ " "
  ++ TransformJoin.rightTable j ++ "." ++ TransformJoin.rightColumn j.

(** The body of [remainingSources.forEach]: pushes one line onto [joins]. *)
Definition pushJoin (transform : Transform.t) (joins : list string)
  (source : TransformSource.t) : list string :=
  let joinConditions :=
    filter (TransformExporter.joinMentions source) (orEmpty (Transform.joins transform)) in
  let alias := aliasOrName source in
  match joinConditions with
  | _ :: _ =>
      let onClauses := join " AND " (map onClause joinConditions) in
      joins ++ ["  INNER JOIN " ++ ref source ++ " AS " ++ alias ++ " ON " ++ onClauses]
  | [] =>
      joins ++ ["  CROSS JOIN " ++ ref source ++ " AS " ++ alias]
  end.

Definition buildJoinClauses (transform : Transform.t) : list string :=
  match Transform.sources transform with
  | None | Some [] | Some [_] => []
  | Some (_ :: remainingSources) => fold_left (pushJoin transform) remainingSources []
  end.

Definition buildWhereClause (transform : Transform.t) : option string :=
  if absentOrEmpty (Transform.filters transform) then None
  else
    let conditions :=
      join " AND " (map TransformFilter.expression (orEmpty (Transform.filters transform))) in
    Some ("WHERE " ++ conditions).

Definition buildGroupByClause (transform : Transform.t) : option string :=
  if absentOrEmpty (Transform.groupBy transform) then None
  else Some ("GROUP BY " ++ join ", " (orEmpty (Transform.groupBy transform))).

Definition buildOrderByClause (transform : Transform.t) : option string :=
  if absentOrEmpty (Transform.orderBy transform) then None
  else
    let columns := join ", " (map orderTerm (orEmpty (Transform.orderBy transform))) in
    Some ("ORDER BY " ++ columns).

Definition buildLimitClause (transform : Transform.t) : option string :=
  match Transform.limit transform with
  | None => None
  | Some n => if falsy n then None else Some ("LIMIT " ++ numberToString n)
  end.

Definition generateDbtModel (transform : Transform.t) : completion string :=
  let selectClause := buildSelectClause transform in
  match buildFromClause transform with
  | Throw message => Throw message
  | Normal fromClause =>
      let joinClauses := buildJoinClauses transform in
      let whereClause := buildWhereClause transform in
      let groupByClause := buildGroupByClause transform in
      let orderByClause := buildOrderByClause transform in
      let limitClause := buildLimitClause transform in
      let parts := filterBoolean (
        [ Some "{{";
          Some "  config(";
          Some "    materialized='view'";
          Some "  )";
          Some "}}";
          Some "";
          Some ("-- Transform: " ++ Transform.name transform);
          Some "-- Generated from DBML";
          Some "";
          Some "SELECT";
          Some selectClause;
          Some ("FROM " ++ fromClause) ]
        ++ map Some joinClauses
        ++ [ whereClause; groupByClause; orderByClause; limitClause ]) in
      Normal (join LF parts ++ LF)
  end.

(** [c.alias || c.sourceColumn || 'unknown']. *)
Definition columnName (c : TransformColumn.t) : string :=
  match TransformColumn.alias c with
  | Some a =>
      if truthy a then a
      else if truthy (TransformColumn.sourceColumn c) then TransformColumn.sourceColumn c
      else "unknown"
  | None =>
      if truthy (TransformColumn.sourceColumn c) then TransformColumn.sourceColumn c
      else "unknown"
  end.

Definition columnDoc (c : TransformColumn.t) : ColumnDoc.t :=
  let columnName := columnName c in
  let description :=
    match TransformColumn.aggregation c with
    | Some agg =>
        "Aggregated column: " ++ Aggregation.function agg
          ++ "(" ++ TransformColumn.sourceColumn c ++ ")"
    | None =>
        match TransformColumn.window c with
        | Some win =>
            "Window function: " ++ Window.function win
              ++ "(" ++ TransformColumn.sourceColumn c ++ ")"
        | None =>
            "Column from " ++ TransformColumn.sourceTable c
              ++ "." ++ TransformColumn.sourceColumn c
        end
    end in
  ColumnDoc.Build columnName description.

Definition modelDoc (t : Transform.t) : ModelDoc.t :=
  let columns := map columnDoc (orEmpty (Transform.columns t)) in
  ModelDoc.Build (snakeCase (Transform.name t)) ("Transform: " ++ Transform.name t) columns.

(** The body of [model.columns.forEach]. *)
Definition pushColumn (yaml : list string) (col : ColumnDoc.t) : list string :=
  yaml ++ [ "      - name: " ++ ColumnDoc.name col;
            "        description: " ++ ColumnDoc.description col ].

(** The body of [models.forEach]. *)
Definition pushModel (yaml : list string) (model : ModelDoc.t) : list string :=
  let yaml := (yaml ++ [ ("  - name: " ++ ModelDoc.name model)%string ])%list in
  let yaml := (yaml ++ [ ("    description: " ++ ModelDoc.description model)%string ])%list in
  let yaml :=
    match ModelDoc.columns model with
    | _ :: _ => fold_left pushColumn (ModelDoc.columns model) (yaml ++ [ "    columns:" ])%list
    | [] => yaml
    end in
  yaml ++ [ "" ].

Definition generateSchemaYml (transforms : list Transform.t) : string :=
  let models := map modelDoc transforms in
  let yaml := [ "version: 2"; ""; "models:" ] in
  join LF (fold_left pushModel models yaml).

(** [path.join] and [fs.existsSync] belong to Node. The export is modelled
    by the [fs] calls it makes, in order, next to what it returns or throws;
    a call into [fs] is taken to succeed. *)
Variable pathJoin : string -> string -> string.
Variable existsSync : string -> bool.

(** [transforms.forEach]: one model file per transform, until a model cannot
    be generated. *)
Fixpoint writeModels (modelsDir : string) (transforms : list Transform.t)
    (calls : list FsCall) : list FsCall * completion unit :=
  match transforms with
  | [] => (calls, Normal tt)
  | transform :: rest =>
      match generateDbtModel transform with
      | Throw message => (calls, Throw message)
      | Normal sql =>
          let filename := pathJoin modelsDir (snakeCase (Transform.name transform) ++ ".sql") in
          writeModels modelsDir rest (calls ++ [ WriteFileSync filename sql ])%list
      end
  end.

Definition exportTransforms (transforms : option (list Transform.t)) (outputDir : string)
    : list FsCall * completion ExportSummary.t :=
  if absentOrEmpty transforms then ([], Normal (ExportSummary.Build 0 None None))
  else
    let transforms := orEmpty transforms in
    let modelsDir := pathJoin outputDir "models" in
    let calls := if existsSync modelsDir then [] else [ MkdirSync modelsDir ] in
    match writeModels modelsDir transforms calls with
    | (calls, Throw message) => (calls, Throw message)
    | (calls, Normal _) =>
        let schemaYml := generateSchemaYml transforms in
        let calls :=
          (calls ++ [ WriteFileSync (pathJoin modelsDir "schema.yml") schemaYml ])%list in
        (calls, Normal (ExportSummary.Build (length transforms) (Some modelsDir)
           (Some (map (fun t => (snakeCase (Transform.name t) ++ ".sql")%string) transforms
                  ++ [ "schema.yml" ])%list)))
    end.

End WithLodash.
End DbtExporter.

(** ** The transform interpreter: statements

    The syntax tree and the two decomposition helpers
    ([destructureComplexVariable], [extractVariableFromExpression]) come from
    the parser and analyzer packages; the interpreter only observes a node
    through them and through its [instanceof InfixExpressionNode] test, so
    they are the parameters of the section. A method of the class mutates
    [this.transform] and returns its diagnostics: here it maps the Transform
    before the call to the diagnostics and the Transform after it. *)

Inductive CompileErrorCode : Type :=
| UNSUPPORTED
| UNEXPECTED_TOKEN
| INVALID_NAME
| INVALID_COLUMN.

Module InfixExpressionNode.
Record t (SyntaxNode : Type) : Type := Build {
  op : option string;
  leftExpression : option SyntaxNode;
  rightExpression : option SyntaxNode
}.
Arguments Build {SyntaxNode} op leftExpression rightExpression.
Arguments op {SyntaxNode} _.
Arguments leftExpression {SyntaxNode} _.
Arguments rightExpression {SyntaxNode} _.
End InfixExpressionNode.

Module TransformStatementNode.
Record t (SyntaxNode : Type) : Type := Build {
  keyword : option string;
  expression : option SyntaxNode
}.
Arguments Build {SyntaxNode} keyword expression.
Arguments keyword {SyntaxNode} _.
Arguments expression {SyntaxNode} _.
End TransformStatementNode.

Module CompileError.
Record t (Node : Type) : Type := Build {
  code : CompileErrorCode;
  diagnostic : string;
  nodeOrToken : Node
}.
Arguments Build {Node} code diagnostic nodeOrToken.
Arguments code {Node} _.
Arguments diagnostic {Node} _.
Arguments nodeOrToken {Node} _.
End CompileError.

(** The names of the column settings ([SettingName]). *)
Module SettingName.
Definition As : string := "as".
Definition Agg : string := "agg".
Definition Window : string := "window".
Definition PartitionBy : string := "partition_by".
Definition OrderBy : string := "order_by".
Definition Frame : string := "frame".
Definition Expr : string := "expr".
End SettingName.

Module AttributeNode.
Record t (SyntaxNode : Type) : Type := Build {
  name : option SyntaxNode;
  value : option SyntaxNode
}.
Arguments Build {SyntaxNode} name value.
Arguments name {SyntaxNode} _.
Arguments value {SyntaxNode} _.
End AttributeNode.

Module ListExpressionNode.
Record t (SyntaxNode : Type) : Type := Build {
  elementList : list (AttributeNode.t SyntaxNode)
}.
Arguments Build {SyntaxNode} elementList.
Arguments elementList {SyntaxNode} _.
End ListExpressionNode.

Module TransformColumnNode.
Record t (SyntaxNode : Type) : Type := Build {
  expression : option SyntaxNode;
  attributeList : option (ListExpressionNode.t SyntaxNode)
}.
Arguments Build {SyntaxNode} expression attributeList.
Arguments expression {SyntaxNode} _.
Arguments attributeList {SyntaxNode} _.
End TransformColumnNode.

(** An entry of the body of a declaration: a column, a statement, or a node
    of another class, which [interpretBody] passes over. *)
Inductive BodyElement (SyntaxNode : Type) : Type :=
| ColumnElement (columnNode : TransformColumnNode.t SyntaxNode)
| StatementElement (statement : TransformStatementNode.t SyntaxNode)
| OtherElement.
Arguments ColumnElement {SyntaxNode} columnNode.
Arguments StatementElement {SyntaxNode} statement.
Arguments OtherElement {SyntaxNode}.

(** The body of a declaration as [interpretBody] finds it: missing, a node
    that is no block and so has no [body] array, or a block with its
    entries. The validator reports the first two and lets them through. *)
Inductive DeclarationBody (SyntaxNode : Type) : Type :=
| NoBody
| NotABlock
| Block (body : list (BodyElement SyntaxNode)).
Arguments NoBody {SyntaxNode}.
Arguments NotABlock {SyntaxNode}.
Arguments Block {SyntaxNode} body.

Module ElementDeclarationNode.
Record t (SyntaxNode : Type) : Type := Build {
  name : option SyntaxNode;
  sourceList : option (ListExpressionNode.t SyntaxNode);
  body : DeclarationBody SyntaxNode
}.
Arguments Build {SyntaxNode} name sourceList body.
Arguments name {SyntaxNode} _.
Arguments sourceList {SyntaxNode} _.
Arguments body {SyntaxNode} _.
End ElementDeclarationNode.

(** What [extractElementName] returns. *)
Module ElementName.
Record t : Type := Build { name : string; schemaName : list string }.
End ElementName.

(** The node a diagnostic of the whole interpreter points at. *)
Inductive ErrorNode (SyntaxNode : Type) : Type :=
| DeclarationRef (declarationNode : ElementDeclarationNode.t SyntaxNode)
| NameRef (nameNode : option SyntaxNode)
| SyntaxRef (node : SyntaxNode)
| ColumnRef (columnNode : TransformColumnNode.t SyntaxNode)
| StatementRef (statement : TransformStatementNode.t SyntaxNode).
Arguments DeclarationRef {SyntaxNode} declarationNode.
Arguments NameRef {SyntaxNode} nameNode.
Arguments SyntaxRef {SyntaxNode} node.
Arguments ColumnRef {SyntaxNode} columnNode.
Arguments StatementRef {SyntaxNode} statement.

Module TransformInterpreter.
Section WithParser.

Variable SyntaxNode : Type.
Variable asInfixExpressionNode : SyntaxNode -> option (InfixExpressionNode.t SyntaxNode).
Variable destructureComplexVariable : SyntaxNode -> option (list string).
Variable extractVariableFromExpression : SyntaxNode -> option string.

Definition Statement : Type := TransformStatementNode.t SyntaxNode.
Definition Diagnostic : Type := CompileError.t Statement.

(** What a method leaves behind: its diagnostics and [this.transform]. *)
Definition Outcome : Type := completion (list Diagnostic * Transform.t).

(** [Option.unwrap_or]. *)
Definition unwrap_or {A : Type} (o : option A) (d : A) : A :=
  match o with
  | Some a => a
  | None => d
  end.

(** [a!.push(x)]: a [TypeError] when the array is undefined. *)
Definition push {A : Type} (a : option (list A)) (xs : list A) : completion (list A) :=
  match a with
  | Some l => Normal (l ++ xs)%list
  | None => Throw "TypeError: Cannot read properties of undefined (reading 'push')"
  end.

Definition expressionToString (expression : SyntaxNode) : string :=
  let fragments := unwrap_or (destructureComplexVariable expression) [] in
  join "." fragments.

(** [fragments[fragments.length - 1]], [undefined] on the empty array. *)
Definition lastElement (fragments : list string) : option string :=
  match fragments with
  | [] => None
  | _ :: _ => nth_error fragments (length fragments - 1)
  end.

(** [lastFragment?.toLowerCase() === word]. *)
Definition lowerIs (lastFragment : option string) (word : string) : bool :=
  match lastFragment with
  | Some f => toLowerCase f =? word
  | None => false
  end.

Definition parseOrderBy (expression : SyntaxNode) : list TransformOrderBy.t :=
  let fragments := unwrap_or (destructureComplexVariable expression) [] in
  let lastFragment := lastElement fragments in
  let '(direction, fragments) :=
    if lowerIs lastFragment "desc" then (DESC, removelast fragments)
    else if lowerIs lastFragment "asc" then (ASC, removelast fragments)
    else (ASC, fragments) in
  match fragments with
  | [table; column] => [TransformOrderBy.Build table column direction]
  | _ => []
  end.

Definition error (code : CompileErrorCode) (message : string) (statement : Statement)
  : Diagnostic :=
  CompileError.Build code message statement.

Definition interpretJoin (statement : Statement) (transform : Transform.t) : Outcome :=
  let invalid :=
    Normal ([error INVALID_NAME "Invalid join syntax. Expected: Table.column = Table.column"
                   statement], transform) in
  match TransformStatementNode.expression statement with
  | None => Normal ([error INVALID_NAME "Join expression is required" statement], transform)
  | Some expression =>
      match asInfixExpressionNode expression with
      | Some infix =>
        match InfixExpressionNode.leftExpression infix,
              InfixExpressionNode.rightExpression infix with
        | Some leftExpression, Some rightExpression =>
            let operator :=
              match InfixExpressionNode.op infix with
              | Some v => if truthy v then v else "="
              | None => "="
              end in
            let leftFragments := unwrap_or (destructureComplexVariable leftExpression) [] in
            let rightFragments := unwrap_or (destructureComplexVariable rightExpression) [] in
            match leftFragments, rightFragments with
            | [lt; lc], [rt; rc] =>
                let join := TransformJoin.Build lt lc operator rt rc in
                match push (Transform.joins transform) [join] with
                | Normal joins =>
                    Normal ([], Transform.Build
                      (Transform.name transform) (Transform.schemaName transform)
                      (Transform.alias transform) (Transform.sources transform)
                      (Transform.columns transform) (Some joins)
                      (Transform.filters transform) (Transform.groupBy transform)
                      (Transform.orderBy transform) (Transform.limit transform)
                      (Transform.derivedColumns transform)
                      (Transform.nestedTransform transform))
                | Throw m => Throw m
                end
            | _, _ => invalid
            end
        | _, _ => invalid
        end
      | None => invalid
      end
  end.

Definition interpretWhere (statement : Statement) (transform : Transform.t) : Outcome :=
  match TransformStatementNode.expression statement with
  | None => Normal ([error INVALID_NAME "Where expression is required" statement], transform)
  | Some expression =>
      let filter := TransformFilter.Build (expressionToString expression) in
      match push (Transform.filters transform) [filter] with
      | Normal filters =>
          Normal ([], Transform.Build
            (Transform.name transform) (Transform.schemaName transform)
            (Transform.alias transform) (Transform.sources transform)
            (Transform.columns transform) (Transform.joins transform)
            (Some filters) (Transform.groupBy transform)
            (Transform.orderBy transform) (Transform.limit transform)
            (Transform.derivedColumns transform)
            (Transform.nestedTransform transform))
      | Throw m => Throw m
      end
  end.

Definition interpretGroupBy (statement : Statement) (transform : Transform.t) : Outcome :=
  match TransformStatementNode.expression statement with
  | None => Normal ([error INVALID_NAME "Group by expression is required" statement], transform)
  | Some expression =>
      let columns := unwrap_or (destructureComplexVariable expression) [] in
      let groupBy := unwrap_or (Transform.groupBy transform) [] in
      Normal ([], Transform.Build
        (Transform.name transform) (Transform.schemaName transform)
        (Transform.alias transform) (Transform.sources transform)
        (Transform.columns transform) (Transform.joins transform)
        (Transform.filters transform) (Some (groupBy ++ columns)%list)
        (Transform.orderBy transform) (Transform.limit transform)
        (Transform.derivedColumns transform)
        (Transform.nestedTransform transform))
  end.

Definition interpretOrderBy (statement : Statement) (transform : Transform.t) : Outcome :=
  match TransformStatementNode.expression statement with
  | None => Normal ([error INVALID_NAME "Order by expression is required" statement], transform)
  | Some expression =>
      let orderBy := parseOrderBy expression in
      let existing := unwrap_or (Transform.orderBy transform) [] in
      Normal ([], Transform.Build
        (Transform.name transform) (Transform.schemaName transform)
        (Transform.alias transform) (Transform.sources transform)
        (Transform.columns transform) (Transform.joins transform)
        (Transform.filters transform) (Transform.groupBy transform)
        (Some (existing ++ orderBy)%list) (Transform.limit transform)
        (Transform.derivedColumns transform)
        (Transform.nestedTransform transform))
  end.

Definition interpretLimit (statement : Statement) (transform : Transform.t) : Outcome :=
  match TransformStatementNode.expression statement with
  | None => Normal ([error INVALID_NAME "Limit expression is required" statement], transform)
  | Some expression =>
      let limitStr := unwrap_or (extractVariableFromExpression expression) "0" in
      let limit := parseInt limitStr in
      if isNaN limit then
        Normal ([error INVALID_NAME "Limit must be a number" statement], transform)
      else
        Normal ([], Transform.Build
          (Transform.name transform) (Transform.schemaName transform)
          (Transform.alias transform) (Transform.sources transform)
          (Transform.columns transform) (Transform.joins transform)
          (Transform.filters transform) (Transform.groupBy transform)
          (Transform.orderBy transform) (Some limit)
          (Transform.derivedColumns transform)
          (Transform.nestedTransform transform))
  end.

Definition interpretUsing (statement : Statement) (transform : Transform.t) : Outcome :=
  match TransformStatementNode.expression statement with
  | None => Normal ([error INVALID_NAME "Using expression is required" statement], transform)
  | Some expression =>
      let transformName := unwrap_or (extractVariableFromExpression expression) "" in
      Normal ([], Transform.Build
        (Transform.name transform) (Transform.schemaName transform)
        (Transform.alias transform) (Transform.sources transform)
        (Transform.columns transform) (Transform.joins transform)
        (Transform.filters transform) (Transform.groupBy transform)
        (Transform.orderBy transform) (Transform.limit transform)
        (Transform.derivedColumns transform)
        (Some (NestedTransform.Build transformName [])))
  end.

Definition interpretAdd (statement : Statement) (transform : Transform.t) : Outcome :=
  let invalid :=
    Normal ([error INVALID_NAME "Add syntax must be: column_name = expression" statement],
            transform) in
  match TransformStatementNode.expression statement with
  | None => Normal ([error INVALID_NAME "Add expression is required" statement], transform)
  | Some expression =>
      match asInfixExpressionNode expression with
      | Some infix =>
        match InfixExpressionNode.op infix,
              InfixExpressionNode.leftExpression infix,
              InfixExpressionNode.rightExpression infix with
        | Some v, Some leftExpression, Some rightExpression =>
            if v =? "=" then
              let name := unwrap_or (extractVariableFromExpression leftExpression) "" in
              let expression := expressionToString rightExpression in
              let derivedColumns := unwrap_or (Transform.derivedColumns transform) [] in
              let derived := DerivedColumn.Build name expression in
              Normal ([], Transform.Build
                (Transform.name transform) (Transform.schemaName transform)
                (Transform.alias transform) (Transform.sources transform)
                (Transform.columns transform) (Transform.joins transform)
                (Transform.filters transform) (Transform.groupBy transform)
                (Transform.orderBy transform) (Transform.limit transform)
                (Some (derivedColumns ++ [derived])%list)
                (Transform.nestedTransform transform))
            else invalid
        | _, _, _ => invalid
        end
      | None => invalid
      end
  end.

(** [`${keyword}`] for the possibly undefined lower-cased keyword. *)
Definition keywordText (keyword : option string) : string :=
  match keyword with
  | Some k => k
  | None => "undefined"
  end.

Definition interpretStatement (statement : Statement) (transform : Transform.t) : Outcome :=
  let keyword := option_map toLowerCase (TransformStatementNode.keyword statement) in
  let unknown :=
    Normal ([error UNEXPECTED_TOKEN ("Unknown transform keyword: " ++ keywordText keyword)
                   statement], transform) in
    match keyword with
    | Some k =>
      if k =? "join" then interpretJoin statement transform
      else if k =? "where" then interpretWhere statement transform
      else if k =? "group_by" then interpretGroupBy statement transform
      else if k =? "order_by" then interpretOrderBy statement transform
      else if k =? "limit" then interpretLimit statement transform
      else if k =? "using" then interpretUsing statement transform
      else if k =? "add" then interpretAdd statement transform
      else unknown
    | None => unknown
    end.

(** *** Name, sources, columns and body

    [extractElementName] and [aggregateSettingList] come from the
    interpreter and validator utilities. [extractElementName] unwraps the
    decomposition of the name node and so may throw: the validator accepts a
    name it cannot decompose, and only reports a missing one, which
    [interpret] passes on as [name!]. [extractVariableFromExpression] is
    also called on the value of an attribute, which may be missing:
    [extractVariableFromUndefined] is what it returns then. *)

Variable extractElementName : option SyntaxNode -> completion ElementName.t.
Variable aggregateSettingList :
  ListExpressionNode.t SyntaxNode -> string -> option (list (AttributeNode.t SyntaxNode)).
Variable extractVariableFromUndefined : option string.

Definition Report : Type := CompileError.t (ErrorNode SyntaxNode).
Definition Result : Type := completion (list Report * Transform.t).

(** A diagnostic of a statement, as a diagnostic of the interpreter. *)
Definition ofStatement (e : Diagnostic) : Report :=
  CompileError.Build (CompileError.code e) (CompileError.diagnostic e)
    (StatementRef (CompileError.nodeOrToken e)).

(** The state the constructor leaves in [this.transform]. Its [name:
    undefined] has no counterpart in a [string]: it is the empty string
    here, which [interpretName] replaces before anything reads it. *)
Definition newTransform : Transform.t :=
  Transform.Build "" None None (Some []) (Some []) (Some []) (Some [])
    None None None None None.

Definition interpretName (nameNode : option SyntaxNode) (transform : Transform.t) : Result :=
  match extractElementName nameNode with
  | Throw message => Throw message
  | Normal extracted =>
      let name := ElementName.name extracted in
      let schemaName := ElementName.schemaName extracted in
      let named (schema : option string) :=
        Transform.Build name schema
          (Transform.alias transform) (Transform.sources transform)
          (Transform.columns transform) (Transform.joins transform)
          (Transform.filters transform) (Transform.groupBy transform)
          (Transform.orderBy transform) (Transform.limit transform)
          (Transform.derivedColumns transform) (Transform.nestedTransform transform) in
      match schemaName with
      | _ :: _ :: _ =>
          Normal ([ CompileError.Build UNSUPPORTED "Nested schema is not supported"
                      (NameRef nameNode) ],
                  named (Some (join "." schemaName)))
      | [ schema ] => Normal ([], named (Some schema))
      | [] => Normal ([], named None)
      end
  end.

(** One turn of the loop of [interpretSources]: the diagnostics and the
    sources so far, and the next entry of the list. *)
Definition interpretSource (acc : list Report * list TransformSource.t)
    (attr : AttributeNode.t SyntaxNode) : list Report * list TransformSource.t :=
  let '(errors, sources) := acc in
  let sourceExpr :=
    match AttributeNode.name attr with
    | Some n => Some n
    | None => AttributeNode.value attr
    end in
  match sourceExpr with
  | None => (errors, sources)
  | Some sourceExpr =>
      let fragments := unwrap_or (destructureComplexVariable sourceExpr) [] in
      match lastElement fragments with
      | None =>
          ((errors ++ [ CompileError.Build INVALID_NAME "Invalid source specification"
                          (SyntaxRef sourceExpr) ])%list, sources)
      | Some name =>
          let schemaName :=
            if (1 <? length fragments)%nat then Some (join "." (removelast fragments))
            else None in
          (errors, (sources ++ [ TransformSource.Build name schemaName None ])%list)
      end
  end.

Definition interpretSources (declarationNode : ElementDeclarationNode.t SyntaxNode)
    (transform : Transform.t) : Result :=
  match ElementDeclarationNode.sourceList declarationNode with
  | None =>
      Normal ([ CompileError.Build UNEXPECTED_TOKEN
                  "Transform must specify source tables/transforms"
                  (DeclarationRef declarationNode) ], transform)
  | Some sourceList =>
      match Transform.sources transform with
      | None =>
          let '(errors, sources) :=
            fold_left interpretSource (ListExpressionNode.elementList sourceList) ([], []) in
          match sources with
          | [] => Normal (errors, transform)
          | _ :: _ => Throw "TypeError: Cannot read properties of undefined (reading 'push')"
          end
      | Some existing =>
          let '(errors, sources) :=
            fold_left interpretSource (ListExpressionNode.elementList sourceList)
              ([], existing) in
          Normal (errors, Transform.Build
            (Transform.name transform) (Transform.schemaName transform)
            (Transform.alias transform) (Some sources)
            (Transform.columns transform) (Transform.joins transform)
            (Transform.filters transform) (Transform.groupBy transform)
            (Transform.orderBy transform) (Transform.limit transform)
            (Transform.derivedColumns transform) (Transform.nestedTransform transform))
      end
  end.

(** [settingMap[name]?.at(0)]. *)
Definition firstSetting (settingMap : string -> option (list (AttributeNode.t SyntaxNode)))
    (name : string) : option (AttributeNode.t SyntaxNode) :=
  match settingMap name with
  | Some (attribute :: _) => Some attribute
  | _ => None
  end.

(** [extractVariableFromExpression(attribute.value)]. *)
Definition extractVariableFromValue (attribute : AttributeNode.t SyntaxNode) : option string :=
  match AttributeNode.value attribute with
  | Some value => extractVariableFromExpression value
  | None => extractVariableFromUndefined
  end.

(** The value of the first attribute of that name, when the attribute and
    its value are both there ([node && node.value]). *)
Definition settingValue (settingMap : string -> option (list (AttributeNode.t SyntaxNode)))
    (name : string) : option SyntaxNode :=
  match firstSetting settingMap name with
  | Some attribute => AttributeNode.value attribute
  | None => None
  end.

(** The column read off the head expression, before the attributes. *)
Definition columnHead (expression : SyntaxNode) : TransformColumn.t :=
  let fragments := unwrap_or (destructureComplexVariable expression) [] in
  match fragments with
  | [ table; column ] => TransformColumn.Build table column None None None None
  | [ column ] => TransformColumn.Build "" column None None None None
  | _ => TransformColumn.Build "" "" None (Some (expressionToString expression)) None None
  end.

(** The assignments made under [if (columnNode.attributeList)]. *)
Definition applySettings (settingMap : string -> option (list (AttributeNode.t SyntaxNode)))
    (column : TransformColumn.t) : TransformColumn.t :=
  let alias :=
    match firstSetting settingMap SettingName.As with
    | Some asNode => extractVariableFromValue asNode
    | None => TransformColumn.alias column
    end in
  let partitionBy :=
    option_map (fun value => unwrap_or (destructureComplexVariable value) [])
      (settingValue settingMap SettingName.PartitionBy) in
  let orderBy := option_map parseOrderBy (settingValue settingMap SettingName.OrderBy) in
  let aggregation :=
    match firstSetting settingMap SettingName.Agg with
    | Some aggNode =>
        Some (Aggregation.Build (unwrap_or (extractVariableFromValue aggNode) "")
                partitionBy orderBy)
    | None => TransformColumn.aggregation column
    end in
  let window :=
    match firstSetting settingMap SettingName.Window with
    | Some windowNode =>
        Some (Window.Build (unwrap_or (extractVariableFromValue windowNode) "")
                partitionBy orderBy
                (option_map expressionToString (settingValue settingMap SettingName.Frame)))
    | None => TransformColumn.window column
    end in
  let expression :=
    match settingValue settingMap SettingName.Expr with
    | Some value => Some (expressionToString value)
    | None => TransformColumn.expression column
    end in
  TransformColumn.Build (TransformColumn.sourceTable column)
    (TransformColumn.sourceColumn column) alias expression aggregation window.

Definition interpretColumn (columnNode : TransformColumnNode.t SyntaxNode)
    (transform : Transform.t) : Result :=
  match TransformColumnNode.expression columnNode with
  | None =>
      Normal ([ CompileError.Build INVALID_COLUMN "Column expression is required"
                  (ColumnRef columnNode) ], transform)
  | Some expression =>
      let column := columnHead expression in
      let column :=
        match TransformColumnNode.attributeList columnNode with
        | Some attributeList => applySettings (aggregateSettingList attributeList) column
        | None => column
        end in
      match push (Transform.columns transform) [ column ] with
      | Normal columns =>
          Normal ([], Transform.Build
            (Transform.name transform) (Transform.schemaName transform)
            (Transform.alias transform) (Transform.sources transform)
            (Some columns) (Transform.joins transform)
            (Transform.filters transform) (Transform.groupBy transform)
            (Transform.orderBy transform) (Transform.limit transform)
            (Transform.derivedColumns transform) (Transform.nestedTransform transform))
      | Throw message => Throw message
      end
  end.

(** [interpretBody]: the entries in order, the diagnostics appended. *)
Fixpoint interpretBody (body : list (BodyElement SyntaxNode)) (transform : Transform.t)
    : Result :=
  match body with
  | [] => Normal ([], transform)
  | element :: rest =>
      let first :=
        match element with
        | ColumnElement columnNode => interpretColumn columnNode transform
        | StatementElement statement =>
            match interpretStatement statement transform with
            | Normal (errors, transform) => Normal (map ofStatement errors, transform)
            | Throw message => Throw message
            end
        | OtherElement => Normal ([], transform)
        end in
      match first with
      | Throw message => Throw message
      | Normal (errors, transform) =>
          match interpretBody rest transform with
          | Throw message => Throw message
          | Normal (more, transform) => Normal ((errors ++ more)%list, transform)
          end
      end
  end.

(** [interpretBody] on the body of the declaration: [for (const element of
    body.body)] needs a block. *)
Definition interpretDeclarationBody (body : DeclarationBody SyntaxNode)
    (transform : Transform.t) : Result :=
  match body with
  | NoBody => Throw "TypeError: Cannot read properties of undefined (reading 'body')"
  | NotABlock => Throw "TypeError: body.body is not iterable"
  | Block elements => interpretBody elements transform
  end.

(** [interpret]: the diagnostics of the name, of the sources and of the body,
    and the Transform registered for the declaration. *)
Definition interpret (declarationNode : ElementDeclarationNode.t SyntaxNode) : Result :=
  match interpretName (ElementDeclarationNode.name declarationNode) newTransform with
  | Throw message => Throw message
  | Normal (nameErrors, transform) =>
      match interpretSources declarationNode transform with
      | Throw message => Throw message
      | Normal (sourceErrors, transform) =>
          match interpretDeclarationBody (ElementDeclarationNode.body declarationNode)
                  transform with
          | Throw message => Throw message
          | Normal (bodyErrors, transform) =>
              Normal ((nameErrors ++ sourceErrors ++ bodyErrors)%list, transform)
          end
      end
  end.

End WithParser.
End TransformInterpreter.

(** ** A small syntax tree to run the interpreter on

    [Dotted] is a chain of names, [Infix] a binary expression, [Opaque] any
    other expression. The two helpers decompose a [Dotted] node only. *)

Module Sample.

Inductive Node : Type :=
| Dotted (fragments : list string)
| Infix (op : string) (left right : Node)
| Opaque.

Definition asInfixExpressionNode (n : Node) : option (InfixExpressionNode.t Node) :=
  match n with
  | Infix op l r => Some (InfixExpressionNode.Build (Some op) (Some l) (Some r))
  | _ => None
  end.

Definition destructureComplexVariable (n : Node) : option (list string) :=
  match n with
  | Dotted fragments => Some fragments
  | _ => None
  end.

Definition extractVariableFromExpression (n : Node) : option string :=
  match n with
  | Dotted [x] => Some x
  | _ => None
  end.

Definition interpretStatement :=
  TransformInterpreter.interpretStatement
    Node asInfixExpressionNode destructureComplexVariable extractVariableFromExpression.

Definition statement (keyword : string) (expression : Node)
    : TransformStatementNode.t Node :=
  TransformStatementNode.Build (Some keyword) (Some expression).

(** [new TransformInterpreter(...)] leaves this Transform, once named. *)
Definition emptyTransform (name : string) : Transform.t :=
  Transform.Build name None None (Some []) (Some []) (Some []) (Some [])
    None None None None None.

Definition source (name : string) : TransformSource.t :=
  TransformSource.Build name None None.

Definition plain (table column : string) : TransformColumn.t :=
  TransformColumn.Build table column None None None None.

(** Attributes are grouped by the lower-cased name they carry. *)
Definition attributeKey (attribute : AttributeNode.t Node) : option string :=
  match AttributeNode.name attribute with
  | Some (Dotted [ key ]) => Some (toLowerCase key)
  | _ => None
  end.

Definition aggregateSettingList (attributeList : ListExpressionNode.t Node) (key : string)
    : option (list (AttributeNode.t Node)) :=
  match filter (fun attribute =>
                  match attributeKey attribute with
                  | Some k => k =? key
                  | None => false
                  end) (ListExpressionNode.elementList attributeList) with
  | [] => None
  | found => Some found
  end.

(** A dotted name is split into its schema and its last fragment; anything
    else cannot be unwrapped. *)
Definition extractElementName (n : option Node) : completion ElementName.t :=
  match n with
  | Some (Dotted (first :: rest)) =>
      Normal (ElementName.Build (last (first :: rest) "") (removelast (first :: rest)))
  | _ => Throw "Trying to unwrap a None value"
  end.

Definition attribute (name : string) (value : Node) : AttributeNode.t Node :=
  AttributeNode.Build (Some (Dotted [ name ])) (Some value).

Definition sourceEntry (fragments : list string) : AttributeNode.t Node :=
  AttributeNode.Build (Some (Dotted fragments)) None.

Definition column (fragments : list string) (attributes : list (AttributeNode.t Node))
    : BodyElement Node :=
  ColumnElement (TransformColumnNode.Build (Some (Dotted fragments))
                   (match attributes with
                    | [] => None
                    | _ :: _ => Some (ListExpressionNode.Build attributes)
                    end)).

Definition interpretBody :=
  TransformInterpreter.interpretBody
    Node asInfixExpressionNode destructureComplexVariable extractVariableFromExpression
    aggregateSettingList None.

Definition interpret :=
  TransformInterpreter.interpret
    Node asInfixExpressionNode destructureComplexVariable extractVariableFromExpression
    extractElementName aggregateSettingList None.

End Sample.

(** ** The specification's wording, for comparison with the code *)

Module Spec.

(** "collect every Join whose left or right table name matches that
    source". *)
Definition matching (joins : list TransformJoin.t) (source : TransformSource.t)
    : list TransformJoin.t :=
  filter (fun j => (TransformJoin.leftTable j =? TransformSource.name source)
                   || (TransformJoin.rightTable j =? TransformSource.name source)) joins.

(** "if one or more found, AND-combine all of them into a single INNER JOIN
    ... ON ...; if none found, emit CROSS JOIN". [target] renders the
    joined source and [condition] one comparison. *)
Definition joinClause (target : TransformSource.t -> string)
    (condition : TransformJoin.t -> string)
    (joins : list TransformJoin.t) (source : TransformSource.t) : string :=
  if existsb (fun j => (TransformJoin.leftTable j =? TransformSource.name source)
                       || (TransformJoin.rightTable j =? TransformSource.name source)) joins
  then "  INNER JOIN " ++ target source ++ " ON "
         ++ join " AND " (map condition (matching joins source))
  else "  CROSS JOIN " ++ target source.

(** "if the final fragment case-insensitively equals asc or desc, pop it and
    use as direction (default ASC otherwise)". *)
Definition popDirection (fragments : list string) : Direction * list string :=
  match rev fragments with
  | final :: front =>
      if toLowerCase final =? "desc" then (DESC, rev front)
      else if toLowerCase final =? "asc" then (ASC, rev front)
      else (ASC, fragments)
  | [] => (ASC, fragments)
  end.

(** "the remaining fragments must be exactly [table, column] to produce one
    OrderTerm - fewer/more fragments silently produce zero terms". *)
Definition orderTerms (direction : Direction) (remaining : list string)
    : list TransformOrderBy.t :=
  match remaining with
  | [table; column] => [TransformOrderBy.Build table column direction]
  | _ => []
  end.

(** "simply omit the corresponding SQL clause": the lines a clause adds to
    the statement, none when its substructure is absent or empty. *)
Definition clauseLines {A : Type} (items : option (list A)) (line : list A -> string)
    : list string :=
  match items with
  | None | Some [] => []
  | Some items => [line items]
  end.

(** "the rank family {ROW_NUMBER, RANK, DENSE_RANK, PERCENT_RANK,
    CUME_DIST}". *)
Definition rankFamily : list string :=
  ["ROW_NUMBER"; "RANK"; "DENSE_RANK"; "PERCENT_RANK"; "CUME_DIST"].

(** "the qualified column reference": the quoted table, a dot and the quoted
    column, "or bare column if table is empty". *)
Definition columnReference (table column : string) : string :=
  if table =? "" then DQ ++ column ++ DQ
  else DQ ++ table ++ DQ ++ "." ++ DQ ++ column ++ DQ.

(** "LIMIT: literal integer": the integer in decimal digits. *)
Definition numeral (n : Z) : string := NilZero.string_of_int (Z.to_int n).

(** "Each source entry is decomposed into name fragments; zero fragments =>
    INVALID_NAME diagnostic, entry skipped; otherwise the last fragment is
    the source name and any preceding fragments join with . into
    schemaName": the source of an entry, from its fragments. *)
Definition sourceOf (fragments : list string) : option TransformSource.t :=
  match rev fragments with
  | [] => None
  | name :: [] => Some (TransformSource.Build name None None)
  | name :: preceding => Some (TransformSource.Build name (Some (join "." (rev preceding))) None)
  end.

(** The statement keywords of the interpreter. *)
Definition keywords : list string :=
  ["join"; "where"; "group_by"; "order_by"; "limit"; "using"; "add"].

(** The clause keywords of the omission law. *)
Definition clauseKeywords : list string :=
  ["WHERE"; "GROUP BY"; "ORDER BY"; "LIMIT"].

End Spec.

(** The rendering of a joined source by each emitter. *)
Definition sqlTarget (source : TransformSource.t) : string :=
  TransformExporter.tableName source
    ++ TransformExporter.aliasSuffix (TransformSource.alias source).

Definition dbtTarget (snakeCase : string -> string) (source : TransformSource.t) : string :=
  DbtExporter.ref snakeCase source ++ " AS " ++ DbtExporter.aliasOrName source.

(** * Properties *)

(** ** Strings and arrays *)

Lemma append_assoc (a b c : string) : (a ++ b) ++ c = a ++ b ++ c.
Proof.
  induction a as [|x a IH]; simpl; [reflexivity | now rewrite IH].
Qed.

Lemma append_empty_r (a : string) : a ++ "" = a.
Proof.
  induction a as [|x a IH]; simpl; [reflexivity | now rewrite IH].
Qed.

Lemma startsWith_self_app (sub r : string) : startsWith (sub ++ r) sub = true.
Proof.
  induction sub as [|c sub IH]; simpl; [reflexivity|].
  now rewrite Ascii.eqb_refl.
Qed.

Lemma startsWith_app_l (sub s r : string) :
  startsWith s sub = true -> startsWith (s ++ r) sub = true.
Proof.
  revert s; induction sub as [|c sub IH]; intros s H; [reflexivity|].
  destruct s as [|b s]; simpl in *; [discriminate|].
  apply andb_true_iff in H as [Hc Hs].
  now rewrite Hc, (IH _ Hs).
Qed.

Lemma includes_app_r (p s sub : string) :
  includes s sub = true -> includes (p ++ s) sub = true.
Proof.
  intros H; induction p as [|c p IH]; simpl; [exact H|].
  rewrite IH. apply orb_true_r.
Qed.

Lemma includes_infix (p sub q : string) : includes (p ++ sub ++ q) sub = true.
Proof.
  apply includes_app_r.
  destruct sub as [|c sub]; simpl.
  - destruct q; reflexivity.
  - now rewrite Ascii.eqb_refl, startsWith_self_app.
Qed.

Lemma startsWith_sep (c : ascii) (sub a b : string) :
  hasChar c sub = false ->
  startsWith (a ++ String c b) sub = true -> startsWith a sub = true.
Proof.
  revert a; induction sub as [|d sub IH]; intros a Hc H; [reflexivity|].
  simpl in Hc. apply orb_false_iff in Hc as [Hd Hc].
  destruct a as [|x a]; simpl in *.
  - now rewrite Hd in H.
  - apply andb_true_iff in H as [Hx H].
    now rewrite Hx, (IH _ Hc H).
Qed.

Lemma includes_sep (c : ascii) (sub a b : string) :
  hasChar c sub = false ->
  includes (a ++ String c b) sub = true ->
  includes a sub = true \/ includes b sub = true.
Proof.
  intros Hc; induction a as [|x a IH]; simpl; intros H.
  - destruct sub as [|d sub]; [now left|].
    simpl in Hc. apply orb_false_iff in Hc as [Hd _].
    simpl in H. rewrite Hd in H. now right.
  - apply orb_true_iff in H as [H|H].
    + left. change (String x (a ++ String c b)) with (String x a ++ String c b) in H.
      now rewrite (startsWith_sep _ _ _ _ Hc H).
    + destruct (IH H) as [Ha|Hb]; [left|now right].
      rewrite Ha. apply orb_true_r.
Qed.

Lemma includes_join (c : ascii) (sub : string) (parts : list string) :
  hasChar c sub = false -> parts <> [] ->
  includes (join (String c "") parts) sub = true ->
  exists p, In p parts /\ includes p sub = true.
Proof.
  intros Hc; induction parts as [|x parts IH]; intros Hne H; [contradiction|].
  destruct parts as [|y parts].
  - exists x; split; [now left | exact H].
  - change (join (String c "") (x :: y :: parts))
      with (x ++ String c (join (String c "") (y :: parts))) in H.
    destruct (includes_sep _ _ _ _ Hc H) as [Hx|Hr].
    + exists x; split; [now left | exact Hx].
    + destruct (IH ltac:(discriminate) Hr) as [p [Hp Hi]].
      exists p; split; [now right | exact Hi].
Qed.

Lemma filterBoolean_app (xs ys : list (option string)) :
  filterBoolean (xs ++ ys) = (filterBoolean xs ++ filterBoolean ys)%list.
Proof.
  induction xs as [|[x|] xs IH]; simpl; [reflexivity| |exact IH].
  destruct (truthy x); simpl; now rewrite IH.
Qed.

Lemma filterBoolean_Some (xs : list string) :
  (forall x, In x xs -> truthy x = true) -> filterBoolean (map Some xs) = xs.
Proof.
  induction xs as [|x xs IH]; intros H; simpl; [reflexivity|].
  rewrite (H x (or_introl eq_refl)), IH; [reflexivity|].
  intros y Hy. apply H. now right.
Qed.

Lemma filter_nil_existsb {A : Type} (p : A -> bool) (l : list A) :
  filter p l = [] <-> existsb p l = false.
Proof.
  induction l as [|a l IH]; simpl; [tauto|].
  destruct (p a); simpl; [split; discriminate | exact IH].
Qed.

(** ** Lines of the emitted statement *)

Lemma truthy_app (a b : string) : truthy a = true -> truthy (a ++ b) = true.
Proof.
  destruct a; [discriminate | reflexivity].
Qed.

Lemma join_truthy (sep x : string) (xs : list string) :
  truthy x = true -> truthy (join sep (x :: xs)) = true.
Proof.
  intros H. destruct xs; [exact H | now apply truthy_app].
Qed.

Lemma sql_select_truthy (t : Transform.t) (dialect : string) :
  truthy (TransformExporter.buildSelectClause t dialect) = true.
Proof.
  unfold TransformExporter.buildSelectClause.
  destruct (Transform.columns t) as [[|c cs]|]; try reflexivity.
  cbn [absentOrEmpty orEmpty map]. apply join_truthy.
  unfold TransformExporter.columnExpression.
  destruct (TransformColumn.aggregation c); [reflexivity|].
  destruct (TransformColumn.window c); [reflexivity|].
  destruct (_ && _); reflexivity.
Qed.

Lemma dbt_select_truthy (snakeCase : string -> string) (t : Transform.t) :
  truthy (DbtExporter.buildSelectClause t) = true.
Proof.
  unfold DbtExporter.buildSelectClause.
  destruct (Transform.columns t) as [[|c cs]|]; try reflexivity.
  cbn [absentOrEmpty orEmpty map]. apply join_truthy.
  unfold DbtExporter.columnExpression.
  destruct (TransformColumn.aggregation c); [reflexivity|].
  destruct (TransformColumn.window c); [reflexivity|].
  destruct (_ && _); reflexivity.
Qed.

Lemma joinMentions_matching (joins : list TransformJoin.t) (source : TransformSource.t) :
  filter (TransformExporter.joinMentions source) joins = Spec.matching joins source.
Proof.
  apply filter_ext. intros j. apply orb_comm.
Qed.

Lemma sql_pushJoin_spec (t : Transform.t) (acc : list string) (source : TransformSource.t) :
  TransformExporter.pushJoin t acc source =
  (acc ++ [Spec.joinClause sqlTarget TransformExporter.onClause
             (orEmpty (Transform.joins t)) source])%list.
Proof.
  unfold TransformExporter.pushJoin, Spec.joinClause, sqlTarget.
  rewrite joinMentions_matching.
  destruct (Spec.matching _ source) as [|j js] eqn:E.
  - apply filter_nil_existsb in E. rewrite E. reflexivity.
  - destruct (existsb _ _) eqn:X.
    + now rewrite ?append_assoc.
    + apply filter_nil_existsb in X. unfold Spec.matching in E. congruence.
Qed.

Lemma dbt_pushJoin_spec (snakeCase : string -> string) (t : Transform.t)
    (acc : list string) (source : TransformSource.t) :
  DbtExporter.pushJoin snakeCase t acc source =
  (acc ++ [Spec.joinClause (dbtTarget snakeCase) DbtExporter.onClause
             (orEmpty (Transform.joins t)) source])%list.
Proof.
  unfold DbtExporter.pushJoin, Spec.joinClause, dbtTarget.
  rewrite joinMentions_matching.
  destruct (Spec.matching _ source) as [|j js] eqn:E.
  - apply filter_nil_existsb in E. rewrite E. now rewrite ?append_assoc.
  - destruct (existsb _ _) eqn:X.
    + now rewrite ?append_assoc.
    + apply filter_nil_existsb in X. unfold Spec.matching in E. congruence.
Qed.

Lemma fold_left_push {A : Type} (push : list string -> A -> list string)
    (line : A -> string) (xs : list A) :
  (forall acc x, push acc x = (acc ++ [line x])%list) ->
  forall acc, fold_left push xs acc = (acc ++ map line xs)%list.
Proof.
  intros H; induction xs as [|x xs IH]; intros acc; simpl.
  - now rewrite app_nil_r.
  - now rewrite IH, H, <- app_assoc.
Qed.

Lemma sql_buildJoinClauses_map (t : Transform.t) (dialect : string) :
  TransformExporter.buildJoinClauses t dialect =
  map (Spec.joinClause sqlTarget TransformExporter.onClause (orEmpty (Transform.joins t)))
      (tl (orEmpty (Transform.sources t))).
Proof.
  unfold TransformExporter.buildJoinClauses.
  destruct (Transform.sources t) as [[|s1 [|s2 rest]]|]; try reflexivity.
  now rewrite (fold_left_push _ _ _ (sql_pushJoin_spec t)).
Qed.

Lemma dbt_buildJoinClauses_map (snakeCase : string -> string) (t : Transform.t) :
  DbtExporter.buildJoinClauses snakeCase t =
  map (Spec.joinClause (dbtTarget snakeCase) DbtExporter.onClause
         (orEmpty (Transform.joins t)))
      (tl (orEmpty (Transform.sources t))).
Proof.
  unfold DbtExporter.buildJoinClauses.
  destruct (Transform.sources t) as [[|s1 [|s2 rest]]|]; try reflexivity.
  now rewrite (fold_left_push _ _ _ (dbt_pushJoin_spec snakeCase t)).
Qed.

Lemma joinClause_truthy (target : TransformSource.t -> string)
    (condition : TransformJoin.t -> string) (joins : list TransformJoin.t)
    (source : TransformSource.t) :
  truthy (Spec.joinClause target condition joins source) = true.
Proof.
  unfold Spec.joinClause. destruct (existsb _ _); reflexivity.
Qed.

Lemma joinClauses_kept (target : TransformSource.t -> string)
    (condition : TransformJoin.t -> string) (joins : list TransformJoin.t)
    (sources : list TransformSource.t) :
  filterBoolean (map Some (map (Spec.joinClause target condition joins) sources)) =
  map (Spec.joinClause target condition joins) sources.
Proof.
  apply filterBoolean_Some. intros x Hx.
  apply in_map_iff in Hx as [s [<- _]]. apply joinClause_truthy.
Qed.

(** The statement of [exportTransform], line by line, when there is a source. *)
Lemma exportTransform_lines (t : Transform.t) (dialect : string)
    (first : TransformSource.t) (rest : list TransformSource.t) :
  Transform.sources t = Some (first :: rest) ->
  TransformExporter.exportTransform t dialect =
  Normal (join LF
    ([ "-- Transform: " ++ Transform.name t;
       "CREATE OR REPLACE VIEW " ++ DQ ++ Transform.name t ++ DQ ++ " AS";
       "SELECT";
       TransformExporter.buildSelectClause t dialect;
       "FROM " ++ sqlTarget first ]
     ++ map (Spec.joinClause sqlTarget TransformExporter.onClause
               (orEmpty (Transform.joins t))) rest
     ++ filterBoolean [ TransformExporter.buildWhereClause t dialect;
                        TransformExporter.buildGroupByClause t dialect;
                        TransformExporter.buildOrderByClause t dialect;
                        TransformExporter.buildLimitClause t dialect ])
    ++ ";" ++ LF).
Proof.
  intros Hs. unfold TransformExporter.exportTransform, TransformExporter.buildFromClause.
  rewrite sql_buildJoinClauses_map, Hs. cbn [orEmpty tl].
  do 2 f_equal. cbn [app filterBoolean]. cbn [truthy String.eqb negb append].
  rewrite sql_select_truthy.
  do 5 f_equal.
  rewrite filterBoolean_app, joinClauses_kept. reflexivity.
Qed.

(** The model of [generateDbtModel], line by line, when there is a source. *)
Lemma generateDbtModel_lines (snakeCase : string -> string) (t : Transform.t)
    (first : TransformSource.t) (rest : list TransformSource.t) :
  Transform.sources t = Some (first :: rest) ->
  DbtExporter.generateDbtModel snakeCase t =
  Normal (join LF
    ([ "{{"; "  config("; "    materialized='view'"; "  )"; "}}";
       "-- Transform: " ++ Transform.name t;
       "-- Generated from DBML";
       "SELECT";
       DbtExporter.buildSelectClause t;
       "FROM " ++ dbtTarget snakeCase first ]
     ++ map (Spec.joinClause (dbtTarget snakeCase) DbtExporter.onClause
               (orEmpty (Transform.joins t))) rest
     ++ filterBoolean [ DbtExporter.buildWhereClause t;
                        DbtExporter.buildGroupByClause t;
                        DbtExporter.buildOrderByClause t;
                        DbtExporter.buildLimitClause t ])
    ++ LF).
Proof.
  intros Hs. unfold DbtExporter.generateDbtModel, DbtExporter.buildFromClause.
  rewrite dbt_buildJoinClauses_map, Hs. cbn [orEmpty tl].
  do 2 f_equal. cbn [app filterBoolean]. cbn [truthy String.eqb negb append].
  rewrite (dbt_select_truthy snakeCase).
  do 10 f_equal.
  rewrite filterBoolean_app, joinClauses_kept. reflexivity.
Qed.

(** ** Emission fails exactly on a Transform without sources *)

Ltac no_sources :=
  repeat match goal with
  | H : exists _, _ |- _ => destruct H
  | H : Normal _ = Throw _ |- _ => discriminate H
  | H : Throw _ = Normal _ |- _ => discriminate H
  | H : true = false |- _ => discriminate H
  | H : false = true |- _ => discriminate H
  | |- _ <-> _ => split; intros
  | |- exists _, Throw _ = Throw _ => eexists; reflexivity
  | |- exists _, Normal _ = Normal _ => eexists; reflexivity
  | |- _ = _ => reflexivity
  end.

Lemma sql_throws_iff (t : Transform.t) (dialect : string) :
  (exists m, TransformExporter.exportTransform t dialect = Throw m)
  <-> absentOrEmpty (Transform.sources t) = true.
Proof.
  unfold TransformExporter.exportTransform, TransformExporter.buildFromClause.
  destruct (Transform.sources t) as [[|s r]|]; cbn [absentOrEmpty]; no_sources.
Qed.

Lemma sql_returns_iff (t : Transform.t) (dialect : string) :
  (exists sql, TransformExporter.exportTransform t dialect = Normal sql)
  <-> absentOrEmpty (Transform.sources t) = false.
Proof.
  unfold TransformExporter.exportTransform, TransformExporter.buildFromClause.
  destruct (Transform.sources t) as [[|s r]|]; cbn [absentOrEmpty]; no_sources.
Qed.

Lemma dbt_throws_iff (snakeCase : string -> string) (t : Transform.t) :
  (exists m, DbtExporter.generateDbtModel snakeCase t = Throw m)
  <-> absentOrEmpty (Transform.sources t) = true.
Proof.
  unfold DbtExporter.generateDbtModel, DbtExporter.buildFromClause.
  destruct (Transform.sources t) as [[|s r]|]; cbn [absentOrEmpty]; no_sources.
Qed.

Lemma dbt_returns_iff (snakeCase : string -> string) (t : Transform.t) :
  (exists sql, DbtExporter.generateDbtModel snakeCase t = Normal sql)
  <-> absentOrEmpty (Transform.sources t) = false.
Proof.
  unfold DbtExporter.generateDbtModel, DbtExporter.buildFromClause.
  destruct (Transform.sources t) as [[|s r]|]; cbn [absentOrEmpty]; no_sources.
Qed.

(** The clauses after the join lines, one line for each that has content. *)
Lemma sql_optional_clauses (t : Transform.t) (dialect : string) :
  filterBoolean [ TransformExporter.buildWhereClause t dialect;
                  TransformExporter.buildGroupByClause t dialect;
                  TransformExporter.buildOrderByClause t dialect;
                  TransformExporter.buildLimitClause t dialect ] =
  (Spec.clauseLines (Transform.filters t)
     (fun filters => ("WHERE " ++ join " AND " (map TransformFilter.expression filters))%string)
   ++ Spec.clauseLines (Transform.groupBy t)
     (fun tokens => ("GROUP BY " ++ join ", " (map TransformExporter.groupByColumn tokens))%string)
   ++ Spec.clauseLines (Transform.orderBy t)
     (fun terms => ("ORDER BY " ++ join ", " (map TransformExporter.orderTerm terms))%string)
   ++ match Transform.limit t with
      | None => []
      | Some n => if falsy n then [] else [("LIMIT " ++ numberToString n)%string]
      end)%list.
Proof.
  unfold TransformExporter.buildWhereClause, TransformExporter.buildGroupByClause,
    TransformExporter.buildOrderByClause, TransformExporter.buildLimitClause.
  destruct (Transform.filters t) as [[|f fs]|];
    destruct (Transform.groupBy t) as [[|g gs]|];
    destruct (Transform.orderBy t) as [[|o os]|];
    destruct (Transform.limit t) as [n|]; try destruct (falsy n);
    reflexivity.
Qed.

Lemma dbt_optional_clauses (t : Transform.t) :
  filterBoolean [ DbtExporter.buildWhereClause t;
                  DbtExporter.buildGroupByClause t;
                  DbtExporter.buildOrderByClause t;
                  DbtExporter.buildLimitClause t ] =
  (Spec.clauseLines (Transform.filters t)
     (fun filters => ("WHERE " ++ join " AND " (map TransformFilter.expression filters))%string)
   ++ Spec.clauseLines (Transform.groupBy t) (fun tokens => ("GROUP BY " ++ join ", " tokens)%string)
   ++ Spec.clauseLines (Transform.orderBy t)
     (fun terms => ("ORDER BY " ++ join ", " (map DbtExporter.orderTerm terms))%string)
   ++ match Transform.limit t with
      | None => []
      | Some n => if falsy n then [] else [("LIMIT " ++ numberToString n)%string]
      end)%list.
Proof.
  unfold DbtExporter.buildWhereClause, DbtExporter.buildGroupByClause,
    DbtExporter.buildOrderByClause, DbtExporter.buildLimitClause.
  destruct (Transform.filters t) as [[|f fs]|];
    destruct (Transform.groupBy t) as [[|g gs]|];
    destruct (Transform.orderBy t) as [[|o os]|];
    destruct (Transform.limit t) as [n|]; try destruct (falsy n);
    reflexivity.
Qed.

(** Without joins every further source is cross-joined. *)
Lemma joinClause_without_joins (target : TransformSource.t -> string)
    (condition : TransformJoin.t -> string) (joins : option (list TransformJoin.t))
    (sources : list TransformSource.t) :
  map (Spec.joinClause target condition (orEmpty joins)) sources =
  if absentOrEmpty joins then map (fun s => ("  CROSS JOIN " ++ target s)%string) sources
  else map (Spec.joinClause target condition (orEmpty joins)) sources.
Proof.
  destruct joins as [[|j js]|]; reflexivity.
Qed.

(** A view over two tables with no join and no column: the statement has a
    CROSS JOIN clause for the second table and the star as its select list,
    so neither the join clause nor the select clause is omitted. *)
Lemma cross_join_and_star_are_emitted :
  TransformExporter.exportTransform
    (Transform.Build "v" None None (Some [Sample.source "A"; Sample.source "B"])
       (Some []) (Some []) (Some []) None None None None None) "postgres"
  = Normal ("-- Transform: v" ++ LF
            ++ "CREATE OR REPLACE VIEW " ++ DQ ++ "v" ++ DQ ++ " AS" ++ LF
            ++ "SELECT" ++ LF
            ++ "  *" ++ LF
            ++ "FROM " ++ DQ ++ "A" ++ DQ ++ LF
            ++ "  CROSS JOIN " ++ DQ ++ "B" ++ DQ ++ ";" ++ LF)
  /\ DbtExporter.generateDbtModel toLowerCase
       (Transform.Build "v" None None (Some [Sample.source "A"; Sample.source "B"])
          (Some []) (Some []) (Some []) None None None None None)
     = Normal ("{{" ++ LF ++ "  config(" ++ LF ++ "    materialized='view'" ++ LF
               ++ "  )" ++ LF ++ "}}" ++ LF
               ++ "-- Transform: v" ++ LF
               ++ "-- Generated from DBML" ++ LF
               ++ "SELECT" ++ LF
               ++ "  *" ++ LF
               ++ "FROM {{ ref('a') }} AS A" ++ LF
               ++ "  CROSS JOIN {{ ref('b') }} AS B" ++ LF).
Proof.
  split; reflexivity.
Qed.

(** C1, amended. [exportTransform] and [generateDbtModel] throw if and only
    if the Transform's sources are empty or absent, and return a string if
    and only if there is at least one source. The string returned is the
    header, SELECT, the select list, the FROM line, one join line for each
    further source and one line for each clause that has content: absent or
    empty filters, groupBy or orderBy and an absent or falsy limit leave no
    line in the text. Absent or empty columns give the star as select list,
    and absent or empty joins give a CROSS JOIN line without ON for every
    source after the first. *)
Theorem emission_throws_iff_no_sources :
  forall (snakeCase : string -> string) (t : Transform.t) (dialect : string),
    ((exists m, TransformExporter.exportTransform t dialect = Throw m)
       <-> absentOrEmpty (Transform.sources t) = true)
    /\ ((exists m, DbtExporter.generateDbtModel snakeCase t = Throw m)
       <-> absentOrEmpty (Transform.sources t) = true)
    /\ ((exists sql, TransformExporter.exportTransform t dialect = Normal sql)
       <-> absentOrEmpty (Transform.sources t) = false)
    /\ ((exists sql, DbtExporter.generateDbtModel snakeCase t = Normal sql)
       <-> absentOrEmpty (Transform.sources t) = false)
    /\ (forall (first : TransformSource.t) (rest : list TransformSource.t),
        Transform.sources t = Some (first :: rest) ->
        TransformExporter.exportTransform t dialect =
        Normal (join LF
          ([ "-- Transform: " ++ Transform.name t;
             "CREATE OR REPLACE VIEW " ++ DQ ++ Transform.name t ++ DQ ++ " AS";
             "SELECT";
             (if absentOrEmpty (Transform.columns t) then "  *"
              else join ("," ++ LF) (map (TransformExporter.columnExpression dialect)
                                         (orEmpty (Transform.columns t))));
             "FROM " ++ sqlTarget first ]
           ++ (if absentOrEmpty (Transform.joins t)
               then map (fun s => ("  CROSS JOIN " ++ sqlTarget s)%string) rest
               else map (Spec.joinClause sqlTarget TransformExporter.onClause
                           (orEmpty (Transform.joins t))) rest)
           ++ Spec.clauseLines (Transform.filters t)
                (fun filters =>
                   ("WHERE " ++ join " AND " (map TransformFilter.expression filters))%string)
           ++ Spec.clauseLines (Transform.groupBy t)
                (fun tokens =>
                   ("GROUP BY " ++ join ", " (map TransformExporter.groupByColumn tokens))%string)
           ++ Spec.clauseLines (Transform.orderBy t)
                (fun terms =>
                   ("ORDER BY " ++ join ", " (map TransformExporter.orderTerm terms))%string)
           ++ match Transform.limit t with
              | None => []
              | Some n => if falsy n then [] else [("LIMIT " ++ numberToString n)%string]
              end)
          ++ ";" ++ LF))
    /\ (forall (first : TransformSource.t) (rest : list TransformSource.t),
        Transform.sources t = Some (first :: rest) ->
        DbtExporter.generateDbtModel snakeCase t =
        Normal (join LF
          ([ "{{"; "  config("; "    materialized='view'"; "  )"; "}}";
             "-- Transform: " ++ Transform.name t;
             "-- Generated from DBML";
             "SELECT";
             (if absentOrEmpty (Transform.columns t) then "  *"
              else join ("," ++ LF) (map DbtExporter.columnExpression
                                         (orEmpty (Transform.columns t))));
             "FROM " ++ dbtTarget snakeCase first ]
           ++ (if absentOrEmpty (Transform.joins t)
               then map (fun s => ("  CROSS JOIN " ++ dbtTarget snakeCase s)%string) rest
               else map (Spec.joinClause (dbtTarget snakeCase) DbtExporter.onClause
                           (orEmpty (Transform.joins t))) rest)
           ++ Spec.clauseLines (Transform.filters t)
                (fun filters =>
                   ("WHERE " ++ join " AND " (map TransformFilter.expression filters))%string)
           ++ Spec.clauseLines (Transform.groupBy t)
                (fun tokens => ("GROUP BY " ++ join ", " tokens)%string)
           ++ Spec.clauseLines (Transform.orderBy t)
                (fun terms => ("ORDER BY " ++ join ", " (map DbtExporter.orderTerm terms))%string)
           ++ match Transform.limit t with
              | None => []
              | Some n => if falsy n then [] else [("LIMIT " ++ numberToString n)%string]
              end)
          ++ LF)).
Proof.
  intros snakeCase t dialect.
  split; [apply sql_throws_iff|].
  split; [apply dbt_throws_iff|].
  split; [apply sql_returns_iff|].
  split; [apply dbt_returns_iff|].
  split.
  - intros first rest Hs.
    rewrite (exportTransform_lines t dialect first rest Hs), sql_optional_clauses.
    rewrite <- joinClause_without_joins. reflexivity.
  - intros first rest Hs.
    rewrite (generateDbtModel_lines snakeCase t first rest Hs), dbt_optional_clauses.
    rewrite <- joinClause_without_joins. reflexivity.
Qed.

(** A view over no table is refused; a view over one table with nothing else
    is emitted as its header, SELECT, the star and the FROM line, with no
    line for any other clause. *)
Lemma emission_throws_iff_no_sources_witness :
  (exists m, TransformExporter.exportTransform (Sample.emptyTransform "v") "postgres"
     = Throw m)
  /\ TransformExporter.exportTransform
       (Transform.Build "v" None None (Some [Sample.source "t"]) (Some []) (Some [])
          (Some []) None None None None None) "postgres"
     = Normal ("-- Transform: v" ++ LF
               ++ "CREATE OR REPLACE VIEW " ++ DQ ++ "v" ++ DQ ++ " AS" ++ LF
               ++ "SELECT" ++ LF
               ++ "  *" ++ LF
               ++ "FROM " ++ DQ ++ "t" ++ DQ ++ ";" ++ LF)
  /\ DbtExporter.generateDbtModel toLowerCase
       (Transform.Build "v" None None (Some [Sample.source "t"]) (Some []) (Some [])
          (Some []) None None None None None)
     = Normal ("{{" ++ LF ++ "  config(" ++ LF ++ "    materialized='view'" ++ LF
               ++ "  )" ++ LF ++ "}}" ++ LF
               ++ "-- Transform: v" ++ LF
               ++ "-- Generated from DBML" ++ LF
               ++ "SELECT" ++ LF
               ++ "  *" ++ LF
               ++ "FROM {{ ref('t') }} AS t" ++ LF).
Proof.
  split.
  - apply (emission_throws_iff_no_sources toLowerCase). reflexivity.
  - split.
    + exact (proj1 (proj2 (proj2 (proj2 (proj2
        (emission_throws_iff_no_sources toLowerCase
           (Transform.Build "v" None None (Some [Sample.source "t"]) (Some []) (Some [])
              (Some []) None None None None None) "postgres")))))
        (Sample.source "t") [] eq_refl).
    + exact (proj2 (proj2 (proj2 (proj2 (proj2
        (emission_throws_iff_no_sources toLowerCase
           (Transform.Build "v" None None (Some [Sample.source "t"]) (Some []) (Some [])
              (Some []) None None None None None) "postgres")))))
        (Sample.source "t") [] eq_refl).
Defined.

(** ** Join clauses *)

Lemma sql_onClause_text (j : TransformJoin.t) :
  TransformExporter.onClause j =
  DQ ++ TransformJoin.leftTable j ++ DQ ++ "." ++ DQ ++ TransformJoin.leftColumn j ++ DQ
    ++ " " ++ TransformJoin.operator j ++ " "
    ++ DQ ++ TransformJoin.rightTable j ++ DQ ++ "." ++ DQ ++ TransformJoin.rightColumn j ++ DQ.
Proof.
  unfold TransformExporter.onClause. now rewrite !append_assoc.
Qed.

(** C2. With sources [first :: rest], the join lines of the statement are, in
    source order, one line per source of [rest]: an INNER JOIN on that source
    whose ON body is the conditions of every Join naming it on either side,
    joined with AND, when there is such a Join, and a CROSS JOIN on it with
    no ON clause otherwise. The lines stand between the FROM line and the
    remaining clauses of the statement. *)
Theorem one_join_clause_per_further_source :
  forall (t : Transform.t) (dialect : string)
         (first : TransformSource.t) (rest : list TransformSource.t),
    Transform.sources t = Some (first :: rest) ->
    let clause := Spec.joinClause sqlTarget TransformExporter.onClause
                    (orEmpty (Transform.joins t)) in
    TransformExporter.buildJoinClauses t dialect = map clause rest
    /\ TransformExporter.exportTransform t dialect =
       Normal (join LF
         ([ "-- Transform: " ++ Transform.name t;
            "CREATE OR REPLACE VIEW " ++ DQ ++ Transform.name t ++ DQ ++ " AS";
            "SELECT";
            TransformExporter.buildSelectClause t dialect;
            "FROM " ++ sqlTarget first ]
          ++ map clause rest
          ++ filterBoolean [ TransformExporter.buildWhereClause t dialect;
                             TransformExporter.buildGroupByClause t dialect;
                             TransformExporter.buildOrderByClause t dialect;
                             TransformExporter.buildLimitClause t dialect ])
         ++ ";" ++ LF)
    /\ (forall j : TransformJoin.t,
          TransformExporter.onClause j =
          DQ ++ TransformJoin.leftTable j ++ DQ ++ "." ++ DQ ++ TransformJoin.leftColumn j ++ DQ
            ++ " " ++ TransformJoin.operator j ++ " "
            ++ DQ ++ TransformJoin.rightTable j ++ DQ ++ "." ++ DQ
            ++ TransformJoin.rightColumn j ++ DQ).
Proof.
  intros t dialect first rest Hs clause. repeat split.
  - rewrite sql_buildJoinClauses_map, Hs. reflexivity.
  - now apply exportTransform_lines.
  - apply sql_onClause_text.
Qed.

(** [Users, Orders, Payments] with the single join [Users.id = Orders.user_id]:
    Orders is inner-joined, Payments cross-joined. *)
Lemma one_join_clause_per_further_source_witness :
  TransformExporter.buildJoinClauses
    (Transform.Build "v" None None
       (Some [Sample.source "Users"; Sample.source "Orders"; Sample.source "Payments"])
       (Some []) (Some [TransformJoin.Build "Users" "id" "=" "Orders" "user_id"])
       (Some []) None None None None None) "postgres"
  = [ "  INNER JOIN " ++ DQ ++ "Orders" ++ DQ ++ " ON "
        ++ DQ ++ "Users" ++ DQ ++ "." ++ DQ ++ "id" ++ DQ ++ " = "
        ++ DQ ++ "Orders" ++ DQ ++ "." ++ DQ ++ "user_id" ++ DQ;
      "  CROSS JOIN " ++ DQ ++ "Payments" ++ DQ ].
Proof.
  exact (proj1 (one_join_clause_per_further_source
    (Transform.Build "v" None None
       (Some [Sample.source "Users"; Sample.source "Orders"; Sample.source "Payments"])
       (Some []) (Some [TransformJoin.Build "Users" "id" "=" "Orders" "user_id"])
       (Some []) None None None None None) "postgres"
    (Sample.source "Users") [Sample.source "Orders"; Sample.source "Payments"] eq_refl)).
Defined.




(** ** Aggregation and window columns *)

(** C9. For an aggregation column whose partitionBy is empty or unset, both
    emitters render the plain call [FUNC(arg)] followed only by the alias:
    no OVER clause, no ORDER BY, and the same text as if the aggregation
    carried no orderBy at all. *)
Theorem aggregation_orderBy_dropped_without_partition :
  forall (snakeCase : string -> string) (col : TransformColumn.t) (agg : Aggregation.t)
         (dialect : string),
    TransformColumn.aggregation col = Some agg ->
    absentOrEmpty (Aggregation.partitionBy agg) = true ->
    let func := toUpperCase (Aggregation.function agg) in
    let bare := Aggregation.Build (Aggregation.function agg) (Aggregation.partitionBy agg) None in
    (TransformExporter.columnExpression dialect col =
       "  " ++ func ++ "("
         ++ TransformExporter.columnRef (TransformColumn.sourceTable col)
                                        (TransformColumn.sourceColumn col)
         ++ ")" ++ TransformExporter.aliasSuffix (TransformColumn.alias col)
     /\ TransformExporter.buildAggregationColumn col agg dialect =
        TransformExporter.buildAggregationColumn col bare dialect)
    /\ (DbtExporter.columnExpression col =
       "  " ++ func ++ "("
         ++ DbtExporter.columnRef (TransformColumn.sourceTable col)
                                  (TransformColumn.sourceColumn col)
         ++ ")" ++ DbtExporter.aliasSuffix (TransformColumn.alias col)
     /\ DbtExporter.buildAggregationColumn col agg =
        DbtExporter.buildAggregationColumn col bare).
Proof.
  intros snakeCase col agg dialect Hagg Hpart func bare.
  unfold TransformExporter.columnExpression, DbtExporter.columnExpression.
  rewrite Hagg.
  unfold TransformExporter.buildAggregationColumn, DbtExporter.buildAggregationColumn.
  cbn [Aggregation.partitionBy Aggregation.function bare].
  rewrite Hpart. cbn [negb]. fold func.
  repeat split; now rewrite ?append_assoc.
Qed.

(** [Orders.total [agg: sum, order_by: Orders.date desc]] renders [SUM(...)]
    alone. *)
Lemma aggregation_orderBy_dropped_without_partition_witness :
  let agg := Aggregation.Build "sum" None
               (Some [TransformOrderBy.Build "Orders" "date" DESC]) in
  let col := TransformColumn.Build "Orders" "total" None None (Some agg) None in
  TransformExporter.columnExpression "postgres" col =
    "  SUM(" ++ DQ ++ "Orders" ++ DQ ++ "." ++ DQ ++ "total" ++ DQ ++ ")"
  /\ DbtExporter.columnExpression col = "  SUM(Orders.total)".
Proof.
  pose proof (aggregation_orderBy_dropped_without_partition toLowerCase
    (TransformColumn.Build "Orders" "total" None None
       (Some (Aggregation.Build "sum" None
                (Some [TransformOrderBy.Build "Orders" "date" DESC]))) None)
    (Aggregation.Build "sum" None (Some [TransformOrderBy.Build "Orders" "date" DESC]))
    "postgres" eq_refl eq_refl) as H.
  split; [exact (proj1 (proj1 H)) | exact (proj1 (proj2 H))].
Defined.

Lemma call_text (func args : string) :
  (if truthy args then func ++ "(" ++ args ++ ")" else func ++ "()") =
  func ++ "(" ++ args ++ ")".
Proof.
  destruct args; reflexivity.
Qed.

Lemma over_text (call over : string) :
  (if truthy over then call ++ " OVER (" ++ over ++ ")" else call ++ " OVER ()") =
  call ++ " OVER (" ++ over ++ ")".
Proof.
  destruct over; reflexivity.
Qed.

Lemma takesArgument_not_noArgument (func : string) :
  arrayIncludes TransformExporter.takesArgument func = true ->
  arrayIncludes TransformExporter.noArgument func = false.
Proof.
  unfold arrayIncludes, TransformExporter.takesArgument. cbn [existsb].
  intros H.
  repeat (apply orb_true_iff in H as [H|H];
          [apply String.eqb_eq in H; subst func; reflexivity|]).
  discriminate H.
Qed.

(** The two lists of [buildWindowColumn] leave an empty argument list to the
    rank family and to it alone. *)
Lemma sql_window_args (func ref : string) :
  (if arrayIncludes TransformExporter.takesArgument func then ref
   else if arrayIncludes TransformExporter.noArgument func then "" else ref) =
  (if arrayIncludes Spec.rankFamily func then "" else ref).
Proof.
  change Spec.rankFamily with TransformExporter.noArgument.
  destruct (arrayIncludes TransformExporter.takesArgument func) eqn:T; [|reflexivity].
  now rewrite (takesArgument_not_noArgument _ T).
Qed.

Lemma sql_columnRef_reference (table column : string) :
  TransformExporter.columnRef table column = Spec.columnReference table column.
Proof.
  unfold TransformExporter.columnRef, Spec.columnReference, truthy.
  destruct (table =? ""); reflexivity.
Qed.

Lemma columnReference_nonempty (table column : string) :
  Spec.columnReference table column <> "".
Proof.
  unfold Spec.columnReference. destruct (table =? ""); discriminate.
Qed.

(** C4. A window column is rendered as [FUNC(args) OVER (over)] plus the
    alias, where FUNC is the stored function name in upper case. [args] is
    empty exactly when FUNC is one of ROW_NUMBER, RANK, DENSE_RANK,
    PERCENT_RANK, CUME_DIST and is the quoted column reference for every
    other name, known or not. [over] holds, separated by one space, the
    PARTITION BY list, the ORDER BY list and the frame that are present; it
    is empty, giving [OVER ()], when there is none of them. *)
Theorem window_column_rendering :
  forall (col : TransformColumn.t) (win : Window.t) (dialect : string),
    TransformColumn.aggregation col = None ->
    TransformColumn.window col = Some win ->
    let func := toUpperCase (Window.function win) in
    let args :=
      if arrayIncludes Spec.rankFamily func then ""
      else Spec.columnReference (TransformColumn.sourceTable col)
                                (TransformColumn.sourceColumn col) in
    let partition :=
      if absentOrEmpty (Window.partitionBy win) then ""
      else "PARTITION BY "
             ++ join ", " (map (fun token => DQ ++ token ++ DQ)
                               (orEmpty (Window.partitionBy win))) in
    let order :=
      if absentOrEmpty (Window.orderBy win) then ""
      else "ORDER BY "
             ++ join ", " (map (fun o => DQ ++ TransformOrderBy.table o ++ DQ ++ "."
                                           ++ DQ ++ TransformOrderBy.column o ++ DQ ++ " "
                                           ++ directionText (TransformOrderBy.direction o))
                               (orEmpty (Window.orderBy win))) in
    let frame := match Window.frame win with Some f => f | None => "" end in
    let over := join " " (filter truthy [partition; order; frame]) in
    let alias :=
      match TransformColumn.alias col with
      | Some a => if a =? "" then "" else " AS " ++ DQ ++ a ++ DQ
      | None => ""
      end in
    TransformExporter.columnExpression dialect col =
      "  " ++ func ++ "(" ++ args ++ ")" ++ " OVER (" ++ over ++ ")" ++ alias
    /\ (args = "" <-> arrayIncludes Spec.rankFamily func = true)
    /\ (absentOrEmpty (Window.partitionBy win) = true ->
        absentOrEmpty (Window.orderBy win) = true ->
        truthyOpt (Window.frame win) = false ->
        over = "").
Proof.
  intros col win dialect Hagg Hwin func args partition order frame over alias.
  split; [|split].
  - unfold TransformExporter.columnExpression. rewrite Hagg, Hwin.
    unfold TransformExporter.buildWindowColumn.
    cbv zeta. fold func. rewrite sql_window_args, sql_columnRef_reference. fold args.
    rewrite call_text, over_text.
    assert (Halias : TransformExporter.aliasSuffix (TransformColumn.alias col) = alias).
    { unfold TransformExporter.aliasSuffix, alias, truthy.
      destruct (TransformColumn.alias col) as [a|]; [|reflexivity].
      destruct (a =? ""); reflexivity. }
    match goal with
    | |- context [" OVER (" ++ ?o ++ ")"] => assert (Hover : o = over)
    end.
    { unfold over, partition, order, frame, TransformExporter.quoted,
        TransformExporter.orderTerm.
      destruct (absentOrEmpty (Window.partitionBy win));
        destruct (absentOrEmpty (Window.orderBy win));
        destruct (Window.frame win) as [[|c f]|];
        cbn [negb truthy String.eqb filter join append]; rewrite ?append_assoc;
        reflexivity. }
    rewrite Hover, Halias. now rewrite !append_assoc.
  - unfold args. destruct (arrayIncludes Spec.rankFamily func).
    + split; reflexivity.
    + split; [intros E; now apply columnReference_nonempty in E | discriminate].
  - intros Hp Ho Hf. unfold over, partition, order, frame. rewrite Hp, Ho.
    destruct (Window.frame win) as [f|]; [|reflexivity].
    cbn [truthyOpt] in Hf. cbn [filter]. now rewrite Hf.
Qed.

(** [row_number] takes no argument and, with no window specification, is
    followed by [OVER ()]; [lag] and a name the emitter does not know take
    the column reference; partition, order and frame fill the OVER clause. *)
Lemma window_column_rendering_witness :
  TransformExporter.columnExpression "postgres"
    (TransformColumn.Build "Orders" "id" (Some "n") None None
       (Some (Window.Build "row_number" None None None)))
  = "  ROW_NUMBER() OVER () AS " ++ DQ ++ "n" ++ DQ
  /\ TransformExporter.columnExpression "postgres"
       (TransformColumn.Build "Orders" "total" None None None
          (Some (Window.Build "lag" (Some ["user_id"])
                   (Some [TransformOrderBy.Build "Orders" "date" DESC])
                   (Some "ROWS 1 PRECEDING"))))
     = "  LAG(" ++ DQ ++ "Orders" ++ DQ ++ "." ++ DQ ++ "total" ++ DQ ++ ") OVER ("
         ++ "PARTITION BY " ++ DQ ++ "user_id" ++ DQ
         ++ " ORDER BY " ++ DQ ++ "Orders" ++ DQ ++ "." ++ DQ ++ "date" ++ DQ ++ " DESC"
         ++ " ROWS 1 PRECEDING)"
  /\ TransformExporter.columnExpression "postgres"
       (TransformColumn.Build "" "total" None None None
          (Some (Window.Build "median" None None None)))
     = "  MEDIAN(" ++ DQ ++ "total" ++ DQ ++ ") OVER ()".
Proof.
  split; [|split].
  - exact (proj1 (window_column_rendering
      (TransformColumn.Build "Orders" "id" (Some "n") None None
         (Some (Window.Build "row_number" None None None)))
      (Window.Build "row_number" None None None) "postgres" eq_refl eq_refl)).
  - exact (proj1 (window_column_rendering
      (TransformColumn.Build "Orders" "total" None None None
         (Some (Window.Build "lag" (Some ["user_id"])
                  (Some [TransformOrderBy.Build "Orders" "date" DESC])
                  (Some "ROWS 1 PRECEDING"))))
      (Window.Build "lag" (Some ["user_id"])
         (Some [TransformOrderBy.Build "Orders" "date" DESC]) (Some "ROWS 1 PRECEDING"))
      "postgres" eq_refl eq_refl)).
  - exact (proj1 (window_column_rendering
      (TransformColumn.Build "" "total" None None None
         (Some (Window.Build "median" None None None)))
      (Window.Build "median" None None None) "postgres" eq_refl eq_refl)).
Defined.

(** ** The statement interpreter *)

Lemma lastElement_snoc (front : list string) (final : string) :
  TransformInterpreter.lastElement (front ++ [final]) = Some final.
Proof.
  unfold TransformInterpreter.lastElement.
  destruct (front ++ [final])%list eqn:E; [now destruct front|].
  rewrite <- E, length_app, nth_error_app2; cbn [length]; [|lia].
  replace (length front + 1 - 1 - length front) with 0 by lia. reflexivity.
Qed.

Lemma lowerIs_eqb (final word : string) :
  TransformInterpreter.lowerIs (Some final) word = (toLowerCase final =? word).
Proof.
  reflexivity.
Qed.

Section Interpreter.

Variable SyntaxNode : Type.
Variable asInfixExpressionNode : SyntaxNode -> option (InfixExpressionNode.t SyntaxNode).
Variable destructureComplexVariable : SyntaxNode -> option (list string).
Variable extractVariableFromExpression : SyntaxNode -> option string.

Local Abbreviation parseOrderBy :=
  (TransformInterpreter.parseOrderBy SyntaxNode destructureComplexVariable).
Local Abbreviation interpretOrderBy :=
  (TransformInterpreter.interpretOrderBy SyntaxNode destructureComplexVariable).
Local Abbreviation interpretLimit :=
  (TransformInterpreter.interpretLimit SyntaxNode extractVariableFromExpression).
Local Abbreviation interpretStatement :=
  (TransformInterpreter.interpretStatement SyntaxNode asInfixExpressionNode
     destructureComplexVariable extractVariableFromExpression).
Local Abbreviation error := (TransformInterpreter.error SyntaxNode).

Lemma parseOrderBy_spec (expression : SyntaxNode) :
  let fragments :=
    TransformInterpreter.unwrap_or (destructureComplexVariable expression) [] in
  parseOrderBy expression =
  Spec.orderTerms (fst (Spec.popDirection fragments)) (snd (Spec.popDirection fragments)).
Proof.
  intros fragments. unfold TransformInterpreter.parseOrderBy. fold fragments.
  destruct fragments as [|f fs] using rev_ind; [reflexivity|].
  unfold Spec.popDirection.
  rewrite lastElement_snoc, !lowerIs_eqb, rev_unit, removelast_last, rev_involutive.
  destruct (toLowerCase f =? "desc"); [reflexivity|].
  destruct (toLowerCase f =? "asc"); reflexivity.
Qed.

(** C5. The order-by parser decomposes the expression, pops a final
    fragment that is asc or desc whatever its case and takes it as the
    direction (ASC when there is none), and returns exactly one term
    [{table, column, direction}] when exactly two fragments remain and no
    term for any other count. The order_by statement appends these terms
    and returns no diagnostic. *)
Theorem order_by_parser :
  forall (statement : TransformInterpreter.Statement SyntaxNode)
         (expression : SyntaxNode) (transform : Transform.t),
    TransformStatementNode.expression statement = Some expression ->
    let fragments :=
      TransformInterpreter.unwrap_or (destructureComplexVariable expression) [] in
    let direction := fst (Spec.popDirection fragments) in
    let remaining := snd (Spec.popDirection fragments) in
    parseOrderBy expression = Spec.orderTerms direction remaining
    /\ (forall table column, remaining = [table; column] ->
          parseOrderBy expression = [TransformOrderBy.Build table column direction])
    /\ (length remaining <> 2 -> parseOrderBy expression = [])
    /\ interpretOrderBy statement transform =
       Normal ([], Transform.Build
         (Transform.name transform) (Transform.schemaName transform)
         (Transform.alias transform) (Transform.sources transform)
         (Transform.columns transform) (Transform.joins transform)
         (Transform.filters transform) (Transform.groupBy transform)
         (Some (TransformInterpreter.unwrap_or (Transform.orderBy transform) []
                  ++ parseOrderBy expression)%list)
         (Transform.limit transform) (Transform.derivedColumns transform)
         (Transform.nestedTransform transform)).
Proof.
  intros statement expression transform Hexpr fragments direction remaining.
  pose proof (parseOrderBy_spec expression) as Hspec. cbv zeta in Hspec.
  fold fragments in Hspec. fold direction remaining in Hspec.
  split; [exact Hspec|].
  split; [intros table column E; rewrite Hspec, E; reflexivity|].
  split.
  - intros Hlen. rewrite Hspec.
    destruct remaining as [|a [|b [|c r]]]; try reflexivity.
    now contradiction Hlen.
  - unfold TransformInterpreter.interpretOrderBy. now rewrite Hexpr.
Qed.

(** C6. A statement whose keyword, lower-cased, is none of join, where,
    group_by, order_by, limit, using, add yields exactly one diagnostic, of
    code UNEXPECTED_TOKEN, whose message names the lower-cased keyword and
    which points at the statement; the Transform comes back as it was. *)
Theorem unknown_keyword_diagnostic :
  forall (statement : TransformInterpreter.Statement SyntaxNode) (keyword : string)
         (transform : Transform.t),
    TransformStatementNode.keyword statement = Some keyword ->
    arrayIncludes Spec.keywords (toLowerCase keyword) = false ->
    interpretStatement statement transform =
    Normal ([ CompileError.Build UNEXPECTED_TOKEN
                ("Unknown transform keyword: " ++ toLowerCase keyword) statement ],
            transform).
Proof.
  intros statement keyword transform Hkw Hunknown.
  unfold TransformInterpreter.interpretStatement. rewrite Hkw. cbn [option_map].
  unfold arrayIncludes, Spec.keywords in Hunknown. cbn [existsb] in Hunknown.
  repeat match goal with
  | H : _ || _ = false |- _ =>
      let E := fresh "E" in
      apply orb_false_iff in H as [E H]; rewrite E; clear E
  end.
  reflexivity.
Qed.

(** C10. When [extractVariableFromExpression] fails on the expression of a
    limit statement, the interpreter parses the fallback token 0: the limit
    becomes the integer 0 and no diagnostic is returned. *)
Theorem limit_extraction_failure_is_silent :
  forall (statement : TransformInterpreter.Statement SyntaxNode)
         (expression : SyntaxNode) (transform : Transform.t),
    TransformStatementNode.expression statement = Some expression ->
    extractVariableFromExpression expression = None ->
    TransformInterpreter.unwrap_or (extractVariableFromExpression expression) "0" = "0"
    /\ interpretLimit statement transform =
       Normal ([], Transform.Build
         (Transform.name transform) (Transform.schemaName transform)
         (Transform.alias transform) (Transform.sources transform)
         (Transform.columns transform) (Transform.joins transform)
         (Transform.filters transform) (Transform.groupBy transform)
         (Transform.orderBy transform) (Some (Finite 0))
         (Transform.derivedColumns transform) (Transform.nestedTransform transform))
    /\ (TransformStatementNode.keyword statement = Some "limit" ->
        interpretStatement statement transform = interpretLimit statement transform).
Proof.
  intros statement expression transform Hexpr Hfail.
  split; [now rewrite Hfail|]. split.
  - unfold TransformInterpreter.interpretLimit. now rewrite Hexpr, Hfail.
  - intros Hkw. unfold TransformInterpreter.interpretStatement. now rewrite Hkw.
Qed.

End Interpreter.

(** [order_by: Orders.total Desc] gives one descending term; three name
    fragments give none. *)
Lemma order_by_parser_witness :
  TransformInterpreter.parseOrderBy Sample.Node Sample.destructureComplexVariable
    (Sample.Dotted ["Orders"; "total"; "Desc"])
  = [TransformOrderBy.Build "Orders" "total" DESC]
  /\ TransformInterpreter.parseOrderBy Sample.Node Sample.destructureComplexVariable
       (Sample.Dotted ["a"; "b"; "c"]) = [].
Proof.
  split.
  - exact (proj1 (proj2 (order_by_parser Sample.Node Sample.destructureComplexVariable
      (Sample.statement "order_by" (Sample.Dotted ["Orders"; "total"; "Desc"]))
      (Sample.Dotted ["Orders"; "total"; "Desc"]) (Sample.emptyTransform "v") eq_refl))
      "Orders" "total" eq_refl).
  - refine (proj1 (proj2 (proj2 (order_by_parser Sample.Node Sample.destructureComplexVariable
      (Sample.statement "order_by" (Sample.Dotted ["a"; "b"; "c"]))
      (Sample.Dotted ["a"; "b"; "c"]) (Sample.emptyTransform "v") eq_refl))) _).
    vm_compute. lia.
Defined.

(** [Having: x] is not a statement of a transform. *)
Lemma unknown_keyword_diagnostic_witness :
  Sample.interpretStatement (Sample.statement "Having" Sample.Opaque)
    (Sample.emptyTransform "v")
  = Normal ([ CompileError.Build UNEXPECTED_TOKEN "Unknown transform keyword: having"
                (Sample.statement "Having" Sample.Opaque) ],
            Sample.emptyTransform "v").
Proof.
  exact (unknown_keyword_diagnostic Sample.Node Sample.asInfixExpressionNode
    Sample.destructureComplexVariable Sample.extractVariableFromExpression
    (Sample.statement "Having" Sample.Opaque) "Having" (Sample.emptyTransform "v")
    eq_refl eq_refl).
Defined.

(** A limit whose expression is not a single name. *)
Lemma limit_extraction_failure_is_silent_witness :
  TransformInterpreter.interpretLimit Sample.Node Sample.extractVariableFromExpression
    (Sample.statement "limit" Sample.Opaque) (Sample.emptyTransform "v")
  = Normal ([], Transform.Build "v" None None (Some []) (Some []) (Some []) (Some [])
                  None None (Some (Finite 0)) None None).
Proof.
  exact (proj1 (proj2 (limit_extraction_failure_is_silent Sample.Node
    Sample.asInfixExpressionNode Sample.destructureComplexVariable
    Sample.extractVariableFromExpression
    (Sample.statement "limit" Sample.Opaque) Sample.Opaque (Sample.emptyTransform "v")
    eq_refl eq_refl))).
Defined.

(** ** The LIMIT clause *)

Lemma join_snoc (sep x : string) (xs : list string) :
  xs <> [] -> join sep (xs ++ [x]) = join sep xs ++ sep ++ x.
Proof.
  induction xs as [|y xs IH]; intros Hne; [contradiction|].
  destruct xs as [|z xs]; [reflexivity|].
  change (join sep ((y :: z :: xs) ++ [x])) with (y ++ sep ++ join sep ((z :: xs) ++ [x])).
  rewrite IH by discriminate.
  change (join sep (y :: z :: xs)) with (y ++ sep ++ join sep (z :: xs)).
  now rewrite !append_assoc.
Qed.

(** Below 2^53 the template literal prints the digits of the integer. *)
Lemma numberToString_safe (n : Z) :
  (Z.abs n < 9007199254740992)%Z -> numberToString (Finite n) = Spec.numeral n.
Proof.
  intros H. unfold numberToString, decimalDigits, Spec.numeral.
  change (2 ^ 53)%Z with 9007199254740992%Z.
  now rewrite (proj2 (Z.ltb_lt _ _) H).
Qed.

(** A Transform whose limit is the number 0 is emitted without a LIMIT clause;
    a limit of 10^21 is printed with an exponent and a limit of 2^64 with
    rounded digits; and the token 12abc of a limit statement is read as the
    limit 12. *)
Lemma limit_zero_and_digit_prefix :
  (exists sql,
     TransformExporter.exportTransform
       (Transform.Build "v" None None (Some [Sample.source "t"]) (Some []) (Some [])
          (Some []) None None (Some (Finite 0)) None None) "postgres" = Normal sql
     /\ includes sql "LIMIT" = false)
  /\ TransformExporter.buildLimitClause
       (Transform.Build "v" None None (Some [Sample.source "t"]) (Some []) (Some [])
          (Some []) None None (Some (Finite 1000000000000000000000)) None None) "postgres"
     = Some "LIMIT 1e+21"
  /\ TransformExporter.buildLimitClause
       (Transform.Build "v" None None (Some [Sample.source "t"]) (Some []) (Some [])
          (Some []) None None (Some (Finite 18446744073709551616)) None None) "postgres"
     = Some "LIMIT 18446744073709552000"
  /\ Sample.interpretStatement (Sample.statement "limit" (Sample.Dotted ["12abc"]))
       (Sample.emptyTransform "v")
     = Normal ([], Transform.Build "v" None None (Some []) (Some []) (Some []) (Some [])
                     None None (Some (Finite 12)) None None).
Proof.
  split; [eexists; split; reflexivity|].
  split; [vm_compute; reflexivity|].
  split; [vm_compute; reflexivity|].
  vm_compute; reflexivity.
Qed.

(** C3, amended. A Transform with a source whose limit is a positive integer
    n below 2^53 is emitted with [LIMIT n], n in decimal digits, as its last
    clause; and a limit statement whose token does not begin with a decimal
    integer ([parseInt] gives NaN) returns one INVALID_NAME diagnostic and
    leaves the Transform as it was. *)
Theorem limit_clause_and_limit_statement :
  (forall (t : Transform.t) (dialect : string) (n : Z),
     Transform.limit t = Some (Finite n) ->
     (0 < n <= 9007199254740991)%Z ->
     absentOrEmpty (Transform.sources t) = false ->
     exists sql before,
       TransformExporter.exportTransform t dialect = Normal sql
       /\ sql = before ++ LF ++ "LIMIT " ++ Spec.numeral n ++ ";" ++ LF
       /\ includes sql ("LIMIT " ++ Spec.numeral n) = true)
  /\ (forall (SyntaxNode : Type) (extractVariableFromExpression : SyntaxNode -> option string)
            (statement : TransformInterpreter.Statement SyntaxNode)
            (expression : SyntaxNode) (token : string) (transform : Transform.t),
     TransformStatementNode.expression statement = Some expression ->
     extractVariableFromExpression expression = Some token ->
     parseInt token = NaN ->
     TransformInterpreter.interpretLimit SyntaxNode extractVariableFromExpression
       statement transform
     = Normal ([ CompileError.Build INVALID_NAME "Limit must be a number" statement ],
               transform)).
Proof.
  split.
  - intros t dialect n Hlimit Hpos Hsrc.
    destruct (Transform.sources t) as [[|first rest]|] eqn:Hs; try discriminate Hsrc.
    rewrite (exportTransform_lines t dialect first rest Hs).
    assert (Hclause : TransformExporter.buildLimitClause t dialect =
                      Some ("LIMIT " ++ Spec.numeral n)).
    { unfold TransformExporter.buildLimitClause. rewrite Hlimit.
      rewrite numberToString_safe by lia. cbn [falsy].
      destruct (Z.eqb_spec n 0); [lia | reflexivity]. }
    rewrite Hclause.
    set (clause := "LIMIT " ++ Spec.numeral n).
    change [TransformExporter.buildWhereClause t dialect;
            TransformExporter.buildGroupByClause t dialect;
            TransformExporter.buildOrderByClause t dialect;
            Some clause]
      with ([TransformExporter.buildWhereClause t dialect;
             TransformExporter.buildGroupByClause t dialect;
             TransformExporter.buildOrderByClause t dialect]
            ++ [Some clause])%list.
    rewrite filterBoolean_app.
    change (filterBoolean [Some clause]) with [clause].
    rewrite !app_assoc, join_snoc by discriminate.
    match goal with
    | |- context [join LF ?xs ++ LF ++ clause] =>
        exists ((join LF xs ++ LF ++ clause) ++ ";" ++ LF), (join LF xs)
    end.
    split; [reflexivity|]. split.
    + now rewrite !append_assoc.
    + rewrite !append_assoc.
      rewrite <- (append_assoc _ LF (clause ++ ";" ++ LF)).
      apply includes_infix.
  - intros SyntaxNode extract statement expression token transform Hexpr Htok Hnan.
    unfold TransformInterpreter.interpretLimit.
    rewrite Hexpr, Htok. cbn [TransformInterpreter.unwrap_or]. now rewrite Hnan.
Qed.

(** [limit: 10] is emitted as [LIMIT 10]; [limit: abc] is refused. *)
Lemma limit_clause_and_limit_statement_witness :
  (exists sql before,
     TransformExporter.exportTransform
       (Transform.Build "v" None None (Some [Sample.source "t"]) (Some []) (Some [])
          (Some []) None None (Some (Finite 10)) None None) "postgres" = Normal sql
     /\ sql = before ++ LF ++ "LIMIT 10;" ++ LF
     /\ includes sql "LIMIT 10" = true)
  /\ TransformInterpreter.interpretLimit Sample.Node Sample.extractVariableFromExpression
       (Sample.statement "limit" (Sample.Dotted ["abc"])) (Sample.emptyTransform "v")
     = Normal ([ CompileError.Build INVALID_NAME "Limit must be a number"
                   (Sample.statement "limit" (Sample.Dotted ["abc"])) ],
               Sample.emptyTransform "v").
Proof.
  split.
  - apply (proj1 limit_clause_and_limit_statement
      (Transform.Build "v" None None (Some [Sample.source "t"]) (Some []) (Some [])
         (Some []) None None (Some (Finite 10)) None None) "postgres" 10%Z eq_refl);
      [lia | reflexivity].
  - exact (proj2 limit_clause_and_limit_statement Sample.Node
      Sample.extractVariableFromExpression
      (Sample.statement "limit" (Sample.Dotted ["abc"])) (Sample.Dotted ["abc"]) "abc"
      (Sample.emptyTransform "v") eq_refl eq_refl eq_refl).
Defined.

(** ** The omission law *)

(** A clause keyword holds no line feed, semicolon or double quote, and is
    not empty. *)
Lemma clauseKeyword_chars (keyword : string) :
  In keyword Spec.clauseKeywords ->
  hasChar "010"%char keyword = false
  /\ hasChar ";"%char keyword = false
  /\ hasChar "034"%char keyword = false
  /\ includes LF keyword = false
  /\ includes " AS" keyword = false
  /\ includes "SELECT" keyword = false.
Proof.
  intros [<-|[<-|[<-|[<-|[]]]]]; repeat split.
Qed.

Lemma clauseKeyword_comment_line (keyword name : string) :
  In keyword Spec.clauseKeywords ->
  includes ("-- Transform: " ++ name) keyword = includes name keyword.
Proof.
  intros [<-|[<-|[<-|[<-|[]]]]]; reflexivity.
Qed.

Lemma clauseKeyword_from_line (keyword target : string) :
  In keyword Spec.clauseKeywords ->
  includes ("FROM " ++ target) keyword = includes target keyword.
Proof.
  intros [<-|[<-|[<-|[<-|[]]]]]; reflexivity.
Qed.

Lemma clauseKeyword_create_line (keyword name : string) :
  In keyword Spec.clauseKeywords ->
  includes ("CREATE OR REPLACE VIEW " ++ DQ ++ name ++ DQ ++ " AS") keyword = true ->
  includes name keyword = true.
Proof.
  intros Hk H.
  destruct (clauseKeyword_chars keyword Hk) as [_ [_ [Hq [_ [Has _]]]]].
  assert (H' : includes (name ++ String "034"%char " AS") keyword = true).
  { destruct Hk as [<-|[<-|[<-|[<-|[]]]]]; exact H. }
  destruct (includes_sep _ _ _ _ Hq H') as [Hn|Ha]; [exact Hn | congruence].
Qed.

(** A view named WHERE over one table: the keyword is in the statement though
    the Transform has no filter. *)
Lemma keyword_in_view_name :
  exists sql,
    TransformExporter.exportTransform
      (Transform.Build "WHERE" None None (Some [Sample.source "t"]) (Some []) (Some [])
         (Some []) None None None None None) "postgres" = Normal sql
    /\ includes sql "WHERE" = true.
Proof.
  eexists; split; reflexivity.
Qed.

(** C7, amended. A Transform with a source and with no filters, no
    groupBy, no orderBy and no limit is emitted as the comment line, the
    CREATE line, SELECT, the select list, the FROM line and the join lines,
    with no WHERE, GROUP BY, ORDER BY or LIMIT line; and the statement
    contains none of these four keywords that is not already part of the view
    name, the select list, the FROM target or a join line. *)
Theorem omitted_clauses_leave_no_keyword :
  forall (t : Transform.t) (dialect : string)
         (first : TransformSource.t) (rest : list TransformSource.t) (keyword : string),
    Transform.sources t = Some (first :: rest) ->
    absentOrEmpty (Transform.filters t) = true ->
    absentOrEmpty (Transform.groupBy t) = true ->
    absentOrEmpty (Transform.orderBy t) = true ->
    Transform.limit t = None ->
    In keyword Spec.clauseKeywords ->
    includes (Transform.name t) keyword = false ->
    includes (TransformExporter.buildSelectClause t dialect) keyword = false ->
    includes (sqlTarget first) keyword = false ->
    (forall line, In line (TransformExporter.buildJoinClauses t dialect) ->
                  includes line keyword = false) ->
    exists sql,
      TransformExporter.exportTransform t dialect = Normal sql
      /\ sql = join LF
           ([ "-- Transform: " ++ Transform.name t;
              "CREATE OR REPLACE VIEW " ++ DQ ++ Transform.name t ++ DQ ++ " AS";
              "SELECT";
              TransformExporter.buildSelectClause t dialect;
              "FROM " ++ sqlTarget first ]
            ++ TransformExporter.buildJoinClauses t dialect)
           ++ ";" ++ LF
      /\ includes sql keyword = false.
Proof.
  intros t dialect first rest keyword Hs Hf Hg Ho Hl Hk Hname Hselect Hfrom Hjoins.
  pose proof (exportTransform_lines t dialect first rest Hs) as E.
  assert (Hnone : filterBoolean
            [ TransformExporter.buildWhereClause t dialect;
              TransformExporter.buildGroupByClause t dialect;
              TransformExporter.buildOrderByClause t dialect;
              TransformExporter.buildLimitClause t dialect ] = []).
  { unfold TransformExporter.buildWhereClause, TransformExporter.buildGroupByClause,
      TransformExporter.buildOrderByClause, TransformExporter.buildLimitClause.
    now rewrite Hf, Hg, Ho, Hl. }
  rewrite Hnone, app_nil_r in E.
  assert (Hj : TransformExporter.buildJoinClauses t dialect =
               map (Spec.joinClause sqlTarget TransformExporter.onClause
                      (orEmpty (Transform.joins t))) rest).
  { rewrite sql_buildJoinClauses_map, Hs. reflexivity. }
  rewrite <- Hj in E.
  eexists. split; [exact E|]. split; [reflexivity|].
  destruct (clauseKeyword_chars keyword Hk) as [Hlf [Hsemi [_ [Hend [_ Hsel]]]]].
  match goal with
  | |- includes ?s keyword = false => destruct (includes s keyword) eqn:Hin
  end; [exfalso | reflexivity].
  change (";" ++ LF) with (String ";"%char LF) in Hin.
  destruct (includes_sep _ _ _ _ Hsemi Hin) as [Hbody|Htail]; [|congruence].
  apply (includes_join _ _ _ Hlf) in Hbody; [|discriminate].
  destruct Hbody as [line [Hline Hhas]].
  destruct Hline as [<-|[<-|[<-|[<-|[<-|Hline]]]]].
  - rewrite (clauseKeyword_comment_line _ _ Hk) in Hhas. congruence.
  - apply (clauseKeyword_create_line _ _ Hk) in Hhas. congruence.
  - congruence.
  - congruence.
  - rewrite (clauseKeyword_from_line _ _ Hk) in Hhas. congruence.
  - rewrite (Hjoins line Hline) in Hhas. discriminate.
Qed.

(** The view [user_orders] over Users and Orders, joined on the user id. *)
Lemma omitted_clauses_leave_no_keyword_witness :
  exists sql,
    TransformExporter.exportTransform
      (Transform.Build "user_orders" None None
         (Some [Sample.source "Users"; Sample.source "Orders"])
         (Some [Sample.plain "Users" "id"])
         (Some [TransformJoin.Build "Users" "id" "=" "Orders" "user_id"])
         (Some []) None None None None None) "postgres" = Normal sql
    /\ includes sql "GROUP BY" = false.
Proof.
  assert (Hjoins : forall line,
    In line (TransformExporter.buildJoinClauses
      (Transform.Build "user_orders" None None
         (Some [Sample.source "Users"; Sample.source "Orders"])
         (Some [Sample.plain "Users" "id"])
         (Some [TransformJoin.Build "Users" "id" "=" "Orders" "user_id"])
         (Some []) None None None None None) "postgres") ->
    includes line "GROUP BY" = false).
  { intros line [<-|[]]. reflexivity. }
  destruct (omitted_clauses_leave_no_keyword
    (Transform.Build "user_orders" None None
       (Some [Sample.source "Users"; Sample.source "Orders"])
       (Some [Sample.plain "Users" "id"])
       (Some [TransformJoin.Build "Users" "id" "=" "Orders" "user_id"])
       (Some []) None None None None None) "postgres"
    (Sample.source "Users") [Sample.source "Orders"] "GROUP BY"
    eq_refl eq_refl eq_refl eq_refl eq_refl (or_intror (or_introl eq_refl))
    eq_refl eq_refl eq_refl Hjoins)
    as [sql [E [_ Hno]]].
  exists sql. split; assumption.
Defined.


(** * Further properties of the code *)

(** ** Exporting several transforms *)

Lemma join_app (sep : string) (xs ys : list string) :
  xs <> [] -> ys <> [] ->
  join sep (xs ++ ys) = join sep xs ++ sep ++ join sep ys.
Proof.
  induction xs as [|x xs IH]; intros Hx Hy; [contradiction|].
  destruct xs as [|x' xs].
  - destruct ys as [|y ys]; [contradiction | reflexivity].
  - change (join sep ((x :: x' :: xs) ++ ys))
      with (x ++ sep ++ join sep ((x' :: xs) ++ ys)).
    rewrite IH by (discriminate || assumption).
    change (join sep (x :: x' :: xs)) with (x ++ sep ++ join sep (x' :: xs)).
    now rewrite !append_assoc.
Qed.

Lemma mapThrowing_app {A B : Type} (f : A -> completion B) (xs ys : list A)
    (us vs : list B) :
  mapThrowing f xs = Normal us -> mapThrowing f ys = Normal vs ->
  mapThrowing f (xs ++ ys) = Normal (us ++ vs)%list.
Proof.
  revert us; induction xs as [|x xs IH]; intros us Hx Hy; simpl in *.
  - injection Hx as <-. exact Hy.
  - destruct (f x) as [y|m]; [|discriminate].
    destruct (mapThrowing f xs) as [ys'|m]; [|discriminate].
    injection Hx as <-. now rewrite (IH ys' eq_refl Hy).
Qed.

Lemma mapThrowing_length {A B : Type} (f : A -> completion B) (xs : list A) (us : list B) :
  mapThrowing f xs = Normal us -> length us = length xs.
Proof.
  revert us; induction xs as [|x xs IH]; intros us H; simpl in *.
  - now injection H as <-.
  - destruct (f x) as [y|m]; [|discriminate].
    destruct (mapThrowing f xs) as [ys'|m]; [|discriminate].
    injection H as <-. simpl. now rewrite (IH ys' eq_refl).
Qed.

(** The first element on which the callback throws decides the map. *)
Lemma mapThrowing_first_throw {A B : Type} (f : A -> completion B)
    (before after : list A) (x : A) (message : string) :
  (forall y, In y before -> exists v, f y = Normal v) ->
  f x = Throw message ->
  mapThrowing f (before ++ x :: after) = Throw message.
Proof.
  intros Hb Hx. induction before as [|b before IH]; simpl.
  - now rewrite Hx.
  - destruct (Hb b (or_introl eq_refl)) as [v ->].
    rewrite IH; [reflexivity|]. intros y Hy. apply Hb. now right.
Qed.

Lemma mapThrowing_all_normal {A B : Type} (f : A -> completion B) (xs : list A) :
  (forall y, In y xs -> exists v, f y = Normal v) ->
  exists vs, mapThrowing f xs = Normal vs.
Proof.
  induction xs as [|x xs IH]; intros H; simpl; [now eexists|].
  destruct (H x (or_introl eq_refl)) as [v ->].
  destruct IH as [vs ->]; [intros y Hy; apply H; now right|]. now eexists.
Qed.

Lemma mapThrowing_throw_inv {A B : Type} (f : A -> completion B) (xs : list A)
    (message : string) :
  mapThrowing f xs = Throw message -> exists x, In x xs /\ f x = Throw message.
Proof.
  induction xs as [|x xs IH]; intros H; simpl in *; [discriminate|].
  destruct (f x) as [y|m] eqn:E.
  - destruct (mapThrowing f xs) as [ys|m]; [discriminate|].
    injection H as ->. destruct (IH eq_refl) as [z [Hz Ez]]. exists z; auto.
  - injection H as ->. exists x; auto.
Qed.

Lemma sql_throw_message (t : Transform.t) (dialect : string) :
  absentOrEmpty (Transform.sources t) = true ->
  TransformExporter.exportTransform t dialect =
  Throw ("Transform " ++ Transform.name t ++ " has no sources").
Proof.
  unfold TransformExporter.exportTransform, TransformExporter.buildFromClause.
  destruct (Transform.sources t) as [[|s r]|]; cbn [absentOrEmpty]; intros H;
    (discriminate H || reflexivity).
Qed.

Lemma sql_normal (t : Transform.t) (dialect : string) :
  absentOrEmpty (Transform.sources t) = false ->
  exists sql, TransformExporter.exportTransform t dialect = Normal sql.
Proof.
  unfold TransformExporter.exportTransform, TransformExporter.buildFromClause.
  destruct (Transform.sources t) as [[|s r]|]; cbn [absentOrEmpty]; intros H;
    try discriminate H. now eexists.
Qed.

(** X1. [exportTransforms] throws if and only if one of the transforms has no
    source; the error is then the one of the first such transform in the
    list, whatever follows it. An absent or empty list gives the empty
    string. *)
Theorem exportTransforms_throws_on_first_sourceless :
  forall (dialect : string),
    (forall transforms : option (list Transform.t),
       (exists message, TransformExporter.exportTransforms transforms dialect = Throw message)
       <-> (exists t, In t (orEmpty transforms) /\ absentOrEmpty (Transform.sources t) = true))
    /\ (forall (before after : list Transform.t) (t : Transform.t),
          (forall u, In u before -> absentOrEmpty (Transform.sources u) = false) ->
          absentOrEmpty (Transform.sources t) = true ->
          TransformExporter.exportTransforms (Some (before ++ t :: after)%list) dialect =
          Throw ("Transform " ++ Transform.name t ++ " has no sources"))
    /\ TransformExporter.exportTransforms None dialect = Normal ""
    /\ TransformExporter.exportTransforms (Some []) dialect = Normal "".
Proof.
  intros dialect. repeat split.
  - intros [message H]. unfold TransformExporter.exportTransforms in H.
    destruct (absentOrEmpty transforms); [discriminate|].
    destruct (mapThrowing _ _) as [ss|m] eqn:E; [discriminate|].
    destruct (mapThrowing_throw_inv _ _ _ E) as [t [Hin Ht]].
    exists t. split; [exact Hin|].
    destruct (absentOrEmpty (Transform.sources t)) eqn:A; [reflexivity|].
    destruct (sql_normal t dialect A) as [sql Hs]. congruence.
  - intros [t [Hin Hno]].
    unfold TransformExporter.exportTransforms.
    destruct transforms as [[|u us]|]; try contradiction. cbn [absentOrEmpty orEmpty].
    cbn [orEmpty] in Hin.
    destruct (mapThrowing _ (u :: us)) as [ss|m] eqn:E; [|now eexists].
    exfalso. revert ss E. induction (u :: us) as [|x xs IH]; [contradiction|].
    intros ss E. simpl in E.
    destruct (TransformExporter.exportTransform x dialect) as [y|m] eqn:Ex; [|discriminate].
    destruct (mapThrowing _ xs) as [ys|m]; [|discriminate].
    destruct Hin as [->|Hin].
    + rewrite (sql_throw_message t dialect Hno) in Ex. discriminate.
    + now apply (IH Hin ys).
  - intros before after t Hb Ht.
    unfold TransformExporter.exportTransforms.
    destruct (before ++ t :: after)%list eqn:E; [now destruct before|].
    cbn [absentOrEmpty orEmpty]. rewrite <- E.
    rewrite (mapThrowing_first_throw _ before after t
               ("Transform " ++ Transform.name t ++ " has no sources")); [reflexivity| |].
    + intros y Hy. apply sql_normal. now apply Hb.
    + now apply sql_throw_message.
Qed.

(** The second of three views has no source: the export stops on it. *)
Lemma exportTransforms_throws_on_first_sourceless_witness :
  TransformExporter.exportTransforms
    (Some [ Transform.Build "a" None None (Some [Sample.source "t"]) None None None
              None None None None None;
            Sample.emptyTransform "b";
            Sample.emptyTransform "c" ]) "postgres"
  = Throw "Transform b has no sources".
Proof.
  refine (proj1 (proj2 (exportTransforms_throws_on_first_sourceless "postgres"))
    [ Transform.Build "a" None None (Some [Sample.source "t"]) None None None
        None None None None None ]
    [ Sample.emptyTransform "c" ] (Sample.emptyTransform "b") _ eq_refl).
  intros u [<-|[]]. reflexivity.
Defined.

(** X2. Exporting two non-empty lists of transforms one after the other gives
    the two exports joined by a line feed; in particular the export of
    [T1, T2] is the statement of T1, a line feed, and the statement of T2. *)
Theorem exportTransforms_concatenates :
  forall (xs ys : list Transform.t) (dialect a b : string),
    xs <> [] -> ys <> [] ->
    TransformExporter.exportTransforms (Some xs) dialect = Normal a ->
    TransformExporter.exportTransforms (Some ys) dialect = Normal b ->
    TransformExporter.exportTransforms (Some (xs ++ ys)%list) dialect = Normal (a ++ LF ++ b).
Proof.
  intros xs ys dialect a b Hx Hy Ha Hb.
  unfold TransformExporter.exportTransforms in *.
  destruct xs as [|x xs]; [contradiction|]. destruct ys as [|y ys]; [contradiction|].
  cbn [absentOrEmpty orEmpty app] in *.
  destruct (mapThrowing _ (x :: xs)) as [us|m] eqn:Ex; [|discriminate].
  destruct (mapThrowing _ (y :: ys)) as [vs|m] eqn:Ey; [|discriminate].
  injection Ha as <-. injection Hb as <-.
  change (x :: (xs ++ y :: ys))%list with ((x :: xs) ++ (y :: ys))%list.
  rewrite (mapThrowing_app _ _ _ _ _ Ex Ey). f_equal.
  apply join_app.
  - apply mapThrowing_length in Ex. destruct us; [discriminate | discriminate].
  - apply mapThrowing_length in Ey. destruct vs; [discriminate | discriminate].
Qed.

(** Two views over Users, as in the exporter's test of several transforms. *)
Lemma exportTransforms_concatenates_witness :
  exists a b,
    TransformExporter.exportTransform
      (Transform.Build "View1" None None (Some [Sample.source "Users"])
         (Some [Sample.plain "Users" "id"]) None None None None None None None)
      "postgres" = Normal a
    /\ TransformExporter.exportTransform
      (Transform.Build "View2" None None (Some [Sample.source "Users"])
         (Some [Sample.plain "Users" "name"]) None None None None None None None)
      "postgres" = Normal b
    /\ TransformExporter.exportTransforms
      (Some [ Transform.Build "View1" None None (Some [Sample.source "Users"])
                (Some [Sample.plain "Users" "id"]) None None None None None None None;
              Transform.Build "View2" None None (Some [Sample.source "Users"])
                (Some [Sample.plain "Users" "name"]) None None None None None None None ])
      "postgres" = Normal (a ++ LF ++ b).
Proof.
  eexists. eexists. split; [reflexivity|]. split; [reflexivity|].
  apply (exportTransforms_concatenates
    [ Transform.Build "View1" None None (Some [Sample.source "Users"])
        (Some [Sample.plain "Users" "id"]) None None None None None None None ]
    [ Transform.Build "View2" None None (Some [Sample.source "Users"])
        (Some [Sample.plain "Users" "name"]) None None None None None None None ]
    "postgres"); try discriminate; reflexivity.
Defined.

(** X3. The dialect has no effect: for every Transform, and for every list of
    transforms, the export is the same text (or the same error) under any two
    dialect tags. *)
Theorem export_ignores_dialect :
  forall (d1 d2 : string),
    (forall t : Transform.t,
       TransformExporter.exportTransform t d1 = TransformExporter.exportTransform t d2)
    /\ (forall transforms : option (list Transform.t),
       TransformExporter.exportTransforms transforms d1 =
       TransformExporter.exportTransforms transforms d2).
Proof.
  intros d1 d2. split; intros; reflexivity.
Qed.

(** ** Reading a limit back from its numeral *)

(** Evaluates [digitValue] on a character that is known. *)
Ltac digit_value :=
  match goal with
  | |- context [digitValue ?c] =>
      let v := eval vm_compute in (digitValue c) in
      change (digitValue c) with v
  end.

Lemma readDigits_acc (d : Decimal.uint) (acc : positive) :
  readDigits (Some (Z.pos acc)) (NilEmpty.string_of_uint d) =
  Some (Z.pos (Pos.of_uint_acc d acc)).
Proof.
  revert acc; induction d; intros acc; cbn [NilEmpty.string_of_uint Pos.of_uint_acc];
    [reflexivity | ..];
    cbn [readDigits]; digit_value; cbv iota beta;
    rewrite <- IHd; f_equal; f_equal; lia.
Qed.

Lemma readDigits_zero (d : Decimal.uint) :
  readDigits (Some 0%Z) (NilEmpty.string_of_uint d) = Some (Z.of_N (Pos.of_uint d)).
Proof.
  induction d; cbn [NilEmpty.string_of_uint Pos.of_uint]; [reflexivity | ..];
    cbn [readDigits]; digit_value; cbv iota beta;
    [exact IHd | apply readDigits_acc ..].
Qed.

Lemma readInteger_uint (d : Decimal.uint) :
  d <> Decimal.Nil ->
  readInteger (NilEmpty.string_of_uint d) = Some (Z.of_N (Pos.of_uint d)).
Proof.
  intros Hd. rewrite <- readDigits_zero.
  destruct d; [contradiction | ..]; reflexivity.
Qed.

Lemma readInteger_minus_uint (d : Decimal.uint) :
  d <> Decimal.Nil ->
  readInteger (String "-"%char (NilEmpty.string_of_uint d)) =
  Some (- Z.of_N (Pos.of_uint d))%Z.
Proof.
  intros Hd. change (readInteger (String "-"%char (NilEmpty.string_of_uint d)))
    with (option_map Z.opp (readDigits None (NilEmpty.string_of_uint d))).
  replace (readDigits None (NilEmpty.string_of_uint d))
    with (readDigits (Some 0%Z) (NilEmpty.string_of_uint d))
    by (destruct d; [contradiction | ..]; reflexivity).
  now rewrite readDigits_zero.
Qed.

(** The integer read from the decimal numeral of [n] is [n]. *)
Lemma readInteger_numeral (n : Z) : readInteger (Spec.numeral n) = Some n.
Proof.
  unfold Spec.numeral. destruct n as [|p|p]; [reflexivity | |].
  - cbn [Z.to_int NilZero.string_of_int].
    unfold NilZero.string_of_uint.
    pose proof (DecimalPos.Unsigned.to_uint_nonnil p) as Hnil.
    destruct (Pos.to_uint p) eqn:E; [contradiction | ..];
      rewrite <- E, readInteger_uint, DecimalPos.Unsigned.of_to by congruence; reflexivity.
  - cbn [Z.to_int NilZero.string_of_int].
    unfold NilZero.string_of_uint.
    pose proof (DecimalPos.Unsigned.to_uint_nonnil p) as Hnil.
    destruct (Pos.to_uint p) eqn:E; [contradiction | ..];
      rewrite <- E, readInteger_minus_uint, DecimalPos.Unsigned.of_to by congruence;
      reflexivity.
Qed.

(** [parseInt] reads the decimal numeral of an integer as the nearest
    double. *)
Lemma parseInt_numeral (n : Z) : parseInt (Spec.numeral n) = roundToDouble n.
Proof.
  unfold parseInt. now rewrite readInteger_numeral.
Qed.

Lemma roundToDouble_safe (n : Z) :
  (Z.abs n < 9007199254740992)%Z -> roundToDouble n = Finite n.
Proof.
  intros H. unfold roundToDouble.
  change (2 ^ 53)%Z with 9007199254740992%Z.
  now rewrite (proj2 (Z.ltb_lt _ _) H).
Qed.

Lemma roundToDouble_not_NaN (n : Z) : isNaN (roundToDouble n) = false.
Proof.
  unfold roundToDouble.
  destruct (Z.abs n <? 2 ^ 53)%Z; [reflexivity|].
  cbv zeta. destruct (2 ^ 1024 <=? _)%Z; reflexivity.
Qed.

(** ** Invariants of the interpreter *)

(** Splits the [match]es of a hypothesis on what they inspect. *)
Ltac break_hyp H :=
  repeat match type of H with
  | context [match ?x with _ => _ end] => destruct x eqn:?
  end.

Ltac break_goal :=
  repeat match goal with
  | |- context [match ?x with _ => _ end] => destruct x eqn:?
  end.

Lemma removelast_snoc_last (fragments : list string) (final : string) :
  TransformInterpreter.lastElement fragments = Some final ->
  fragments = (removelast fragments ++ [final])%list.
Proof.
  destruct fragments as [|f fs] using rev_ind; [discriminate|].
  rewrite lastElement_snoc, removelast_last. now intros [= ->].
Qed.

(** The source the loop of [interpretSources] builds from the fragments of
    an entry is the one the specification describes. *)
Lemma sourceOf_lastElement (fragments : list string) :
  match TransformInterpreter.lastElement fragments with
  | None => fragments = [] /\ Spec.sourceOf fragments = None
  | Some name =>
      fragments <> []
      /\ Spec.sourceOf fragments =
         Some (TransformSource.Build name
                 (if (1 <? length fragments)%nat
                  then Some (join "." (removelast fragments)) else None) None)
  end.
Proof.
  destruct fragments as [|final front _] using rev_ind; [now split|].
  rewrite lastElement_snoc, removelast_last. split; [now destruct front|].
  unfold Spec.sourceOf. rewrite rev_app_distr, length_app. cbn [rev app length].
  destruct (rev front) as [|p ps] eqn:E.
  - apply (f_equal (@rev string)) in E. rewrite rev_involutive in E. now subst front.
  - assert (Hfront : rev (p :: ps) = front) by (now rewrite <- E, rev_involutive).
    assert (Hlen : length front = S (length ps))
      by (now rewrite <- (length_rev front), E).
    rewrite Hfront, Hlen.
    replace (1 <? S (length ps) + 1)%nat with true by (symmetry; apply Nat.ltb_lt; lia).
    reflexivity.
Qed.

(** A source spells the dotted name of the entry it was built from. *)
Lemma sourceOf_spells (fragments : list string) (source : TransformSource.t) :
  Spec.sourceOf fragments = Some source ->
  TransformInterpreter.lastElement fragments = Some (TransformSource.name source)
  /\ TransformSource.alias source = None
  /\ match TransformSource.schemaName source with
     | Some schema => schema ++ "." ++ TransformSource.name source
     | None => TransformSource.name source
     end = join "." fragments.
Proof.
  destruct fragments as [|final front _] using rev_ind; [discriminate|].
  unfold Spec.sourceOf. rewrite rev_app_distr, lastElement_snoc. cbn [rev app].
  destruct (rev front) as [|x preceding] eqn:E.
  - intros [= <-]. apply (f_equal (@rev string)) in E. rewrite rev_involutive in E.
    subst front. repeat split.
  - intros [= <-]. cbn [TransformSource.name TransformSource.schemaName
                        TransformSource.alias].
    apply (f_equal (@rev string)) in E. rewrite rev_involutive in E. subst front.
    repeat split. rewrite (join_snoc "." final (rev (x :: preceding))); [reflexivity|].
    intros H. apply (f_equal (@length string)) in H. rewrite length_rev in H.
    discriminate H.
Qed.

Section Invariants.

Variable SyntaxNode : Type.
Variable asInfixExpressionNode : SyntaxNode -> option (InfixExpressionNode.t SyntaxNode).
Variable destructureComplexVariable : SyntaxNode -> option (list string).
Variable extractVariableFromExpression : SyntaxNode -> option string.
Variable extractElementName : option SyntaxNode -> completion ElementName.t.
Variable aggregateSettingList :
  ListExpressionNode.t SyntaxNode -> string -> option (list (AttributeNode.t SyntaxNode)).
Variable extractVariableFromUndefined : option string.

Local Abbreviation interpretStatement :=
  (TransformInterpreter.interpretStatement SyntaxNode asInfixExpressionNode
     destructureComplexVariable extractVariableFromExpression).
Local Abbreviation interpretLimit :=
  (TransformInterpreter.interpretLimit SyntaxNode extractVariableFromExpression).
Local Abbreviation interpretJoin :=
  (TransformInterpreter.interpretJoin SyntaxNode asInfixExpressionNode
     destructureComplexVariable).
Local Abbreviation interpretWhere :=
  (TransformInterpreter.interpretWhere SyntaxNode destructureComplexVariable).
Local Abbreviation interpretGroupBy :=
  (TransformInterpreter.interpretGroupBy SyntaxNode destructureComplexVariable).
Local Abbreviation interpretColumn :=
  (TransformInterpreter.interpretColumn SyntaxNode destructureComplexVariable
     extractVariableFromExpression aggregateSettingList extractVariableFromUndefined).
Local Abbreviation interpretBody :=
  (TransformInterpreter.interpretBody SyntaxNode asInfixExpressionNode
     destructureComplexVariable extractVariableFromExpression aggregateSettingList
     extractVariableFromUndefined).
Local Abbreviation interpretSource :=
  (TransformInterpreter.interpretSource SyntaxNode destructureComplexVariable).
Local Abbreviation interpretSources :=
  (TransformInterpreter.interpretSources SyntaxNode destructureComplexVariable).
Local Abbreviation interpretName :=
  (TransformInterpreter.interpretName SyntaxNode extractElementName).
Local Abbreviation interpret :=
  (TransformInterpreter.interpret SyntaxNode asInfixExpressionNode
     destructureComplexVariable extractVariableFromExpression extractElementName
     aggregateSettingList extractVariableFromUndefined).

Ltac unfold_statement :=
  unfold TransformInterpreter.interpretStatement, TransformInterpreter.interpretJoin,
    TransformInterpreter.interpretWhere, TransformInterpreter.interpretGroupBy,
    TransformInterpreter.interpretOrderBy, TransformInterpreter.interpretLimit,
    TransformInterpreter.interpretUsing, TransformInterpreter.interpretAdd,
    TransformInterpreter.push, TransformInterpreter.error.

Ltac unfold_statement_in H :=
  unfold TransformInterpreter.interpretStatement, TransformInterpreter.interpretJoin,
    TransformInterpreter.interpretWhere, TransformInterpreter.interpretGroupBy,
    TransformInterpreter.interpretOrderBy, TransformInterpreter.interpretLimit,
    TransformInterpreter.interpretUsing, TransformInterpreter.interpretAdd,
    TransformInterpreter.push, TransformInterpreter.error in H.

(** X4. A limit statement whose token is the decimal numeral of an integer n
    is never refused: the limit becomes the double nearest to n and no
    diagnostic is returned. For an n below 2^53 in absolute value, negative
    ones included, the limit is n itself and the limit clause of the
    Transform is LIMIT followed by the same numeral, except for n = 0,
    which gives no clause. *)
Theorem limit_numeral_round_trip :
  forall (statement : TransformInterpreter.Statement SyntaxNode) (expression : SyntaxNode)
         (transform : Transform.t) (n : Z) (dialect : string),
    TransformStatementNode.expression statement = Some expression ->
    extractVariableFromExpression expression = Some (Spec.numeral n) ->
    exists transform',
      interpretLimit statement transform = Normal ([], transform')
      /\ Transform.limit transform' = Some (roundToDouble n)
      /\ ((Z.abs n <= 9007199254740991)%Z ->
          Transform.limit transform' = Some (Finite n)
          /\ TransformExporter.buildLimitClause transform' dialect =
             (if (n =? 0)%Z then None else Some ("LIMIT " ++ Spec.numeral n))).
Proof.
  intros statement expression transform n dialect Hexpr Htok.
  unfold TransformInterpreter.interpretLimit. rewrite Hexpr, Htok.
  cbn [TransformInterpreter.unwrap_or]. rewrite parseInt_numeral.
  cbv zeta. rewrite roundToDouble_not_NaN.
  eexists. split; [reflexivity|]. split; [reflexivity|].
  intros Hsafe. unfold TransformExporter.buildLimitClause. cbn [Transform.limit].
  rewrite roundToDouble_safe by lia. split; [reflexivity|].
  rewrite numberToString_safe by lia. reflexivity.
Qed.

Lemma interpretStatement_inv (statement : TransformInterpreter.Statement SyntaxNode)
    (transform transform' : Transform.t)
    (errors : list (TransformInterpreter.Diagnostic SyntaxNode)) :
  interpretStatement statement transform = Normal (errors, transform') ->
  length errors <= 1
  /\ (errors <> [] -> transform' = transform)
  /\ Transform.name transform' = Transform.name transform
  /\ Transform.schemaName transform' = Transform.schemaName transform
  /\ Transform.alias transform' = Transform.alias transform
  /\ Transform.sources transform' = Transform.sources transform
  /\ Transform.columns transform' = Transform.columns transform
  /\ (Transform.joins transform <> None -> Transform.joins transform' <> None)
  /\ (Transform.filters transform <> None -> Transform.filters transform' <> None).
Proof.
  intros H. unfold_statement_in H.
  break_hyp H; try discriminate H; injection H as <- <-; cbn;
    repeat split; try lia; try congruence; try (intros E; now contradiction E).
Qed.

Lemma interpretStatement_total (statement : TransformInterpreter.Statement SyntaxNode)
    (transform : Transform.t) :
  Transform.joins transform <> None -> Transform.filters transform <> None ->
  exists result, interpretStatement statement transform = Normal result.
Proof.
  intros Hj Hf. unfold_statement.
  destruct (Transform.joins transform); [|contradiction].
  destruct (Transform.filters transform); [|contradiction].
  break_goal; now eexists.
Qed.

(** X5. A statement either reports or changes the Transform, never both: it
    returns at most one diagnostic, and when it returns one the Transform
    is exactly as before. Whatever the statement, the name, schema, alias,
    sources and columns of the Transform are left as they were. *)
Theorem statement_reports_or_mutates :
  forall (statement : TransformInterpreter.Statement SyntaxNode)
         (transform transform' : Transform.t)
         (errors : list (TransformInterpreter.Diagnostic SyntaxNode)),
    interpretStatement statement transform = Normal (errors, transform') ->
    length errors <= 1
    /\ (errors <> [] -> transform' = transform)
    /\ Transform.name transform' = Transform.name transform
    /\ Transform.schemaName transform' = Transform.schemaName transform
    /\ Transform.alias transform' = Transform.alias transform
    /\ Transform.sources transform' = Transform.sources transform
    /\ Transform.columns transform' = Transform.columns transform.
Proof.
  intros statement transform transform' errors H.
  destruct (interpretStatement_inv _ _ _ _ H) as (H1 & H2 & H3 & H4 & H5 & H6 & H7 & _).
  repeat split; assumption.
Qed.

Lemma interpretColumn_inv (columnNode : TransformColumnNode.t SyntaxNode)
    (transform transform' : Transform.t)
    (errors : list (TransformInterpreter.Report SyntaxNode)) :
  interpretColumn columnNode transform = Normal (errors, transform') ->
  length errors <= 1
  /\ (errors <> [] -> transform' = transform)
  /\ Transform.name transform' = Transform.name transform
  /\ Transform.schemaName transform' = Transform.schemaName transform
  /\ Transform.sources transform' = Transform.sources transform
  /\ Transform.joins transform' = Transform.joins transform
  /\ Transform.filters transform' = Transform.filters transform
  /\ (Transform.columns transform <> None -> Transform.columns transform' <> None).
Proof.
  intros H. unfold TransformInterpreter.interpretColumn, TransformInterpreter.push in H.
  destruct (TransformColumnNode.expression columnNode).
  - destruct (Transform.columns transform); [|discriminate].
    injection H as <- <-. cbn.
    repeat split; try lia; try congruence; try (intros E; now contradiction E).
  - injection H as <- <-. cbn. repeat split; try lia; congruence.
Qed.

Lemma interpretColumn_total (columnNode : TransformColumnNode.t SyntaxNode)
    (transform : Transform.t) :
  Transform.columns transform <> None ->
  exists result, interpretColumn columnNode transform = Normal result.
Proof.
  intros Hc. unfold TransformInterpreter.interpretColumn, TransformInterpreter.push.
  destruct (Transform.columns transform); [|contradiction].
  destruct (TransformColumnNode.expression columnNode); now eexists.
Qed.

(** The body of a declaration never throws on a Transform that has its
    columns, joins and filters arrays, and reports at most once per entry. *)
Lemma interpretBody_total (body : list (BodyElement SyntaxNode)) :
  forall transform : Transform.t,
    Transform.columns transform <> None ->
    Transform.joins transform <> None ->
    Transform.filters transform <> None ->
    exists errors transform',
      interpretBody body transform = Normal (errors, transform')
      /\ length errors <= length body
      /\ Transform.name transform' = Transform.name transform
      /\ Transform.schemaName transform' = Transform.schemaName transform
      /\ Transform.sources transform' = Transform.sources transform.
Proof.
  induction body as [|element body IH]; intros transform Hc Hj Hf.
  - exists [], transform. repeat split. cbn. lia.
  - cbn [TransformInterpreter.interpretBody].
    destruct element as [columnNode|statement|].
    + destruct (interpretColumn_total columnNode transform Hc) as [[errors t1] E].
      rewrite E.
      destruct (interpretColumn_inv _ _ _ _ E) as (L & _ & N & S & Src & J & F & C).
      destruct (IH t1) as (more & t2 & E2 & L2 & N2 & S2 & Src2);
        [auto | congruence | congruence |].
      rewrite E2. exists (errors ++ more)%list, t2.
      rewrite length_app. cbn [length]. repeat split; try congruence; lia.
    + destruct (interpretStatement_total statement transform Hj Hf) as [[errors t1] E].
      rewrite E.
      destruct (interpretStatement_inv _ _ _ _ E) as (L & _ & N & S & _ & Src & C & J & F).
      destruct (IH t1) as (more & t2 & E2 & L2 & N2 & S2 & Src2);
        [congruence | auto | auto |].
      rewrite E2. exists (map (TransformInterpreter.ofStatement SyntaxNode) errors ++ more)%list, t2.
      rewrite length_app, length_map. cbn [length]. repeat split; try congruence; lia.
    + destruct (IH transform Hc Hj Hf) as (more & t2 & E2 & L2 & N2 & S2 & Src2).
      rewrite E2. exists more, t2. cbn [app length]. repeat split; try congruence; lia.
Qed.

(** The expression of an entry of the source list ([attr.name ||
    attr.value]), its diagnostic and its source. *)
Local Abbreviation sourceExpression :=
  (fun attr : AttributeNode.t SyntaxNode =>
     match AttributeNode.name attr with
     | Some n => Some n
     | None => AttributeNode.value attr
     end).
Local Abbreviation sourceFragments :=
  (fun node : SyntaxNode =>
     TransformInterpreter.unwrap_or (destructureComplexVariable node) []).
Local Abbreviation sourceReports :=
  (fun attr : AttributeNode.t SyntaxNode =>
     match sourceExpression attr with
     | Some node =>
         match sourceFragments node with
         | [] => [ CompileError.Build INVALID_NAME "Invalid source specification"
                     (SyntaxRef node) ]
         | _ :: _ => []
         end
     | None => []
     end).
Local Abbreviation sourcesFound :=
  (fun attr : AttributeNode.t SyntaxNode =>
     match sourceExpression attr with
     | Some node =>
         match Spec.sourceOf (sourceFragments node) with
         | Some source => [ source ]
         | None => []
         end
     | None => []
     end).

(** The loop of [interpretSources], entry by entry. *)
Lemma interpretSource_fold (entries : list (AttributeNode.t SyntaxNode)) :
  forall (errors : list (TransformInterpreter.Report SyntaxNode))
         (sources : list TransformSource.t),
    fold_left interpretSource entries (errors, sources)
    = ((errors ++ flat_map sourceReports entries)%list,
       (sources ++ flat_map sourcesFound entries)%list).
Proof.
  induction entries as [|attr entries IH]; intros errors sources.
  - cbn. now rewrite !app_nil_r.
  - cbn [fold_left flat_map]. unfold TransformInterpreter.interpretSource at 2.
    destruct (AttributeNode.name attr) as [node|];
      [|destruct (AttributeNode.value attr) as [node|]].
    3: { rewrite IH. reflexivity. }
    all: pose proof (sourceOf_lastElement (sourceFragments node)) as Hlast;
      destruct (TransformInterpreter.lastElement (sourceFragments node)) as [final|];
      [ destruct Hlast as [Hne ->];
        destruct (sourceFragments node) as [|f fs] eqn:Ef; [contradiction|];
        rewrite IH, <- app_assoc; reflexivity
      | destruct Hlast as [-> ->]; rewrite IH, <- app_assoc; reflexivity ].
Qed.

Lemma sourceReports_length (entries : list (AttributeNode.t SyntaxNode)) :
  length (flat_map sourceReports entries) <= length entries
  /\ Forall (fun e => CompileError.code e = INVALID_NAME) (flat_map sourceReports entries).
Proof.
  induction entries as [|attr entries [IH1 IH2]]; [split; [cbn; lia | constructor]|].
  cbn [flat_map]. rewrite length_app. cbn [length]. split.
  - destruct (sourceExpression attr) as [node|]; [|cbn; lia].
    destruct (sourceFragments node); cbn; lia.
  - apply Forall_app. split; [|exact IH2].
    destruct (sourceExpression attr) as [node|]; [|constructor].
    destruct (sourceFragments node); repeat constructor.
Qed.

(** X6. When the declaration has a source list, [interpretSources] goes
    through its entries in order and each entry gives exactly one result: an
    entry without expression gives nothing, an entry whose expression has no
    name fragments gives one INVALID_NAME diagnostic at that expression, and
    any other entry gives one source, named by its last fragment, with the
    preceding fragments joined by dots as its schema. The sources are
    appended to those the Transform has. On a Transform without sources
    array the first source found is a TypeError. *)
Theorem interpretSources_accounts_for_every_entry :
  forall (declarationNode : ElementDeclarationNode.t SyntaxNode)
         (sourceList : ListExpressionNode.t SyntaxNode)
         (transform : Transform.t),
    ElementDeclarationNode.sourceList declarationNode = Some sourceList ->
    let expression := fun attr : AttributeNode.t SyntaxNode =>
      match AttributeNode.name attr with
      | Some n => Some n
      | None => AttributeNode.value attr
      end in
    let fragments := fun node : SyntaxNode =>
      match destructureComplexVariable node with
      | Some fragments => fragments
      | None => []
      end in
    let reports := fun attr : AttributeNode.t SyntaxNode =>
      match expression attr with
      | Some node =>
          match fragments node with
          | [] => [ CompileError.Build INVALID_NAME "Invalid source specification"
                      (SyntaxRef node) ]
          | _ :: _ => []
          end
      | None => []
      end in
    let found := fun attr : AttributeNode.t SyntaxNode =>
      match expression attr with
      | Some node =>
          match Spec.sourceOf (fragments node) with
          | Some source => [ source ]
          | None => []
          end
      | None => []
      end in
    let entries := ListExpressionNode.elementList sourceList in
    interpretSources declarationNode transform =
      match Transform.sources transform with
      | Some existing =>
          Normal (flat_map reports entries, Transform.Build
            (Transform.name transform) (Transform.schemaName transform)
            (Transform.alias transform) (Some (existing ++ flat_map found entries)%list)
            (Transform.columns transform) (Transform.joins transform)
            (Transform.filters transform) (Transform.groupBy transform)
            (Transform.orderBy transform) (Transform.limit transform)
            (Transform.derivedColumns transform) (Transform.nestedTransform transform))
      | None =>
          match flat_map found entries with
          | [] => Normal (flat_map reports entries, transform)
          | _ :: _ => Throw "TypeError: Cannot read properties of undefined (reading 'push')"
          end
      end
    /\ (forall attr : AttributeNode.t SyntaxNode,
          length (reports attr) + length (found attr) =
          match expression attr with Some _ => 1 | None => 0 end)
    /\ (forall (attr : AttributeNode.t SyntaxNode) (node : SyntaxNode)
               (source : TransformSource.t),
          expression attr = Some node ->
          In source (found attr) ->
          TransformInterpreter.lastElement (fragments node)
            = Some (TransformSource.name source)
          /\ TransformSource.alias source = None
          /\ match TransformSource.schemaName source with
             | Some schema => schema ++ "." ++ TransformSource.name source
             | None => TransformSource.name source
             end = join "." (fragments node)).
Proof.
  intros declarationNode sourceList transform Hlist expression fragments reports found
    entries.
  split; [|split].
  - unfold TransformInterpreter.interpretSources. rewrite Hlist.
    destruct (Transform.sources transform) as [existing|];
      rewrite interpretSource_fold; reflexivity.
  - intros attr. unfold reports, found.
    destruct (expression attr) as [node|]; [|reflexivity].
    pose proof (sourceOf_lastElement (fragments node)) as Hlast.
    destruct (TransformInterpreter.lastElement (fragments node)).
    + destruct Hlast as [Hne ->]. now destruct (fragments node).
    + destruct Hlast as [-> ->]. reflexivity.
  - intros attr node source Hnode Hin. unfold found in Hin. rewrite Hnode in Hin.
    destruct (Spec.sourceOf (fragments node)) as [s0|] eqn:E; [|contradiction].
    destruct Hin as [<-|[]]. now apply sourceOf_spells.
Qed.

(** X7. [interpret] throws in two cases only: when [extractElementName]
    throws on the name of the declaration, with that error, and when the
    body of the declaration is missing or is no block. In every other case
    each step completes and [interpret] returns the diagnostics of
    [interpretName] (one UNSUPPORTED when the name has more than one schema
    segment, none otherwise), then those of [interpretSources] on the named
    Transform (the single UNEXPECTED_TOKEN when the source list is missing,
    else INVALID_NAME diagnostics, at most one per entry), then those of
    [interpretBody] (at most one per entry), with a Transform that carries
    the extracted name. The helpers of the analyzer that return an Option
    or a Report ([destructureComplexVariable],
    [extractVariableFromExpression], [aggregateSettingList]) are taken to
    return. *)
Theorem interpret_throws_only_for_name_or_body :
  forall (declarationNode : ElementDeclarationNode.t SyntaxNode),
    match extractElementName (ElementDeclarationNode.name declarationNode) with
    | Throw message => interpret declarationNode = Throw message
    | Normal extracted =>
        exists nameErrors named sourceErrors sourced,
          interpretName (ElementDeclarationNode.name declarationNode)
            (TransformInterpreter.newTransform) = Normal (nameErrors, named)
          /\ nameErrors =
             match ElementName.schemaName extracted with
             | _ :: _ :: _ =>
                 [ CompileError.Build UNSUPPORTED "Nested schema is not supported"
                     (NameRef (ElementDeclarationNode.name declarationNode)) ]
             | _ => []
             end
          /\ interpretSources declarationNode named = Normal (sourceErrors, sourced)
          /\ match ElementDeclarationNode.sourceList declarationNode with
             | None =>
                 sourceErrors =
                 [ CompileError.Build UNEXPECTED_TOKEN
                     "Transform must specify source tables/transforms"
                     (DeclarationRef declarationNode) ]
             | Some sourceList =>
                 length sourceErrors <= length (ListExpressionNode.elementList sourceList)
                 /\ Forall (fun e => CompileError.code e = INVALID_NAME) sourceErrors
             end
          /\ match ElementDeclarationNode.body declarationNode with
             | Block elements =>
                 exists bodyErrors transform,
                   interpretBody elements sourced = Normal (bodyErrors, transform)
                   /\ interpret declarationNode =
                      Normal ((nameErrors ++ sourceErrors ++ bodyErrors)%list, transform)
                   /\ length bodyErrors <= length elements
                   /\ Transform.name transform = ElementName.name extracted
             | _ => exists message, interpret declarationNode = Throw message
             end
    end.
Proof.
  intros declarationNode.
  destruct (extractElementName (ElementDeclarationNode.name declarationNode))
    as [extracted|message] eqn:Ex.
  2: { unfold TransformInterpreter.interpret, TransformInterpreter.interpretName.
       now rewrite Ex. }
  assert (Hn : exists nameErrors named,
               interpretName (ElementDeclarationNode.name declarationNode)
                 (TransformInterpreter.newTransform) = Normal (nameErrors, named)
               /\ nameErrors =
                  match ElementName.schemaName extracted with
                  | _ :: _ :: _ =>
                      [ CompileError.Build UNSUPPORTED "Nested schema is not supported"
                          (NameRef (ElementDeclarationNode.name declarationNode)) ]
                  | _ => []
                  end
               /\ Transform.name named = ElementName.name extracted
               /\ Transform.sources named = Some []
               /\ Transform.columns named <> None
               /\ Transform.joins named <> None
               /\ Transform.filters named <> None).
  { unfold TransformInterpreter.interpretName. rewrite Ex.
    destruct (ElementName.schemaName extracted) as [|a [|b l]];
      eexists; eexists; (split; [reflexivity|]); cbn; repeat split; discriminate. }
  destruct Hn as (nameErrors & named & En & Ene & Nn & Sn & Cn & Jn & Fn).
  assert (Hs : exists sourceErrors sourced,
             interpretSources declarationNode named = Normal (sourceErrors, sourced)
             /\ Transform.name sourced = Transform.name named
             /\ Transform.columns sourced = Transform.columns named
             /\ Transform.joins sourced = Transform.joins named
             /\ Transform.filters sourced = Transform.filters named
             /\ match ElementDeclarationNode.sourceList declarationNode with
                | None =>
                    sourceErrors =
                    [ CompileError.Build UNEXPECTED_TOKEN
                        "Transform must specify source tables/transforms"
                        (DeclarationRef declarationNode) ]
                | Some sourceList =>
                    length sourceErrors <= length (ListExpressionNode.elementList sourceList)
                    /\ Forall (fun e => CompileError.code e = INVALID_NAME) sourceErrors
                end).
  { unfold TransformInterpreter.interpretSources. rewrite Sn.
    destruct (ElementDeclarationNode.sourceList declarationNode) as [sourceList|].
    - rewrite interpretSource_fold. cbn [app].
      eexists; eexists. split; [reflexivity|]. cbn. repeat split;
        apply sourceReports_length.
    - eexists; eexists. split; [reflexivity|]. repeat split. }
  destruct Hs as (sourceErrors & sourced & Es & N1 & C1 & J1 & F1 & Ls).
  exists nameErrors, named, sourceErrors, sourced.
  split; [exact En|]. split; [exact Ene|]. split; [exact Es|]. split; [exact Ls|].
  unfold TransformInterpreter.interpret. rewrite En, Es.
  unfold TransformInterpreter.interpretDeclarationBody.
  destruct (ElementDeclarationNode.body declarationNode) as [| |elements];
    [now eexists | now eexists |].
  destruct (interpretBody_total elements sourced)
    as (bodyErrors & transform & Eb & Lb & N2 & _); try congruence.
  rewrite Eb. exists bodyErrors, transform.
  repeat split; try assumption; congruence.
Qed.

(** X8. A join statement [lt.lc op rt.rc] on a Transform over two sources,
    with no join yet, where one side names the second source, is rendered by
    the emitter as the single line INNER JOIN on the second source with the
    comparison as its ON body; a missing or empty operator is rendered as the
    equals sign. *)
Theorem join_statement_renders_inner_join :
  forall (statement : TransformInterpreter.Statement SyntaxNode)
         (expression leftExpression rightExpression : SyntaxNode)
         (infix : InfixExpressionNode.t SyntaxNode)
         (lt lc rt rc : string) (transform : Transform.t)
         (first second : TransformSource.t) (dialect : string),
    TransformStatementNode.expression statement = Some expression ->
    asInfixExpressionNode expression = Some infix ->
    InfixExpressionNode.leftExpression infix = Some leftExpression ->
    InfixExpressionNode.rightExpression infix = Some rightExpression ->
    destructureComplexVariable leftExpression = Some [lt; lc] ->
    destructureComplexVariable rightExpression = Some [rt; rc] ->
    Transform.sources transform = Some [first; second] ->
    Transform.joins transform = Some [] ->
    TransformSource.name second = lt \/ TransformSource.name second = rt ->
    let operator :=
      match InfixExpressionNode.op infix with
      | Some v => if truthy v then v else "="
      | None => "="
      end in
    exists transform',
      interpretJoin statement transform = Normal ([], transform')
      /\ TransformExporter.buildJoinClauses transform' dialect =
         [ "  INNER JOIN " ++ sqlTarget second ++ " ON "
             ++ DQ ++ lt ++ DQ ++ "." ++ DQ ++ lc ++ DQ ++ " " ++ operator ++ " "
             ++ DQ ++ rt ++ DQ ++ "." ++ DQ ++ rc ++ DQ ].
Proof.
  intros statement expression leftExpression rightExpression infix lt lc rt rc transform
    first second dialect He Hi Hl Hr Hdl Hdr Hs Hj Hname operator.
  unfold TransformInterpreter.interpretJoin, TransformInterpreter.push.
  rewrite He, Hi, Hl, Hr, Hdl, Hdr, Hj. cbn [TransformInterpreter.unwrap_or app].
  fold operator. eexists. split; [reflexivity|].
  rewrite sql_buildJoinClauses_map. cbn [Transform.sources Transform.joins orEmpty tl map].
  rewrite Hs. cbn [orEmpty tl map]. f_equal.
  unfold Spec.joinClause, Spec.matching.
  cbn [existsb filter TransformJoin.leftTable TransformJoin.rightTable].
  replace ((lt =? TransformSource.name second) || (rt =? TransformSource.name second))
    with true.
  - cbn [orb map join]. rewrite sql_onClause_text. reflexivity.
  - symmetry. apply orb_true_iff.
    destruct Hname as [<-|<-]; [left | right]; apply String.eqb_refl.
Qed.

(** X9. A where statement always appends one filter and never reports, when
    its expression is present: the filter is the dot-joined fragments of the
    expression, and the WHERE clause is then the AND of all filters. An
    expression that has no decomposable name chain gives the filter with the
    empty text, so that a Transform without earlier filters is emitted with
    the clause WHERE and nothing after it. *)
Theorem where_statement_appends_filter :
  forall (statement : TransformInterpreter.Statement SyntaxNode) (expression : SyntaxNode)
         (transform : Transform.t) (filters : list TransformFilter.t) (dialect : string),
    TransformStatementNode.expression statement = Some expression ->
    Transform.filters transform = Some filters ->
    let fragments :=
      TransformInterpreter.unwrap_or (destructureComplexVariable expression) [] in
    exists transform',
      interpretWhere statement transform = Normal ([], transform')
      /\ Transform.filters transform' =
         Some (filters ++ [TransformFilter.Build (join "." fragments)])%list
      /\ TransformExporter.buildWhereClause transform' dialect =
         Some ("WHERE " ++ join " AND "
                 (map TransformFilter.expression filters ++ [join "." fragments]))
      /\ (filters = [] -> fragments = [] ->
          TransformExporter.buildWhereClause transform' dialect = Some "WHERE ").
Proof.
  intros statement expression transform filters dialect He Hf fragments.
  unfold TransformInterpreter.interpretWhere, TransformInterpreter.push,
    TransformInterpreter.expressionToString.
  rewrite He, Hf. fold fragments. eexists. split; [reflexivity|].
  split; [reflexivity|].
  unfold TransformExporter.buildWhereClause. cbn [Transform.filters].
  assert (Hne : absentOrEmpty (Some (filters ++ [TransformFilter.Build (join "." fragments)])%list)
                = false) by (destruct filters; reflexivity).
  rewrite Hne. cbn [orEmpty]. rewrite map_app. cbn [map TransformFilter.expression].
  split; [reflexivity|].
  intros -> Hfr. now rewrite Hfr.
Qed.

(** X10. A column whose head is [table.column] and whose attributes hold no
    agg and no window setting is appended as a plain column and rendered as
    the quoted reference plus its alias: the text under an expr setting is
    stored in the column but never reaches the select list. *)
Theorem expr_setting_of_resolved_column_is_not_rendered :
  forall (columnNode : TransformColumnNode.t SyntaxNode) (expression : SyntaxNode)
         (attributeList : ListExpressionNode.t SyntaxNode)
         (table column : string) (transform : Transform.t)
         (columns : list TransformColumn.t) (dialect : string),
    TransformColumnNode.expression columnNode = Some expression ->
    destructureComplexVariable expression = Some [table; column] ->
    truthy column = true ->
    TransformColumnNode.attributeList columnNode = Some attributeList ->
    TransformInterpreter.firstSetting SyntaxNode (aggregateSettingList attributeList)
      SettingName.Agg = None ->
    TransformInterpreter.firstSetting SyntaxNode (aggregateSettingList attributeList)
      SettingName.Window = None ->
    Transform.columns transform = Some columns ->
    exists col transform',
      interpretColumn columnNode transform = Normal ([], transform')
      /\ Transform.columns transform' = Some (columns ++ [col])%list
      /\ TransformColumn.expression col =
         option_map (TransformInterpreter.expressionToString SyntaxNode destructureComplexVariable)
           (TransformInterpreter.settingValue SyntaxNode (aggregateSettingList attributeList)
              SettingName.Expr)
      /\ TransformExporter.columnExpression dialect col =
         "  " ++ TransformExporter.columnRef table column
           ++ TransformExporter.aliasSuffix (TransformColumn.alias col).
Proof.
  intros columnNode expression attributeList table column transform columns dialect
    He Hd Hc Ha Hagg Hwin Hcols.
  unfold TransformInterpreter.interpretColumn, TransformInterpreter.push.
  rewrite He, Ha, Hcols.
  eexists; eexists. split; [reflexivity|]. split; [reflexivity|].
  unfold TransformInterpreter.applySettings, TransformInterpreter.columnHead.
  rewrite Hd, Hagg, Hwin. cbn [TransformInterpreter.unwrap_or].
  cbn [TransformColumn.expression TransformColumn.aggregation TransformColumn.window
       TransformColumn.alias TransformColumn.sourceTable TransformColumn.sourceColumn].
  split.
  - destruct (TransformInterpreter.settingValue _ _ _); reflexivity.
  - unfold TransformExporter.columnExpression.
    cbn [TransformColumn.expression TransformColumn.aggregation TransformColumn.window
         TransformColumn.alias TransformColumn.sourceTable TransformColumn.sourceColumn].
    rewrite Hc. cbn [negb]. rewrite andb_false_r. reflexivity.
Qed.

End Invariants.

(** [limit: 42] gives the limit 42 and the clause LIMIT 42; the numeral
    9007199254740993, which is 2^53 + 1, is accepted as the limit 2^53. *)
Lemma limit_numeral_round_trip_witness :
  (exists transform',
     TransformInterpreter.interpretLimit Sample.Node Sample.extractVariableFromExpression
       (Sample.statement "limit" (Sample.Dotted ["42"])) (Sample.emptyTransform "v")
     = Normal ([], transform')
     /\ Transform.limit transform' = Some (Finite 42)
     /\ TransformExporter.buildLimitClause transform' "postgres" = Some "LIMIT 42")
  /\ (exists transform',
        TransformInterpreter.interpretLimit Sample.Node Sample.extractVariableFromExpression
          (Sample.statement "limit" (Sample.Dotted ["9007199254740993"]))
          (Sample.emptyTransform "v")
        = Normal ([], transform')
        /\ Transform.limit transform' = Some (Finite 9007199254740992)).
Proof.
  split.
  - destruct (limit_numeral_round_trip Sample.Node Sample.extractVariableFromExpression
      (Sample.statement "limit" (Sample.Dotted ["42"])) (Sample.Dotted ["42"])
      (Sample.emptyTransform "v") 42%Z "postgres" eq_refl eq_refl)
      as (transform' & E & _ & Hsafe).
    exists transform'. split; [exact E|]. apply Hsafe. vm_compute. discriminate.
  - destruct (limit_numeral_round_trip Sample.Node Sample.extractVariableFromExpression
      (Sample.statement "limit" (Sample.Dotted ["9007199254740993"]))
      (Sample.Dotted ["9007199254740993"])
      (Sample.emptyTransform "v") 9007199254740993%Z "postgres" eq_refl eq_refl)
      as (transform' & E & Hlimit & _).
    exists transform'. split; [exact E | exact Hlimit].
Defined.

(** [limit: abc] reports and leaves the Transform alone. *)
Lemma statement_reports_or_mutates_witness :
  Sample.interpretStatement (Sample.statement "limit" (Sample.Dotted ["abc"]))
    (Sample.emptyTransform "v")
  = Normal ([ CompileError.Build INVALID_NAME "Limit must be a number"
                (Sample.statement "limit" (Sample.Dotted ["abc"])) ],
            Sample.emptyTransform "v")
  /\ length [ CompileError.Build INVALID_NAME "Limit must be a number"
                (Sample.statement "limit" (Sample.Dotted ["abc"])) ] <= 1.
Proof.
  split; [reflexivity|].
  exact (proj1 (statement_reports_or_mutates Sample.Node Sample.asInfixExpressionNode
    Sample.destructureComplexVariable Sample.extractVariableFromExpression
    (Sample.statement "limit" (Sample.Dotted ["abc"]))
    (Sample.emptyTransform "v") (Sample.emptyTransform "v")
    [ CompileError.Build INVALID_NAME "Limit must be a number"
        (Sample.statement "limit" (Sample.Dotted ["abc"])) ] eq_refl)).
Defined.

(** The source list [Users, public.Orders, (an expression that is no name)]. *)
Lemma interpretSources_accounts_for_every_entry_witness :
  TransformInterpreter.interpretSources Sample.Node Sample.destructureComplexVariable
    (ElementDeclarationNode.Build (Some (Sample.Dotted ["v"]))
       (Some (ListExpressionNode.Build
          [ Sample.sourceEntry ["Users"]; Sample.sourceEntry ["public"; "Orders"];
            AttributeNode.Build (Some Sample.Opaque) None ])) (Block []))
    (Sample.emptyTransform "v")
  = Normal ([ CompileError.Build INVALID_NAME "Invalid source specification"
                (SyntaxRef Sample.Opaque) ],
            Transform.Build "v" None None
              (Some [ TransformSource.Build "Users" None None;
                      TransformSource.Build "Orders" (Some "public") None ])
              (Some []) (Some []) (Some []) None None None None None).
Proof.
  exact (proj1 (interpretSources_accounts_for_every_entry Sample.Node
    Sample.destructureComplexVariable
    (ElementDeclarationNode.Build (Some (Sample.Dotted ["v"]))
       (Some (ListExpressionNode.Build
          [ Sample.sourceEntry ["Users"]; Sample.sourceEntry ["public"; "Orders"];
            AttributeNode.Build (Some Sample.Opaque) None ])) (Block []))
    (ListExpressionNode.Build
       [ Sample.sourceEntry ["Users"]; Sample.sourceEntry ["public"; "Orders"];
         AttributeNode.Build (Some Sample.Opaque) None ])
    (Sample.emptyTransform "v") eq_refl)).
Defined.

(** The declaration [Transform analytics.public.v [Users] { Users.id
    limit: abc }]: one diagnostic for the nested schema, none for the
    sources, one for the limit; a declaration whose name is no dotted name
    makes [interpret] throw what [extractElementName] throws. *)
Lemma interpret_throws_only_for_name_or_body_witness :
  Sample.interpret
    (ElementDeclarationNode.Build (Some (Sample.Dotted ["analytics"; "public"; "v"]))
       (Some (ListExpressionNode.Build [ Sample.sourceEntry ["Users"] ]))
       (Block [ Sample.column ["Users"; "id"] [];
                StatementElement (Sample.statement "limit" (Sample.Dotted ["abc"])) ]))
  = Normal ([ CompileError.Build UNSUPPORTED "Nested schema is not supported"
                (NameRef (Some (Sample.Dotted ["analytics"; "public"; "v"])));
              CompileError.Build INVALID_NAME "Limit must be a number"
                (StatementRef (Sample.statement "limit" (Sample.Dotted ["abc"]))) ],
            Transform.Build "v" (Some "analytics.public") None
              (Some [ TransformSource.Build "Users" None None ])
              (Some [ Sample.plain "Users" "id" ])
              (Some []) (Some []) None None None None None)
  /\ Sample.interpret
       (ElementDeclarationNode.Build (Some Sample.Opaque) None (Block []))
     = Throw "Trying to unwrap a None value".
Proof.
  split.
  - pose proof (interpret_throws_only_for_name_or_body Sample.Node
      Sample.asInfixExpressionNode Sample.destructureComplexVariable
      Sample.extractVariableFromExpression Sample.extractElementName
      Sample.aggregateSettingList None
      (ElementDeclarationNode.Build (Some (Sample.Dotted ["analytics"; "public"; "v"]))
         (Some (ListExpressionNode.Build [ Sample.sourceEntry ["Users"] ]))
         (Block [ Sample.column ["Users"; "id"] [];
                  StatementElement (Sample.statement "limit" (Sample.Dotted ["abc"])) ])))
      as H.
    cbn in H. destruct H as (nameErrors & named & sourceErrors & sourced
                             & En & _ & Es & _ & bodyErrors & transform & Eb & E & _).
    injection En as <- <-. injection Es as <- <-. injection Eb as <- <-. exact E.
  - exact (interpret_throws_only_for_name_or_body Sample.Node
      Sample.asInfixExpressionNode Sample.destructureComplexVariable
      Sample.extractVariableFromExpression Sample.extractElementName
      Sample.aggregateSettingList None
      (ElementDeclarationNode.Build (Some Sample.Opaque) None (Block []))).
Defined.

(** [join: Users.id = Orders.user_id] over [Users, Orders]. *)
Lemma join_statement_renders_inner_join_witness :
  exists transform',
    TransformInterpreter.interpretJoin Sample.Node Sample.asInfixExpressionNode
      Sample.destructureComplexVariable
      (Sample.statement "join"
         (Sample.Infix "=" (Sample.Dotted ["Users"; "id"]) (Sample.Dotted ["Orders"; "user_id"])))
      (Transform.Build "v" None None (Some [Sample.source "Users"; Sample.source "Orders"])
         (Some []) (Some []) (Some []) None None None None None)
    = Normal ([], transform')
    /\ TransformExporter.buildJoinClauses transform' "postgres" =
       [ "  INNER JOIN " ++ DQ ++ "Orders" ++ DQ ++ " ON "
           ++ DQ ++ "Users" ++ DQ ++ "." ++ DQ ++ "id" ++ DQ ++ " = "
           ++ DQ ++ "Orders" ++ DQ ++ "." ++ DQ ++ "user_id" ++ DQ ].
Proof.
  exact (join_statement_renders_inner_join Sample.Node Sample.asInfixExpressionNode
    Sample.destructureComplexVariable
    (Sample.statement "join"
       (Sample.Infix "=" (Sample.Dotted ["Users"; "id"]) (Sample.Dotted ["Orders"; "user_id"])))
    (Sample.Infix "=" (Sample.Dotted ["Users"; "id"]) (Sample.Dotted ["Orders"; "user_id"]))
    (Sample.Dotted ["Users"; "id"]) (Sample.Dotted ["Orders"; "user_id"])
    (InfixExpressionNode.Build (Some "=") (Some (Sample.Dotted ["Users"; "id"]))
       (Some (Sample.Dotted ["Orders"; "user_id"])))
    "Users" "id" "Orders" "user_id"
    (Transform.Build "v" None None (Some [Sample.source "Users"; Sample.source "Orders"])
       (Some []) (Some []) (Some []) None None None None None)
    (Sample.source "Users") (Sample.source "Orders") "postgres"
    eq_refl eq_refl eq_refl eq_refl eq_refl eq_refl eq_refl eq_refl (or_intror eq_refl)).
Defined.

(** A where statement whose expression is no chain of names. *)
Lemma where_statement_appends_filter_witness :
  exists transform',
    TransformInterpreter.interpretWhere Sample.Node Sample.destructureComplexVariable
      (Sample.statement "where" Sample.Opaque) (Sample.emptyTransform "v")
    = Normal ([], transform')
    /\ TransformExporter.buildWhereClause transform' "postgres" = Some "WHERE ".
Proof.
  destruct (where_statement_appends_filter Sample.Node Sample.destructureComplexVariable
    (Sample.statement "where" Sample.Opaque) Sample.Opaque (Sample.emptyTransform "v")
    [] "postgres" eq_refl eq_refl) as (transform' & E & _ & _ & H).
  exists transform'. split; [exact E | exact (H eq_refl eq_refl)].
Defined.

(** [Users.id [expr: x, as: uid]]. *)
Lemma expr_setting_of_resolved_column_is_not_rendered_witness :
  exists col transform',
    TransformInterpreter.interpretColumn Sample.Node Sample.destructureComplexVariable
      Sample.extractVariableFromExpression Sample.aggregateSettingList None
      (TransformColumnNode.Build (Some (Sample.Dotted ["Users"; "id"]))
         (Some (ListExpressionNode.Build
            [ Sample.attribute "expr" (Sample.Dotted ["x"]);
              Sample.attribute "as" (Sample.Dotted ["uid"]) ])))
      (Sample.emptyTransform "v")
    = Normal ([], transform')
    /\ Transform.columns transform' = Some [col]
    /\ TransformColumn.expression col = Some "x"
    /\ TransformExporter.columnExpression "postgres" col =
       "  " ++ DQ ++ "Users" ++ DQ ++ "." ++ DQ ++ "id" ++ DQ ++ " AS " ++ DQ ++ "uid" ++ DQ.
Proof.
  destruct (expr_setting_of_resolved_column_is_not_rendered Sample.Node
    Sample.destructureComplexVariable Sample.extractVariableFromExpression
    Sample.aggregateSettingList None
    (TransformColumnNode.Build (Some (Sample.Dotted ["Users"; "id"]))
       (Some (ListExpressionNode.Build
          [ Sample.attribute "expr" (Sample.Dotted ["x"]);
            Sample.attribute "as" (Sample.Dotted ["uid"]) ])))
    (Sample.Dotted ["Users"; "id"])
    (ListExpressionNode.Build
       [ Sample.attribute "expr" (Sample.Dotted ["x"]);
         Sample.attribute "as" (Sample.Dotted ["uid"]) ])
    "Users" "id" (Sample.emptyTransform "v") [] "postgres"
    eq_refl eq_refl eq_refl eq_refl eq_refl eq_refl eq_refl)
    as (col & transform' & E & Hc & He & Hr).
  exists col, transform'. repeat split; try assumption.
  - injection E as <-. cbn in Hc. injection Hc as <-. reflexivity.
Defined.

(** ** GROUP BY tokens *)

Lemma includes_char (c : ascii) (s : string) :
  includes s (String c "") = hasChar c s.
Proof.
  induction s as [|a s IH]; [reflexivity|].
  cbn [includes startsWith hasChar]. rewrite IH, andb_true_r. f_equal. apply Ascii.eqb_sym.
Qed.

Lemma hasChar_app (c : ascii) (a b : string) :
  hasChar c (a ++ b) = hasChar c a || hasChar c b.
Proof.
  induction a as [|x a IH]; [reflexivity|].
  cbn [append hasChar]. now rewrite IH, orb_assoc.
Qed.

Lemma split_no_separator (c : ascii) (a : string) :
  hasChar c a = false -> split c a = [a].
Proof.
  induction a as [|x a IH]; [reflexivity|].
  cbn [hasChar split]. intros H. apply orb_false_iff in H as [Hx Ha].
  now rewrite Hx, (IH Ha).
Qed.

Lemma split_at_separator (c : ascii) (a rest : string) :
  hasChar c a = false -> split c (a ++ String c rest) = a :: split c rest.
Proof.
  induction a as [|x a IH]; intros H.
  - cbn [append split]. now rewrite Ascii.eqb_refl.
  - cbn [hasChar] in H. apply orb_false_iff in H as [Hx Ha].
    cbn [append split]. now rewrite Hx, (IH Ha).
Qed.

(** X11. How a GROUP BY token is rendered: a token without a dot is quoted as
    it is; a token [a.b] becomes the quoted pair; and of a token with more
    than one dot only the first two segments are rendered, whatever follows
    the second dot being dropped. *)
Theorem group_by_token_keeps_two_segments :
  forall (a b rest : string),
    hasChar "."%char a = false ->
    hasChar "."%char b = false ->
    TransformExporter.groupByColumn a = DQ ++ a ++ DQ
    /\ TransformExporter.groupByColumn (a ++ "." ++ b) =
       DQ ++ a ++ DQ ++ "." ++ DQ ++ b ++ DQ
    /\ TransformExporter.groupByColumn (a ++ "." ++ b ++ "." ++ rest) =
       DQ ++ a ++ DQ ++ "." ++ DQ ++ b ++ DQ.
Proof.
  intros a b rest Ha Hb. unfold TransformExporter.groupByColumn.
  rewrite !includes_char, !hasChar_app, Ha. cbn [hasChar orb Ascii.eqb Bool.eqb].
  repeat split.
  - change (a ++ "." ++ b) with (a ++ String "."%char b).
    now rewrite (split_at_separator _ _ _ Ha), (split_no_separator _ _ Hb).
  - change (a ++ "." ++ b ++ "." ++ rest) with (a ++ String "."%char (b ++ String "."%char rest)).
    now rewrite (split_at_separator _ _ _ Ha), (split_at_separator _ _ _ Hb).
Qed.

Lemma group_by_token_keeps_two_segments_witness :
  TransformExporter.groupByColumn "db.Users.id" = DQ ++ "db" ++ DQ ++ "." ++ DQ ++ "Users" ++ DQ.
Proof.
  exact (proj2 (proj2 (group_by_token_keeps_two_segments "db" "Users" "id" eq_refl eq_refl))).
Defined.

Lemma groupByColumn_quoted (fragments : list string) :
  Forall (fun f => hasChar "."%char f = false) fragments ->
  map TransformExporter.groupByColumn fragments = map TransformExporter.quoted fragments.
Proof.
  induction 1 as [|f fs Hf _ IH]; [reflexivity|].
  cbn [map]. rewrite IH. f_equal.
  unfold TransformExporter.groupByColumn, TransformExporter.quoted.
  now rewrite includes_char, Hf.
Qed.

(** ** From a statement to its clause *)

Section StatementsToSql.

Variable SyntaxNode : Type.
Variable destructureComplexVariable : SyntaxNode -> option (list string).

Local Abbreviation interpretGroupBy :=
  (TransformInterpreter.interpretGroupBy SyntaxNode destructureComplexVariable).
Local Abbreviation interpretOrderBy :=
  (TransformInterpreter.interpretOrderBy SyntaxNode destructureComplexVariable).
Local Abbreviation parseOrderBy :=
  (TransformInterpreter.parseOrderBy SyntaxNode destructureComplexVariable).

(** X12. A group_by statement appends the fragments of its expression one by
    one and never reports; when no fragment holds a dot, the GROUP BY clause
    lists every fragment as an identifier of its own, separated by commas:
    the fragments of one dotted name are not put together again. *)
Theorem group_by_statement_lists_each_fragment :
  forall (statement : TransformInterpreter.Statement SyntaxNode) (expression : SyntaxNode)
         (transform : Transform.t) (fragments : list string) (dialect : string),
    TransformStatementNode.expression statement = Some expression ->
    TransformInterpreter.unwrap_or (destructureComplexVariable expression) [] = fragments ->
    fragments <> [] ->
    Forall (fun f => hasChar "."%char f = false)
           (orEmpty (Transform.groupBy transform) ++ fragments) ->
    exists transform',
      interpretGroupBy statement transform = Normal ([], transform')
      /\ Transform.groupBy transform' =
         Some (orEmpty (Transform.groupBy transform) ++ fragments)%list
      /\ TransformExporter.buildGroupByClause transform' dialect =
         Some ("GROUP BY " ++ join ", "
                 (map TransformExporter.quoted
                    (orEmpty (Transform.groupBy transform) ++ fragments))).
Proof.
  intros statement expression transform fragments dialect He Hfr Hne Hdots.
  unfold TransformInterpreter.interpretGroupBy. rewrite He, Hfr.
  eexists. split; [reflexivity|].
  change (TransformInterpreter.unwrap_or (Transform.groupBy transform) [])
    with (orEmpty (Transform.groupBy transform)).
  split; [reflexivity|].
  unfold TransformExporter.buildGroupByClause. cbn [Transform.groupBy].
  assert (Hp : absentOrEmpty (Some (orEmpty (Transform.groupBy transform) ++ fragments)%list)
               = false).
  { destruct (orEmpty (Transform.groupBy transform)); [|reflexivity].
    destruct fragments; [contradiction | reflexivity]. }
  rewrite Hp. cbn [orEmpty]. now rewrite (groupByColumn_quoted _ Hdots).
Qed.

(** X13. An order_by statement whose expression gives no term (any fragment
    count other than two after the direction is popped) returns no
    diagnostic and leaves an empty orderBy array on a Transform that had no
    ordering, so that no ORDER BY clause is emitted. With the fragments
    [table, column, direction] the clause is the quoted pair followed by the
    direction in upper case. *)
Theorem order_by_statement_to_clause :
  forall (statement : TransformInterpreter.Statement SyntaxNode) (expression : SyntaxNode)
         (transform : Transform.t) (dialect : string),
    TransformStatementNode.expression statement = Some expression ->
    absentOrEmpty (Transform.orderBy transform) = true ->
    exists transform',
      interpretOrderBy statement transform = Normal ([], transform')
      /\ Transform.orderBy transform' = Some (parseOrderBy expression)
      /\ (parseOrderBy expression = [] ->
          TransformExporter.buildOrderByClause transform' dialect = None)
      /\ (forall table column final,
            destructureComplexVariable expression = Some [table; column; final] ->
            toLowerCase final = "desc" ->
            TransformExporter.buildOrderByClause transform' dialect =
            Some ("ORDER BY " ++ DQ ++ table ++ DQ ++ "." ++ DQ ++ column ++ DQ ++ " DESC")).
Proof.
  intros statement expression transform dialect He Hnone.
  unfold TransformInterpreter.interpretOrderBy. rewrite He.
  eexists. split; [reflexivity|].
  assert (Hold : TransformInterpreter.unwrap_or (Transform.orderBy transform) [] = []).
  { destruct (Transform.orderBy transform) as [[|o os]|]; (discriminate Hnone || reflexivity). }
  cbn [Transform.orderBy]. rewrite Hold. cbn [app].
  split; [reflexivity|].
  unfold TransformExporter.buildOrderByClause. cbn [Transform.orderBy]. split.
  - intros ->. reflexivity.
  - intros table column final Hd Hdesc.
    unfold TransformInterpreter.parseOrderBy. rewrite Hd.
    cbn [TransformInterpreter.unwrap_or].
    change [table; column; final] with ([table; column] ++ [final])%list.
    rewrite lastElement_snoc, lowerIs_eqb, Hdesc, removelast_last.
    cbn [String.eqb Ascii.eqb Bool.eqb andb absentOrEmpty orEmpty map join].
    unfold TransformExporter.orderTerm. cbn [TransformOrderBy.table TransformOrderBy.column
      TransformOrderBy.direction directionText].
    now rewrite ?append_assoc.
Qed.

End StatementsToSql.

(** [group_by: Orders.user_id] gives two identifiers. *)
Lemma group_by_statement_lists_each_fragment_witness :
  exists transform',
    TransformInterpreter.interpretGroupBy Sample.Node Sample.destructureComplexVariable
      (Sample.statement "group_by" (Sample.Dotted ["Orders"; "user_id"]))
      (Sample.emptyTransform "v") = Normal ([], transform')
    /\ TransformExporter.buildGroupByClause transform' "postgres" =
       Some ("GROUP BY " ++ DQ ++ "Orders" ++ DQ ++ ", " ++ DQ ++ "user_id" ++ DQ).
Proof.
  destruct (group_by_statement_lists_each_fragment Sample.Node
    Sample.destructureComplexVariable
    (Sample.statement "group_by" (Sample.Dotted ["Orders"; "user_id"]))
    (Sample.Dotted ["Orders"; "user_id"]) (Sample.emptyTransform "v")
    ["Orders"; "user_id"] "postgres" eq_refl eq_refl)
    as (transform' & E & _ & H).
  - discriminate.
  - repeat constructor.
  - exists transform'. split; [exact E | exact H].
Defined.

(** [order_by: a.b.c] disappears; [order_by: Orders.total DESC] is kept. *)
Lemma order_by_statement_to_clause_witness :
  (exists transform',
     TransformInterpreter.interpretOrderBy Sample.Node Sample.destructureComplexVariable
       (Sample.statement "order_by" (Sample.Dotted ["a"; "b"; "c"]))
       (Sample.emptyTransform "v") = Normal ([], transform')
     /\ TransformExporter.buildOrderByClause transform' "postgres" = None)
  /\ (exists transform',
     TransformInterpreter.interpretOrderBy Sample.Node Sample.destructureComplexVariable
       (Sample.statement "order_by" (Sample.Dotted ["Orders"; "total"; "DESC"]))
       (Sample.emptyTransform "v") = Normal ([], transform')
     /\ TransformExporter.buildOrderByClause transform' "postgres" =
        Some ("ORDER BY " ++ DQ ++ "Orders" ++ DQ ++ "." ++ DQ ++ "total" ++ DQ ++ " DESC")).
Proof.
  split.
  - destruct (order_by_statement_to_clause Sample.Node Sample.destructureComplexVariable
      (Sample.statement "order_by" (Sample.Dotted ["a"; "b"; "c"]))
      (Sample.Dotted ["a"; "b"; "c"]) (Sample.emptyTransform "v") "postgres"
      eq_refl eq_refl) as (transform' & E & _ & H & _).
    exists transform'. split; [exact E | exact (H eq_refl)].
  - destruct (order_by_statement_to_clause Sample.Node Sample.destructureComplexVariable
      (Sample.statement "order_by" (Sample.Dotted ["Orders"; "total"; "DESC"]))
      (Sample.Dotted ["Orders"; "total"; "DESC"]) (Sample.emptyTransform "v") "postgres"
      eq_refl eq_refl) as (transform' & E & _ & _ & H).
    exists transform'. split; [exact E | exact (H "Orders" "total" "DESC" eq_refl eq_refl)].
Defined.

(** ** The dbt artefacts *)

Lemma truthy_false_empty (s : string) : truthy s = false <-> s = "".
Proof.
  destruct s; cbn; split; intros H; (reflexivity || discriminate H).
Qed.

Section DbtArtefacts.

Variable snakeCase : string -> string.
Variable pathJoin : string -> string -> string.
Variable existsSync : string -> bool.

Local Abbreviation generateDbtModel := (DbtExporter.generateDbtModel snakeCase).
Local Abbreviation generateSchemaYml := (DbtExporter.generateSchemaYml snakeCase).
Local Abbreviation writeModels := (DbtExporter.writeModels snakeCase pathJoin).
Local Abbreviation exportTransforms :=
  (DbtExporter.exportTransforms snakeCase pathJoin existsSync).

(** X14. In a dbt model a window column is rendered as FUNC(args) OVER (...)
    plus the alias, with FUNC the function name in upper case. The argument
    list is empty for the rank family and, for any other function, also when
    the column has neither a source table nor a source column, since the
    unquoted reference is then the empty text. *)
Theorem dbt_window_argument_may_vanish :
  forall (col : TransformColumn.t) (win : Window.t),
    TransformColumn.aggregation col = None ->
    TransformColumn.window col = Some win ->
    let func := toUpperCase (Window.function win) in
    let ref := DbtExporter.columnRef (TransformColumn.sourceTable col)
                                     (TransformColumn.sourceColumn col) in
    let args := if arrayIncludes TransformExporter.noArgument func then "" else ref in
    exists over : string,
      DbtExporter.columnExpression col =
        "  " ++ func ++ "(" ++ args ++ ")" ++ " OVER (" ++ over ++ ")"
          ++ DbtExporter.aliasSuffix (TransformColumn.alias col)
      /\ (args = "" <->
          arrayIncludes TransformExporter.noArgument func = true
          \/ (TransformColumn.sourceTable col = "" /\ TransformColumn.sourceColumn col = "")).
Proof.
  intros col win Hagg Hwin func ref args.
  unfold DbtExporter.columnExpression. rewrite Hagg, Hwin.
  unfold DbtExporter.buildWindowColumn. cbv zeta. fold func. fold ref.
  assert (Hargs : (if arrayIncludes TransformExporter.takesArgument func then ref
                   else if negb (arrayIncludes TransformExporter.noArgument func)
                        then ref else "") = args).
  { unfold args.
    destruct (arrayIncludes TransformExporter.takesArgument func) eqn:T.
    - now rewrite (takesArgument_not_noArgument _ T).
    - destruct (arrayIncludes TransformExporter.noArgument func); reflexivity. }
  rewrite Hargs, call_text, over_text.
  match goal with
  | |- context [" OVER (" ++ ?o ++ ")"] => exists o
  end.
  split; [now rewrite !append_assoc|].
  unfold args, ref, DbtExporter.columnRef.
  destruct (arrayIncludes TransformExporter.noArgument func).
  - split; [now left | reflexivity].
  - destruct (truthy (TransformColumn.sourceTable col)) eqn:Tt.
    + split.
      * intros E. destruct (TransformColumn.sourceTable col); discriminate.
      * intros [H|[Ht _]]; [discriminate|]. rewrite Ht in Tt. discriminate.
    + apply truthy_false_empty in Tt. split.
      * intros E. right. now split.
      * intros [H|[_ Hc]]; [discriminate | exact Hc].
Qed.

Lemma dbt_throw_message (t : Transform.t) :
  absentOrEmpty (Transform.sources t) = true ->
  generateDbtModel t = Throw ("Transform " ++ Transform.name t ++ " has no sources").
Proof.
  unfold DbtExporter.generateDbtModel, DbtExporter.buildFromClause.
  destruct (Transform.sources t) as [[|s r]|]; cbn [absentOrEmpty]; intros H;
    (discriminate H || reflexivity).
Qed.

Lemma writeModels_all (modelsDir : string) (transforms : list Transform.t) :
  forall (calls : list FsCall) (models : list string),
    mapThrowing generateDbtModel transforms = Normal models ->
    writeModels modelsDir transforms calls =
    ((calls ++ map (fun written =>
                 WriteFileSync
                   (pathJoin modelsDir (snakeCase (Transform.name (fst written)) ++ ".sql")%string)
                   (snd written))
              (combine transforms models))%list, Normal tt).
Proof.
  induction transforms as [|t ts IH]; intros calls models H; cbn in H.
  - injection H as <-. cbn. now rewrite app_nil_r.
  - cbn [DbtExporter.writeModels].
    destruct (generateDbtModel t) as [sql|m]; [|discriminate].
    destruct (mapThrowing generateDbtModel ts) as [sqls|m] eqn:E; [|discriminate].
    injection H as <-. rewrite (IH _ sqls eq_refl). cbn [combine map fst snd].
    now rewrite <- app_assoc.
Qed.

Lemma writeModels_stops (modelsDir : string) (before after : list Transform.t)
    (t : Transform.t) (message : string) :
  forall (calls : list FsCall) (models : list string),
    mapThrowing generateDbtModel before = Normal models ->
    generateDbtModel t = Throw message ->
    writeModels modelsDir (before ++ t :: after) calls =
    ((calls ++ map (fun written =>
                 WriteFileSync
                   (pathJoin modelsDir (snakeCase (Transform.name (fst written)) ++ ".sql")%string)
                   (snd written))
              (combine before models))%list, Throw message).
Proof.
  induction before as [|b before IH]; intros calls models H Ht; cbn in H.
  - injection H as <-. cbn [app DbtExporter.writeModels combine map].
    now rewrite Ht, app_nil_r.
  - cbn [app DbtExporter.writeModels].
    destruct (generateDbtModel b) as [sql|m]; [|discriminate].
    destruct (mapThrowing generateDbtModel before) as [sqls|m] eqn:E; [|discriminate].
    injection H as <-. rewrite (IH _ sqls eq_refl Ht). cbn [combine map fst snd].
    now rewrite <- app_assoc.
Qed.

(** X15. When a transform of the batch has no source, the dbt export throws
    the error of the first such transform after having written the model
    file of every transform before it: the directory was created if it was
    missing, the models of the later transforms and schema.yml are never
    written, and nothing is removed. *)
Theorem dbt_export_stops_after_partial_writes :
  forall (before after : list Transform.t) (t : Transform.t) (models : list string)
         (outputDir : string),
    mapThrowing generateDbtModel before = Normal models ->
    absentOrEmpty (Transform.sources t) = true ->
    let modelsDir := pathJoin outputDir "models" in
    exportTransforms (Some (before ++ t :: after)%list) outputDir =
    (((if existsSync modelsDir then [] else [ MkdirSync modelsDir ])
      ++ map (fun written =>
                WriteFileSync
                  (pathJoin modelsDir (snakeCase (Transform.name (fst written)) ++ ".sql")%string)
                  (snd written))
             (combine before models))%list,
     Throw ("Transform " ++ Transform.name t ++ " has no sources")).
Proof.
  intros before after t models outputDir Hb Ht modelsDir.
  unfold DbtExporter.exportTransforms.
  destruct (before ++ t :: after)%list eqn:E; [now destruct before|].
  cbn [absentOrEmpty orEmpty]. rewrite <- E. fold modelsDir.
  now rewrite (writeModels_stops modelsDir before after t _ _ models Hb (dbt_throw_message t Ht)).
Qed.

(** X16. When every transform of a non-empty batch has a model, the dbt
    export creates the models directory if it is missing, writes one file
    per transform in order and then schema.yml, and returns the number of
    transforms with the list of file names; the paths written are exactly
    the listed names under the models directory, in the listed order. *)
Theorem dbt_export_writes_what_it_lists :
  forall (transforms : list Transform.t) (models : list string) (outputDir : string),
    transforms <> [] ->
    mapThrowing generateDbtModel transforms = Normal models ->
    let modelsDir := pathJoin outputDir "models" in
    let names := (map (fun t => (snakeCase (Transform.name t) ++ ".sql")%string) transforms
                  ++ [ "schema.yml" ])%list in
    exists writes,
      exportTransforms (Some transforms) outputDir =
        (((if existsSync modelsDir then [] else [ MkdirSync modelsDir ]) ++ writes)%list,
         Normal (ExportSummary.Build (length transforms) (Some modelsDir) (Some names)))
      /\ writes =
         (map (fun written =>
                 WriteFileSync
                   (pathJoin modelsDir
                      (snakeCase (Transform.name (fst written)) ++ ".sql")%string)
                   (snd written))
              (combine transforms models)
          ++ [ WriteFileSync (pathJoin modelsDir "schema.yml") (generateSchemaYml transforms) ])%list
      /\ map (fun call => match call with
                          | WriteFileSync path _ => path
                          | MkdirSync path => path
                          end) writes
         = map (pathJoin modelsDir) names
      /\ length names = S (length transforms).
Proof.
  intros transforms models outputDir Hne Hm modelsDir names.
  unfold DbtExporter.exportTransforms.
  assert (Hsome : absentOrEmpty (Some transforms) = false)
    by (destruct transforms; [contradiction | reflexivity]).
  rewrite Hsome. cbn [orEmpty]. fold modelsDir.
  rewrite (writeModels_all modelsDir transforms _ models Hm).
  exists (map (fun written =>
                 WriteFileSync
                   (pathJoin modelsDir
                      (snakeCase (Transform.name (fst written)) ++ ".sql")%string)
                   (snd written))
              (combine transforms models)
          ++ [ WriteFileSync (pathJoin modelsDir "schema.yml") (generateSchemaYml transforms) ])%list.
  split; [now rewrite app_assoc|]. split; [reflexivity|].
  split.
  - unfold names. rewrite !map_app. cbn [map]. f_equal.
    apply mapThrowing_length in Hm. clear - Hm.
    revert models Hm. induction transforms as [|u us IH]; intros [|m ms] Hm;
      try discriminate Hm; [reflexivity|].
    cbn [combine map fst snd]. f_equal. apply IH. now injection Hm.
  - unfold names. rewrite length_app, length_map. cbn [length]. lia.
Qed.

End DbtArtefacts.

(** A window function over a column that names nothing. *)
Lemma dbt_window_argument_may_vanish_witness :
  DbtExporter.columnExpression
    (TransformColumn.Build "" "" None None None (Some (Window.Build "lag" None None None)))
  = "  LAG() OVER ()".
Proof.
  destruct (dbt_window_argument_may_vanish
    (TransformColumn.Build "" "" None None None (Some (Window.Build "lag" None None None)))
    (Window.Build "lag" None None None) eq_refl eq_refl) as [over [E _]].
  reflexivity.
Defined.

(** Three transforms, the second without a source: the model of the first is
    on disk, nothing else is. *)
Lemma dbt_export_stops_after_partial_writes_witness :
  exists model,
    DbtExporter.exportTransforms toLowerCase (fun dir file => dir ++ "/" ++ file)
      (fun _ => false)
      (Some [ Transform.Build "a" None None (Some [Sample.source "t"]) None None None
                None None None None None;
              Sample.emptyTransform "b";
              Sample.emptyTransform "c" ]) "out"
    = ([ MkdirSync "out/models"; WriteFileSync "out/models/a.sql" model ],
       Throw "Transform b has no sources").
Proof.
  eexists.
  exact (dbt_export_stops_after_partial_writes toLowerCase (fun dir file => dir ++ "/" ++ file)
    (fun _ => false)
    [ Transform.Build "a" None None (Some [Sample.source "t"]) None None None
        None None None None None ]
    [ Sample.emptyTransform "c" ] (Sample.emptyTransform "b") _ "out" eq_refl eq_refl).
Defined.

Lemma dbt_export_writes_what_it_lists_witness :
  exists calls,
    DbtExporter.exportTransforms toLowerCase (fun dir file => dir ++ "/" ++ file)
      (fun _ => true)
      (Some [ Transform.Build "a" None None (Some [Sample.source "t"]) None None None
                None None None None None ]) "out"
    = (calls, Normal (ExportSummary.Build 1 (Some "out/models") (Some ["a.sql"; "schema.yml"])))
    /\ map (fun call => match call with
                        | WriteFileSync path _ => path
                        | MkdirSync path => path
                        end) calls
       = ["out/models/a.sql"; "out/models/schema.yml"].
Proof.
  destruct (dbt_export_writes_what_it_lists toLowerCase (fun dir file => dir ++ "/" ++ file)
    (fun _ => true)
    [ Transform.Build "a" None None (Some [Sample.source "t"]) None None None
        None None None None None ] _ "out" ltac:(discriminate) eq_refl)
    as (writes & E & _ & Hpaths & _).
  exists writes. split; [exact E | exact Hpaths].
Defined.

Lemma fold_left_push_lines {A : Type} (push : list string -> A -> list string)
    (lines : A -> list string) (xs : list A) :
  (forall acc x, push acc x = (acc ++ lines x)%list) ->
  forall acc, fold_left push xs acc = (acc ++ flat_map lines xs)%list.
Proof.
  intros H; induction xs as [|x xs IH]; intros acc; cbn [fold_left flat_map].
  - now rewrite app_nil_r.
  - now rewrite IH, H, <- app_assoc.
Qed.

(** X17. The schema file: the version line, a blank line and the models line,
    then for each transform, in order, its name in snake case, its
    description, one name and description pair per column under a columns
    line that is left out when the transform has no column, and a blank
    line. The name of a column entry is never empty: it is the alias, else
    the source column, else the word unknown. Transforms without sources are
    documented like the others. *)
Theorem schema_yml_documents_every_column :
  forall (snakeCase : string -> string) (transforms : list Transform.t),
    DbtExporter.generateSchemaYml snakeCase transforms =
      join LF
        ([ "version: 2"; ""; "models:" ]
         ++ flat_map (fun t =>
              [ ("  - name: " ++ snakeCase (Transform.name t))%string;
                ("    description: Transform: " ++ Transform.name t)%string ]
              ++ match orEmpty (Transform.columns t) with
                 | [] => []
                 | columns =>
                     "    columns:"
                     :: flat_map (fun c =>
                          [ ("      - name: " ++ DbtExporter.columnName c)%string;
                            ("        description: "
                               ++ ColumnDoc.description (DbtExporter.columnDoc c))%string ])
                          columns
                 end
              ++ [ "" ]) transforms)%list
    /\ (forall c : TransformColumn.t,
          DbtExporter.columnName c <> ""
          /\ (truthyOpt (TransformColumn.alias c) = true ->
              Some (DbtExporter.columnName c) = TransformColumn.alias c)
          /\ (truthyOpt (TransformColumn.alias c) = false ->
              truthy (TransformColumn.sourceColumn c) = true ->
              DbtExporter.columnName c = TransformColumn.sourceColumn c)
          /\ (truthyOpt (TransformColumn.alias c) = false ->
              truthy (TransformColumn.sourceColumn c) = false ->
              DbtExporter.columnName c = "unknown")).
Proof.
  intros snakeCase transforms. split.
  - unfold DbtExporter.generateSchemaYml. f_equal.
    rewrite (fold_left_push_lines (DbtExporter.pushModel)
               (fun model =>
                  [ ("  - name: " ++ ModelDoc.name model)%string;
                    ("    description: " ++ ModelDoc.description model)%string ]
                  ++ match ModelDoc.columns model with
                     | [] => []
                     | columns =>
                         "    columns:"
                         :: flat_map (fun col =>
                              [ ("      - name: " ++ ColumnDoc.name col)%string;
                                ("        description: " ++ ColumnDoc.description col)%string ])
                              columns
                     end
                  ++ [ "" ])%list).
    + f_equal. rewrite flat_map_concat_map, map_map, <- flat_map_concat_map.
      apply flat_map_ext. intros t. unfold DbtExporter.modelDoc.
      cbn [ModelDoc.name ModelDoc.description ModelDoc.columns].
      f_equal. f_equal.
      destruct (orEmpty (Transform.columns t)) as [|c cs]; [reflexivity|].
      cbn [map]. f_equal.
      rewrite (flat_map_concat_map _ (_ :: _)).
      change (DbtExporter.columnDoc c :: map DbtExporter.columnDoc cs)
        with (map DbtExporter.columnDoc (c :: cs)).
      now rewrite map_map, <- flat_map_concat_map.
    + intros acc model. unfold DbtExporter.pushModel.
      destruct (ModelDoc.columns model) as [|c cs] eqn:Ec.
      * now rewrite <- !app_assoc.
      * rewrite (fold_left_push_lines DbtExporter.pushColumn
                   (fun col =>
                      [ ("      - name: " ++ ColumnDoc.name col)%string;
                        ("        description: " ++ ColumnDoc.description col)%string ]))
          by reflexivity.
        now rewrite <- !app_assoc.
  - intros c. unfold DbtExporter.columnName.
    destruct (TransformColumn.alias c) as [a|]; cbn [truthyOpt].
    + destruct (truthy a) eqn:Ta.
      * repeat split; try discriminate. intros ->. discriminate Ta.
      * destruct (truthy (TransformColumn.sourceColumn c)) eqn:Tc;
          repeat split; try discriminate. intros E. rewrite E in Tc. discriminate Tc.
    + destruct (truthy (TransformColumn.sourceColumn c)) eqn:Tc;
        repeat split; try discriminate. intros E. rewrite E in Tc. discriminate Tc.
Qed.

(** X21. The dbt model of a Transform with a source is the five lines of the
    config header, the two comment lines, SELECT, the select list, the FROM
    line, the join lines and the clauses that are present, each followed by
    a line feed: the two empty strings placed in [parts] as blank separators
    are removed by [filter(Boolean)], so the file holds no blank line of its
    own. *)
Theorem dbt_model_has_no_separator_lines :
  forall (snakeCase : string -> string) (t : Transform.t)
         (first : TransformSource.t) (rest : list TransformSource.t),
    Transform.sources t = Some (first :: rest) ->
    DbtExporter.generateDbtModel snakeCase t =
    Normal (join LF
      ([ "{{"; "  config("; "    materialized='view'"; "  )"; "}}";
         "-- Transform: " ++ Transform.name t;
         "-- Generated from DBML";
         "SELECT";
         DbtExporter.buildSelectClause t;
         "FROM " ++ dbtTarget snakeCase first ]
       ++ map (Spec.joinClause (dbtTarget snakeCase) DbtExporter.onClause
                 (orEmpty (Transform.joins t))) rest
       ++ filterBoolean [ DbtExporter.buildWhereClause t;
                          DbtExporter.buildGroupByClause t;
                          DbtExporter.buildOrderByClause t;
                          DbtExporter.buildLimitClause t ])
      ++ LF).
Proof.
  intros snakeCase t first rest Hs. now apply generateDbtModel_lines.
Qed.

(** The model of a view over one table. *)
Lemma dbt_model_has_no_separator_lines_witness :
  DbtExporter.generateDbtModel toLowerCase
    (Transform.Build "V" None None (Some [Sample.source "Users"])
       (Some [Sample.plain "Users" "id"]) None None None None None None None)
  = Normal (join LF
      [ "{{"; "  config("; "    materialized='view'"; "  )"; "}}";
        "-- Transform: V"; "-- Generated from DBML";
        "SELECT"; "  Users.id"; "FROM {{ ref('users') }} AS Users" ] ++ LF).
Proof.
  exact (dbt_model_has_no_separator_lines toLowerCase
    (Transform.Build "V" None None (Some [Sample.source "Users"])
       (Some [Sample.plain "Users" "id"]) None None None None None None None)
    (Sample.source "Users") [] eq_refl).
Defined.

(** ** What the emitters never read *)

Lemma export_reads_eight_fields (t : Transform.t) (schemaName alias : option string)
    (derivedColumns : option (list DerivedColumn.t))
    (nestedTransform : option NestedTransform.t) (dialect : string)
    (snakeCase : string -> string) :
  let t' := Transform.Build (Transform.name t) schemaName alias
              (Transform.sources t) (Transform.columns t) (Transform.joins t)
              (Transform.filters t) (Transform.groupBy t) (Transform.orderBy t)
              (Transform.limit t) derivedColumns nestedTransform in
  TransformExporter.exportTransform t' dialect = TransformExporter.exportTransform t dialect
  /\ DbtExporter.generateDbtModel snakeCase t' = DbtExporter.generateDbtModel snakeCase t.
Proof.
  destruct t. split; reflexivity.
Qed.

(** X18. The SQL statement and the dbt model of a Transform depend only on
    its name, sources, columns, joins, filters, groupBy, orderBy and limit:
    changing its schema name, alias, derived columns or nested transform
    changes nothing in either text. In particular the schema of the view is
    never written into CREATE OR REPLACE VIEW. *)
Theorem emitters_ignore_schema_and_placeholders :
  forall (t : Transform.t) (schemaName alias : option string)
         (derivedColumns : option (list DerivedColumn.t))
         (nestedTransform : option NestedTransform.t) (dialect : string)
         (snakeCase : string -> string),
    let t' := Transform.Build (Transform.name t) schemaName alias
                (Transform.sources t) (Transform.columns t) (Transform.joins t)
                (Transform.filters t) (Transform.groupBy t) (Transform.orderBy t)
                (Transform.limit t) derivedColumns nestedTransform in
    TransformExporter.exportTransform t' dialect = TransformExporter.exportTransform t dialect
    /\ DbtExporter.generateDbtModel snakeCase t' = DbtExporter.generateDbtModel snakeCase t.
Proof.
  intros. apply export_reads_eight_fields.
Qed.

Section Placeholders.

Variable SyntaxNode : Type.
Variable asInfixExpressionNode : SyntaxNode -> option (InfixExpressionNode.t SyntaxNode).
Variable destructureComplexVariable : SyntaxNode -> option (list string).
Variable extractVariableFromExpression : SyntaxNode -> option string.
Variable aggregateSettingList :
  ListExpressionNode.t SyntaxNode -> string -> option (list (AttributeNode.t SyntaxNode)).
Variable extractVariableFromUndefined : option string.

Local Abbreviation interpretStatement :=
  (TransformInterpreter.interpretStatement SyntaxNode asInfixExpressionNode
     destructureComplexVariable extractVariableFromExpression).
Local Abbreviation interpretColumn :=
  (TransformInterpreter.interpretColumn SyntaxNode destructureComplexVariable
     extractVariableFromExpression aggregateSettingList extractVariableFromUndefined).

(** X19. The statements using and add are accepted and have no effect on
    what is emitted: whatever their expression, and whether they report or
    not, the SQL statement and the dbt model of the Transform after the
    statement are those of the Transform before it. *)
Theorem using_and_add_change_no_output :
  forall (statement : TransformInterpreter.Statement SyntaxNode) (keyword : string)
         (transform transform' : Transform.t)
         (errors : list (TransformInterpreter.Diagnostic SyntaxNode))
         (dialect : string) (snakeCase : string -> string),
    TransformStatementNode.keyword statement = Some keyword ->
    toLowerCase keyword = "using" \/ toLowerCase keyword = "add" ->
    interpretStatement statement transform = Normal (errors, transform') ->
    TransformExporter.exportTransform transform' dialect =
      TransformExporter.exportTransform transform dialect
    /\ DbtExporter.generateDbtModel snakeCase transform' =
      DbtExporter.generateDbtModel snakeCase transform.
Proof.
  intros statement keyword transform transform' errors dialect snakeCase Hkw Hk H.
  unfold TransformInterpreter.interpretStatement in H. rewrite Hkw in H.
  cbn [option_map] in H.
  destruct Hk as [Hk|Hk]; rewrite Hk in H; cbn [String.eqb Ascii.eqb Bool.eqb andb] in H.
  - unfold TransformInterpreter.interpretUsing in H.
    break_hyp H; injection H as <- <-;
      (apply export_reads_eight_fields || (split; reflexivity)).
  - unfold TransformInterpreter.interpretAdd in H.
    break_hyp H; injection H as <- <-;
      (apply export_reads_eight_fields || (split; reflexivity)).
Qed.

Lemma join_two_truthy (sep a b : string) (rest : list string) :
  truthy sep = true -> truthy (join sep (a :: b :: rest)) = true.
Proof.
  intros Hs. change (join sep (a :: b :: rest)) with (a ++ sep ++ join sep (b :: rest)).
  destruct a; [cbn [append]; now apply truthy_app | reflexivity].
Qed.

(** X20. A column without attributes whose expression is no name chain is
    appended with empty table, column and expression and rendered as an
    empty quoted identifier; a column whose expression is a chain of three
    or more names is rendered as the dotted chain itself, unquoted. Neither
    is reported. *)
Theorem unresolved_column_rendering :
  forall (columnNode : TransformColumnNode.t SyntaxNode) (expression : SyntaxNode)
         (transform : Transform.t) (columns : list TransformColumn.t) (dialect : string),
    TransformColumnNode.expression columnNode = Some expression ->
    TransformColumnNode.attributeList columnNode = None ->
    Transform.columns transform = Some columns ->
    let fragments :=
      TransformInterpreter.unwrap_or (destructureComplexVariable expression) [] in
    exists col transform',
      interpretColumn columnNode transform = Normal ([], transform')
      /\ Transform.columns transform' = Some (columns ++ [col])%list
      /\ (fragments = [] ->
          TransformExporter.columnExpression dialect col = "  " ++ DQ ++ DQ)
      /\ (3 <= length fragments ->
          TransformExporter.columnExpression dialect col = "  " ++ join "." fragments).
Proof.
  intros columnNode expression transform columns dialect He Ha Hc fragments.
  unfold TransformInterpreter.interpretColumn, TransformInterpreter.push.
  rewrite He, Ha, Hc. eexists; eexists. split; [reflexivity|]. split; [reflexivity|].
  unfold TransformInterpreter.columnHead, TransformInterpreter.expressionToString.
  fold fragments. split.
  - intros ->. reflexivity.
  - intros Hlen. destruct fragments as [|a [|b [|c rest]]]; cbn [length] in Hlen; try lia.
    unfold TransformExporter.columnExpression.
    cbn [TransformColumn.aggregation TransformColumn.window TransformColumn.expression
         TransformColumn.sourceColumn TransformColumn.alias truthyOpt].
    rewrite (join_two_truthy "." a b (c :: rest) eq_refl). cbn [truthy String.eqb negb andb].
    unfold TransformExporter.aliasSuffix. now rewrite append_empty_r.
Qed.

End Placeholders.

(** [using: Other] between two exports. *)
Lemma using_and_add_change_no_output_witness :
  exists transform',
    Sample.interpretStatement (Sample.statement "using" (Sample.Dotted ["Other"]))
      (Transform.Build "v" None None (Some [Sample.source "t"]) (Some []) (Some [])
         (Some []) None None None None None) = Normal ([], transform')
    /\ TransformExporter.exportTransform transform' "postgres" =
       TransformExporter.exportTransform
         (Transform.Build "v" None None (Some [Sample.source "t"]) (Some []) (Some [])
            (Some []) None None None None None) "postgres".
Proof.
  eexists. split; [reflexivity|].
  exact (proj1 (using_and_add_change_no_output Sample.Node Sample.asInfixExpressionNode
    Sample.destructureComplexVariable Sample.extractVariableFromExpression
    (Sample.statement "using" (Sample.Dotted ["Other"])) "using"
    (Transform.Build "v" None None (Some [Sample.source "t"]) (Some []) (Some [])
       (Some []) None None None None None) _ [] "postgres" toLowerCase
    eq_refl (or_introl eq_refl) eq_refl)).
Defined.

(** A column that is an arithmetic expression, and the column [a.b.c]. *)
Lemma unresolved_column_rendering_witness :
  (exists col transform',
     TransformInterpreter.interpretColumn Sample.Node Sample.destructureComplexVariable
       Sample.extractVariableFromExpression Sample.aggregateSettingList None
       (TransformColumnNode.Build (Some Sample.Opaque) None) (Sample.emptyTransform "v")
     = Normal ([], transform')
     /\ Transform.columns transform' = Some [col]
     /\ TransformExporter.columnExpression "postgres" col = "  " ++ DQ ++ DQ)
  /\ (exists col transform',
     TransformInterpreter.interpretColumn Sample.Node Sample.destructureComplexVariable
       Sample.extractVariableFromExpression Sample.aggregateSettingList None
       (TransformColumnNode.Build (Some (Sample.Dotted ["a"; "b"; "c"])) None)
       (Sample.emptyTransform "v")
     = Normal ([], transform')
     /\ Transform.columns transform' = Some [col]
     /\ TransformExporter.columnExpression "postgres" col = "  a.b.c").
Proof.
  split.
  - destruct (unresolved_column_rendering Sample.Node Sample.destructureComplexVariable
      Sample.extractVariableFromExpression Sample.aggregateSettingList None
      (TransformColumnNode.Build (Some Sample.Opaque) None) Sample.Opaque
      (Sample.emptyTransform "v") [] "postgres" eq_refl eq_refl eq_refl)
      as (col & transform' & E & Hc & H & _).
    exists col, transform'. repeat split; [exact E | exact Hc | exact (H eq_refl)].
  - destruct (unresolved_column_rendering Sample.Node Sample.destructureComplexVariable
      Sample.extractVariableFromExpression Sample.aggregateSettingList None
      (TransformColumnNode.Build (Some (Sample.Dotted ["a"; "b"; "c"])) None)
      (Sample.Dotted ["a"; "b"; "c"])
      (Sample.emptyTransform "v") [] "postgres" eq_refl eq_refl eq_refl)
      as (col & transform' & E & Hc & _ & H).
    exists col, transform'. repeat split; [exact E | exact Hc | apply H; cbn; lia].
Defined.
